(** * Student Portal API: authentication and authorization

    A shallow embedding of [main.py]: the authentication core (token
    issuance and verification, the role gate, registration and login)
    and the profile, teacher, student and admin handlers built on it,
    followed by their properties.

    Python dictionaries are finite maps from field names to dynamically
    typed values, the MongoDB handle [db] is an optional map from
    collection names to lists of documents, and every handler is a
    computation in a state-and-exception monad over that handle.  The
    third-party libraries (PyJWT, passlib, datetime formatting) are an
    interface with a stated contract. *)

From Stdlib Require Import ZArith Ascii String DecimalString DecimalZ.
From Stdlib.Strings Require Import Byte.
From stdpp Require Import base option list strings gmap fin_maps.

Local Open Scope string_scope.
Local Open Scope Z_scope.

(** ** Python values and exceptions *)

(** A BSON ObjectId: twelve bytes. *)
Record ObjectId := mkObjectId {
  oid_b0 : byte; oid_b1 : byte; oid_b2 : byte; oid_b3 : byte;
  oid_b4 : byte; oid_b5 : byte; oid_b6 : byte; oid_b7 : byte;
  oid_b8 : byte; oid_b9 : byte; oid_b10 : byte; oid_b11 : byte
}.

#[global] Instance byte_eq_decision : EqDecision byte := Byte.byte_eq_dec.

#[global] Instance ObjectId_eq_decision : EqDecision ObjectId.
Proof. solve_decision. Defined.

(** The values a document field or a JSON claim can hold.  A [datetime]
    is its POSIX timestamp in whole seconds, the resolution at which a
    token stores its expiry. *)
Inductive value :=
| VNone
| VBool (b : bool)
| VInt (z : Z)
| VStr (s : string)
| VOid (o : ObjectId)
| VTime (t : Z).

#[global] Instance value_eq_decision : EqDecision value.
Proof. solve_decision. Defined.

(** A Python [dict] with string keys: a request payload, a JWT payload,
    a MongoDB document or a query filter. *)
Abbreviation doc := (gmap string value).

(** Python truthiness, as used by [if not x]. *)
Definition truthy (v : value) : bool :=
  match v with
  | VNone => false
  | VBool b => b
  | VInt z => negb (z =? 0)
  | VStr s => negb (bool_decide (s = ""))
  | VOid _ => true
  | VTime _ => true
  end.

(** Truthiness of what [find_one] returns: [None] and the empty dict are
    falsy. *)
Definition truthy_doc (o : option doc) : bool :=
  match o with
  | None => false
  | Some d => negb (bool_decide (d = ∅))
  end.

(** Truthiness of an optional header string. *)
Definition truthy_str (o : option string) : bool :=
  match o with
  | None => false
  | Some s => negb (bool_decide (s = ""))
  end.

(** The exceptions the handlers raise or let through.  [HTTPException] is
    FastAPI's; [ExpiredSignatureError] is PyJWT's; every other exception
    class is kept by name. *)
Inductive exn :=
| HTTPException (status_code : Z) (detail : string)
| ExpiredSignatureError
| PyException (cls : string).

#[global] Instance exn_eq_decision : EqDecision exn.
Proof. solve_decision. Defined.

Inductive result (A : Type) :=
| Ok (a : A)
| Raise (e : exn).
Arguments Ok {A} a.
Arguments Raise {A} e.

(** ** Strings *)

(** [s.split(sep)] for a one-character separator. *)
Fixpoint split (sep : ascii) (s : string) : list string :=
  match s with
  | EmptyString => [EmptyString]
  | String c s' =>
      if bool_decide (c = sep) then EmptyString :: split sep s'
      else match split sep s' with
           | w :: ws => String c w :: ws
           | [] => [String c EmptyString]
           end
  end.

(** [s.lower()] on the letters A-Z.  Header text is Latin-1; the other
    characters [lower] changes there stay outside a-z either way. *)
Definition lower_ascii (c : ascii) : ascii :=
  let n := nat_of_ascii c in
  if (65 <=? n)%nat && (n <=? 90)%nat then ascii_of_nat (n + 32) else c.

Fixpoint lower (s : string) : string :=
  match s with
  | EmptyString => EmptyString
  | String c s' => String (lower_ascii c) (lower s')
  end.

(** ** Hexadecimal text and ObjectId *)

Definition hex_digit (b3 b2 b1 b0 : bool) : ascii :=
  match b3, b2, b1, b0 with
  | false, false, false, false => "0"
  | false, false, false, true => "1"
  | false, false, true, false => "2"
  | false, false, true, true => "3"
  | false, true, false, false => "4"
  | false, true, false, true => "5"
  | false, true, true, false => "6"
  | false, true, true, true => "7"
  | true, false, false, false => "8"
  | true, false, false, true => "9"
  | true, false, true, false => "a"
  | true, false, true, true => "b"
  | true, true, false, false => "c"
  | true, true, false, true => "d"
  | true, true, true, false => "e"
  | true, true, true, true => "f"
  end%char.

Definition hex_value (c : ascii) : option (bool * bool * bool * bool) :=
  match c with
  | "0" => Some (false, false, false, false)
  | "1" => Some (false, false, false, true)
  | "2" => Some (false, false, true, false)
  | "3" => Some (false, false, true, true)
  | "4" => Some (false, true, false, false)
  | "5" => Some (false, true, false, true)
  | "6" => Some (false, true, true, false)
  | "7" => Some (false, true, true, true)
  | "8" => Some (true, false, false, false)
  | "9" => Some (true, false, false, true)
  | "a" | "A" => Some (true, false, true, false)
  | "b" | "B" => Some (true, false, true, true)
  | "c" | "C" => Some (true, true, false, false)
  | "d" | "D" => Some (true, true, false, true)
  | "e" | "E" => Some (true, true, true, false)
  | "f" | "F" => Some (true, true, true, true)
  | _ => None
  end%char.

(** Two lowercase hex digits of a byte, high nibble first. *)
Definition byte_hex (b : byte) : string :=
  let '(b0, (b1, (b2, (b3, (b4, (b5, (b6, b7))))))) := Byte.to_bits b in
  String (hex_digit b7 b6 b5 b4) (String (hex_digit b3 b2 b1 b0) EmptyString).

Definition byte_of_hex (c1 c2 : ascii) : option byte :=
  match hex_value c1, hex_value c2 with
  | Some (h3, h2, h1, h0), Some (l3, l2, l1, l0) =>
      Some (Byte.of_bits (l0, (l1, (l2, (l3, (h0, (h1, (h2, h3))))))))
  | _, _ => None
  end.

(** [bytes.fromhex] on text made of hex pairs only.  The function also
    skips ASCII whitespace between pairs; text that holds any is taken
    as malformed here. *)
Fixpoint bytes_fromhex (s : string) : option (list byte) :=
  match s with
  | EmptyString => Some []
  | String c1 (String c2 s') =>
      match byte_of_hex c1 c2, bytes_fromhex s' with
      | Some b, Some bs => Some (b :: bs)
      | _, _ => None
      end
  | String _ EmptyString => None
  end.

(** [str(ObjectId)]: 24 lowercase hex digits. *)
Definition ObjectId_str (o : ObjectId) : string :=
  byte_hex (oid_b0 o) +:+ byte_hex (oid_b1 o) +:+ byte_hex (oid_b2 o) +:+
  byte_hex (oid_b3 o) +:+ byte_hex (oid_b4 o) +:+ byte_hex (oid_b5 o) +:+
  byte_hex (oid_b6 o) +:+ byte_hex (oid_b7 o) +:+ byte_hex (oid_b8 o) +:+
  byte_hex (oid_b9 o) +:+ byte_hex (oid_b10 o) +:+ byte_hex (oid_b11 o).

(** [ObjectId(s)] for a string: 24 hex digits, or [InvalidId] ([None]). *)
Definition ObjectId_of_str (s : string) : option ObjectId :=
  match bytes_fromhex s with
  | Some [a0; a1; a2; a3; a4; a5; a6; a7; a8; a9; a10; a11] =>
      Some (mkObjectId a0 a1 a2 a3 a4 a5 a6 a7 a8 a9 a10 a11)
  | _ => None
  end.

(** ** The libraries behind the handlers *)

(** PyJWT, passlib's bcrypt handler and [datetime] as the handlers call
    them.  [jwt_decode] also takes the clock reading it validates [exp]
    against; [bcrypt_hash] takes the salt the handler draws.  Signing
    is taken to succeed: a payload PyJWT cannot serialise is outside
    this interface.  Hashing, decoding and verification return or
    raise; passlib documents [hash] and [verify] to raise
    [PasswordValueError] on a password its algorithm does not take (for
    bcrypt, one that holds a NUL byte), and [verify] to raise
    [ValueError] when the hash does not match the algorithm's format and
    [TypeError] when it is not a string. *)
Class Libraries := {
  jwt_encode : doc → string → string;
  jwt_decode : string → string → Z → result doc;
  bcrypt_hash : string → string → result string;
  bcrypt_verify : string → value → result bool;
  datetime_str : Z → string;
  datetime_isoformat : Z → string
}.

(** The environment-provided settings, [SECRET_KEY] and [JWT_EXP_MIN]. *)
Class Config := {
  SECRET_KEY : string;
  JWT_EXP_MIN : Z
}.

(** The values used when the environment sets neither variable. *)
Definition default_config : Config :=
  {| SECRET_KEY := "dev-secret-key-change-me"; JWT_EXP_MIN := 60 |}.

(** A value is JSON-representable when PyJWT can serialise it. *)
Definition json_value (v : value) : bool :=
  match v with
  | VNone | VBool _ | VInt _ | VStr _ => true
  | VOid _ | VTime _ => false
  end.

(** The claims of a token: subject, role and expiry. *)
Definition claims (sub : string) (role exp : value) : doc :=
  {[ "sub" := VStr sub; "role" := role; "exp" := exp ]}.

(** The contract of the libraries the properties below rely on.
    - A compact JWT is base64url text and dots: it holds no space.
    - For a payload of subject, JSON-representable role and a [datetime]
      expiry, decoding the signed token with the signing key returns the
      payload with [exp] as an integer while the clock is before [exp],
      and raises [ExpiredSignatureError] once the clock is past it.  At
      the instant of expiry the outcome is left to the library.
    - A hash [bcrypt_hash] returns verifies against its password.
    - Whether the hasher takes a password does not depend on the salt
      it draws. *)
Class LibrariesSpec (L : Libraries) : Prop := {
  jwt_encode_no_space : ∀ p k, " "%char ∉ list_ascii_of_string (jwt_encode p k);
  jwt_decode_live : ∀ sub role k e now,
    json_value role = true →
    now < e →
    jwt_decode (jwt_encode (claims sub role (VTime e)) k) k now
      = Ok (claims sub role (VInt e));
  jwt_decode_expired : ∀ sub role k e now,
    json_value role = true →
    e < now →
    jwt_decode (jwt_encode (claims sub role (VTime e)) k) k now
      = Raise ExpiredSignatureError;
  bcrypt_verify_hash : ∀ pw salt h,
    bcrypt_hash pw salt = Ok h → bcrypt_verify pw (VStr h) = Ok true;
  bcrypt_hash_refusal : ∀ pw salt salt' e,
    bcrypt_hash pw salt = Raise e → bcrypt_hash pw salt' = Raise e
}.

(** ** The handler monad: the global [db] and exceptions *)

Abbreviation Database := (gmap string (list doc)).

Definition M (A : Type) : Type := option Database → result A * option Database.

Definition ret {A} (a : A) : M A := λ s, (Ok a, s).
Definition raise {A} (e : exn) : M A := λ s, (Raise e, s).
Definition lift {A} (r : result A) : M A := λ s, (r, s).
Definition bind {A B} (m : M A) (k : A → M B) : M B := λ s,
  match m s with
  | (Ok a, s') => k a s'
  | (Raise e, s') => (Raise e, s')
  end.

(** [try: body except e: handler e]. *)
Definition try_except {A} (body : M A) (handler : exn → M A) : M A := λ s,
  match body s with
  | (Ok a, s') => (Ok a, s')
  | (Raise e, s') => handler e s'
  end.

Notation "x <- m ;; k" := (bind m (λ x, k))
  (at level 100, m at next level, right associativity).
Notation "m ;;; k" := (bind m (λ _, k))
  (at level 100, right associativity).

(** [x is None]. *)
Definition is_none {A} (o : option A) : bool :=
  match o with None => true | Some _ => false end.

(** Reading the module-level [db], [None] when no database is set up. *)
Definition the_db : M (option Database) := λ s, (Ok s, s).

Definition collection (d : Database) (c : string) : list doc :=
  default [] (d !! c).

(** An equality filter [q] selects the documents that carry each of its
    fields with that value.  The server also lets a filter value [None]
    select a document without the field; the filters of the handlers
    hold the strings and ids of stored documents, and a [None] in a
    filter is matched here like any other value. *)
Definition doc_matches (q d : doc) : bool :=
  bool_decide (map_Forall (λ k v, d !! k = Some v) q).

(** [db[c].find_one(q)]: the first matching document in insertion order.
    Subscripting a missing handle is a [TypeError]. *)
Definition find_one (c : string) (q : doc) : M (option doc) := λ s,
  match s with
  | None => (Raise (PyException "TypeError"), s)
  | Some d => (Ok (List.find (doc_matches q) (collection d c)), s)
  end.

(** [db[c].insert_one(d).inserted_id]: a document without [_id] is stored
    under the ObjectId the driver generates, here [new_id]. *)
Definition insert_one (c : string) (d : doc) (new_id : ObjectId) : M value := λ s,
  match s with
  | None => (Raise (PyException "TypeError"), s)
  | Some db =>
      let inserted_id := default (VOid new_id) (d !! "_id") in
      (Ok inserted_id,
       Some (<[c := (collection db c ++ [<["_id" := inserted_id]> d])%list]> db))
  end.

Section Handlers.
Context {L : Libraries} {C : Config}.

(** [str(v)]. *)
Definition py_str (v : value) : string :=
  match v with
  | VNone => "None"
  | VBool true => "True"
  | VBool false => "False"
  | VInt z => NilZero.string_of_int (Z.to_int z)
  | VStr s => s
  | VOid o => ObjectId_str o
  | VTime t => datetime_str t
  end.

(** [oid]: [ObjectId(id_str)], any failure turned into a 400.  The
    constructor makes up a fresh id for [None]; every handler tests for
    a missing id before it calls [oid], and that call is not modelled:
    [None] falls under the other values here. *)
Definition oid (id_str : value) : result ObjectId :=
  match id_str with
  | VOid o => Ok o
  | VStr s =>
      match ObjectId_of_str s with
      | Some o => Ok o
      | None => Raise (HTTPException 400 "Invalid id format")
      end
  | _ => Raise (HTTPException 400 "Invalid id format")
  end.

Definition serialize_doc (d : doc) : doc :=
  if bool_decide (d = ∅) then d
  else
    let d1 := match d !! "_id" with
              | Some i => <["id" := VStr (py_str i)]> (delete "_id" d)
              | None => d
              end in
    (λ v, match v with VTime t => VStr (datetime_isoformat t) | _ => v end) <$> d1.

(** *** Auth helpers *)

Definition create_token (user : doc) (now : Z) : result string :=
  match user !! "_id" with
  | None => Raise (PyException "KeyError")
  | Some i =>
      let payload : doc :=
        {[ "sub" := VStr (py_str i);
           "role" := default (VStr "student") (user !! "role");
           "exp" := VTime (now + 60 * JWT_EXP_MIN) ]} in
      Ok (jwt_encode payload SECRET_KEY)
  end.

(** The tuple unpacking [scheme, token = parts]. *)
Definition unpack2 (parts : list string) : result (string * string) :=
  match parts with
  | [a; b] => Ok (a, b)
  | _ => Raise (PyException "ValueError")
  end.

(** The [try] block of [get_current_user]. *)
Definition get_current_user_try (authorization : option string) (now : Z) : M doc :=
  st <- lift (unpack2 (split " " (default "" authorization))) ;;
  let '(scheme, token) := st in
  if negb (bool_decide (lower scheme = "bearer")) then
    raise (PyException "Exception")
  else
    payload <- lift (jwt_decode token SECRET_KEY now) ;;
    let user_id := default VNone (payload !! "sub") in
    if negb (truthy user_id) then raise (PyException "Exception")
    else
      db <- the_db ;;
      if is_none db then raise (PyException "Exception")
      else
        i <- lift (oid user_id) ;;
        user <- find_one "user" {[ "_id" := VOid i ]} ;;
        if negb (truthy_doc user) then raise (PyException "Exception")
        else ret (default ∅ user).

Definition get_current_user (authorization : option string) (now : Z) : M doc :=
  if negb (truthy_str authorization) then
    raise (HTTPException 401 "Missing Authorization header")
  else
    try_except
      (get_current_user_try authorization now)
      (λ e, match e with
            | ExpiredSignatureError => raise (HTTPException 401 "Token expired")
            | _ => raise (HTTPException 401 "Invalid token")
            end).

Definition require_role (user : doc) (roles : list string) : result unit :=
  match user !! "role" with
  | Some (VStr r) =>
      if bool_decide (r ∈ roles) then Ok tt
      else Raise (HTTPException 403 "Forbidden")
  | _ => Raise (HTTPException 403 "Forbidden")
  end.

(** [d[k]]: a missing key is a [KeyError]. *)
Definition subscript (d : doc) (k : string) : result value :=
  match d !! k with
  | Some v => Ok v
  | None => Raise (PyException "KeyError")
  end.

(** An [Optional[str]] body field as a document value. *)
Definition opt_str (o : option string) : value :=
  match o with Some s => VStr s | None => VNone end.

Definition opt_time (o : option Z) : value :=
  match o with Some t => VTime t | None => VNone end.

(** A handler parameter declared [current=Depends(get_current_user)]:
    the dependency is resolved on the request's Authorization header
    before the handler body runs. *)
Definition Depends_get_current_user {A} (handler : doc → M A)
    (authorization : option string) (now : Z) : M A :=
  current <- get_current_user authorization now ;;
  handler current.

End Handlers.

(** *** Request and response models *)

Inductive Role := student | teacher | admin.

#[global] Instance Role_eq_decision : EqDecision Role.
Proof. solve_decision. Defined.

Definition role_str (r : Role) : string :=
  match r with
  | student => "student"
  | teacher => "teacher"
  | admin => "admin"
  end.

Module RegisterRequest.
Record t := mk { name : string; email : string; password : string; role : Role }.
End RegisterRequest.

Module LoginRequest.
Record t := mk { email : string; password : string }.
End LoginRequest.

Module TokenResponse.
Record t := mk { access_token : string; token_type : string }.
End TokenResponse.

Module CourseCreate.
Record t := mk {
  title : string; description : option string; subject : option string }.
End CourseCreate.

Module AssignmentCreate.
Record t := mk {
  course_id : string; title : string;
  description : option string; due_date : option Z }.
End AssignmentCreate.

Section Endpoints.
Context {L : Libraries} {C : Config}.

(** *** Auth endpoints *)

(** [POST /auth/register].  [now] is the clock, [salt] the salt the
    hasher draws and [new_id] the ObjectId the driver generates. *)
Definition register (payload : RegisterRequest.t)
    (now : Z) (salt : string) (new_id : ObjectId) : M TokenResponse.t :=
  db <- the_db ;;
  if is_none db then raise (HTTPException 500 "Database unavailable")
  else if bool_decide (RegisterRequest.role payload = admin) then
    raise (HTTPException 400 "Cannot self-register as admin")
  else
    existing <- find_one "user" {[ "email" := VStr (RegisterRequest.email payload) ]} ;;
    if truthy_doc existing then
      raise (HTTPException 400 "Email already registered")
    else
      let approved := bool_decide (RegisterRequest.role payload = student) in
      password_hash <- lift (bcrypt_hash (RegisterRequest.password payload) salt) ;;
      let user_doc : doc :=
        {[ "name" := VStr (RegisterRequest.name payload);
           "email" := VStr (RegisterRequest.email payload);
           "password_hash" := VStr password_hash;
           "role" := VStr (role_str (RegisterRequest.role payload));
           "approved" := VBool approved;
           "created_at" := VTime now;
           "updated_at" := VTime now ]} in
      inserted_id <- insert_one "user" user_doc new_id ;;
      let user_doc := <["_id" := inserted_id]> user_doc in
      token <- lift (create_token user_doc now) ;;
      ret (TokenResponse.mk token "bearer").

(** [POST /auth/login]. *)
Definition login (payload : LoginRequest.t) (now : Z) : M TokenResponse.t :=
  db <- the_db ;;
  if is_none db then raise (HTTPException 500 "Database unavailable")
  else
    user <- find_one "user" {[ "email" := VStr (LoginRequest.email payload) ]} ;;
    rejected <-
      (if negb (truthy_doc user) then ret true
       else
         ok <- lift (bcrypt_verify (LoginRequest.password payload)
                       (default (VStr "") (default ∅ user !! "password_hash"))) ;;
         ret (negb ok)) ;;
    if (rejected : bool) then raise (HTTPException 401 "Invalid credentials")
    else
      let user := default ∅ user in
      if negb (bool_decide (default VNone (user !! "role") = VStr "admin"))
         && negb (truthy (default (VBool false) (user !! "approved")))
      then raise (HTTPException 403 "Account pending approval")
      else
        token <- lift (create_token user now) ;;
        ret (TokenResponse.mk token "bearer").

(** *** Teacher endpoints *)

(** [POST /teacher/courses], the handler body. *)
Definition create_course (body : CourseCreate.t) (current : doc)
    (now : Z) (new_id : ObjectId) : M doc :=
  db <- the_db ;;
  if is_none db then raise (HTTPException 500 "Database unavailable")
  else
    lift (require_role current ["teacher"; "admin"]) ;;;
    role <- lift (subscript current "role") ;;
    teacher_id <-
      (if bool_decide (role = VStr "teacher") then
         i <- lift (subscript current "_id") ;; ret (VStr (py_str i))
       else
         (* [body.__dict__] holds the declared fields only *)
         let given := VNone in
         if truthy given then ret given
         else i <- lift (subscript current "_id") ;; ret (VStr (py_str i))) ;;
    let d : doc :=
      {[ "title" := VStr (CourseCreate.title body);
         "description" := opt_str (CourseCreate.description body);
         "subject" := opt_str (CourseCreate.subject body);
         "teacher_id" := teacher_id;
         "created_at" := VTime now;
         "updated_at" := VTime now ]} in
    inserted_id <- insert_one "course" d new_id ;;
    let d := <["_id" := inserted_id]> d in
    ret (serialize_doc d).

(** [POST /teacher/assignments], the handler body. *)
Definition create_assignment (body : AssignmentCreate.t) (current : doc)
    (now : Z) (new_id : ObjectId) : M doc :=
  db <- the_db ;;
  if is_none db then raise (HTTPException 500 "Database unavailable")
  else
    lift (require_role current ["teacher"; "admin"]) ;;;
    i <- lift (oid (VStr (AssignmentCreate.course_id body))) ;;
    course <- find_one "course" {[ "_id" := VOid i ]} ;;
    if negb (truthy_doc course) then raise (HTTPException 404 "Course not found")
    else
      let course := default ∅ course in
      role <- lift (subscript current "role") ;;
      not_owner <-
        (if bool_decide (role = VStr "teacher") then
           me <- lift (subscript current "_id") ;;
           ret (negb (bool_decide
                  (default VNone (course !! "teacher_id") = VStr (py_str me))))
         else ret false) ;;
      if (not_owner : bool) then raise (HTTPException 403 "Not your course")
      else
        let d : doc :=
          {[ "course_id" := VStr (AssignmentCreate.course_id body);
             "title" := VStr (AssignmentCreate.title body);
             "description" := opt_str (AssignmentCreate.description body);
             "due_date" := opt_time (AssignmentCreate.due_date body);
             "created_at" := VTime now;
             "updated_at" := VTime now ]} in
        inserted_id <- insert_one "assignment" d new_id ;;
        let d := <["_id" := inserted_id]> d in
        ret (serialize_doc d).

End Endpoints.

(** ** The remaining driver operations *)

(** [$set] on the first document the filter selects. *)
Fixpoint update_first (q fields : doc) (l : list doc) : list doc :=
  match l with
  | [] => []
  | d :: l' =>
      if doc_matches q d then (fields ∪ d) :: l'
      else d :: update_first q fields l'
  end.

(** [db[c].update_one(q, {"$set": fields})]: without a match nothing is
    written. *)
Definition update_one (c : string) (q fields : doc) : M unit := λ s,
  match s with
  | None => (Raise (PyException "TypeError"), s)
  | Some db =>
      if existsb (doc_matches q) (collection db c) then
        (Ok tt, Some (<[c := update_first q fields (collection db c)]> db))
      else (Ok tt, Some db)
  end.

(** [db[c].find(q)]: the matching documents in insertion order. *)
Definition find_many (c : string) (q : doc) : M (list doc) := λ s,
  match s with
  | None => (Raise (PyException "TypeError"), s)
  | Some db => (Ok (List.filter (doc_matches q) (collection db c)), s)
  end.

(** [db[c].count_documents(q)]. *)
Definition count_documents (c : string) (q : doc) : M Z := λ s,
  match s with
  | None => (Raise (PyException "TypeError"), s)
  | Some db =>
      (Ok (Z.of_nat (length (List.filter (doc_matches q) (collection db c)))), s)
  end.

(** [cursor.sort(key, direction)].  The server's order among documents
    with equal keys is not fixed, so the sort is an operation of the
    driver with a contract: it rearranges, and neither adds nor drops. *)
Class Cursor := {
  cursor_sort : string → Z → list doc → list doc
}.

Class CursorSpec (K : Cursor) : Prop := {
  cursor_sort_perm : ∀ key direction l, cursor_sort key direction l ≡ₚ l
}.

(** *** Further request models *)

Module ProfileUpdate.
Record t := mk {
  name : option string; bio : option string; avatar_url : option string }.
End ProfileUpdate.

Module Audience.
Inductive t := all | course.
End Audience.

#[global] Instance Audience_eq_decision : EqDecision Audience.t.
Proof. solve_decision. Defined.

Definition audience_str (a : Audience.t) : string :=
  match a with
  | Audience.all => "all"
  | Audience.course => "course"
  end.

Module AnnouncementCreate.
Record t := mk {
  title : string; content : string;
  course_id : option string; audience : Audience.t }.
End AnnouncementCreate.

Module MaterialCreate.
Record t := mk {
  course_id : string; title : string;
  description : option string; file_url : option string }.
End MaterialCreate.

Module EnrollRequest.
Record t := mk { course_id : string }.
End EnrollRequest.

Module SubmissionCreate.
Record t := mk {
  assignment_id : string; content : option string; file_url : option string }.
End SubmissionCreate.

Module ApproveUserRequest.
Record t := mk { user_id : string; approved : bool }.
End ApproveUserRequest.

Module AssignTeacherRequest.
Record t := mk { course_id : string; teacher_id : string }.
End AssignTeacherRequest.

Section MoreEndpoints.
Context {L : Libraries} {C : Config} {K : Cursor}.

(** *** Startup *)

(** [seed_admin], with the [ADMIN_EMAIL] and [ADMIN_PASSWORD] settings as
    parameters. *)
Definition seed_admin (admin_email admin_pass : string)
    (now : Z) (salt : string) (new_id : ObjectId) : M unit :=
  db <- the_db ;;
  if is_none db then ret tt
  else
    try_except
      (existing <- find_one "user" {[ "email" := VStr admin_email ]} ;;
       if negb (truthy_doc existing) then
         password_hash <- lift (bcrypt_hash admin_pass salt) ;;
         insert_one "user"
           {[ "name" := VStr "Administrator";
              "email" := VStr admin_email;
              "password_hash" := VStr password_hash;
              "role" := VStr "admin";
              "approved" := VBool true;
              "created_at" := VTime now;
              "updated_at" := VTime now ]} new_id ;;;
         ret tt
       else ret tt)
      (λ _, ret tt).

(** *** Profile *)

(** The dict comprehension [{k: v for k, v in d.items() if k !=
    "password_hash"}]. *)
Definition without_password_hash (d : doc) : doc := delete "password_hash" d.

(** [GET /me], the handler body. *)
Definition me (current : doc) : M doc :=
  ret (serialize_doc (without_password_hash current)).

(** The fields of a [ProfileUpdate] that are not [None]. *)
Definition profile_data (update : ProfileUpdate.t) : doc :=
  let field (k : string) (o : option string) (d : doc) : doc :=
    match o with Some s => <[k := VStr s]> d | None => d end in
  field "name" (ProfileUpdate.name update)
    (field "bio" (ProfileUpdate.bio update)
       (field "avatar_url" (ProfileUpdate.avatar_url update) ∅)).

(** [PATCH /me], the handler body. *)
Definition update_me (update : ProfileUpdate.t) (current : doc) (now : Z) : M doc :=
  db <- the_db ;;
  if is_none db then raise (HTTPException 500 "Database unavailable")
  else
    let data := profile_data update in
    if bool_decide (data = ∅) then ret (serialize_doc current)
    else
      let data := <["updated_at" := VTime now]> data in
      i <- lift (subscript current "_id") ;;
      update_one "user" {[ "_id" := i ]} data ;;;
      i <- lift (subscript current "_id") ;;
      refreshed <- find_one "user" {[ "_id" := i ]} ;;
      match refreshed with
      | Some r => ret (serialize_doc (without_password_hash r))
      | None => raise (PyException "AttributeError")
      end.

(** *** Teacher endpoints *)

(** [GET /teacher/courses], the handler body. *)
Definition my_courses (current : doc) : M (list doc) :=
  db <- the_db ;;
  if is_none db then raise (HTTPException 500 "Database unavailable")
  else
    lift (require_role current ["teacher"; "admin"]) ;;;
    role <- lift (subscript current "role") ;;
    q <- (if bool_decide (role = VStr "teacher") then
            i <- lift (subscript current "_id") ;;
            ret ({[ "teacher_id" := VStr (py_str i) ]} : doc)
          else ret (∅ : doc)) ;;
    found <- find_many "course" q ;;
    ret (serialize_doc <$> cursor_sort "created_at" (-1) found).

(** [GET /teacher/submissions/{assignment_id}], the handler body.  The
    course is looked at for a teacher only: [and] stops at a role that
    is not "teacher". *)
Definition list_submissions (assignment_id : string) (current : doc) : M (list doc) :=
  db <- the_db ;;
  if is_none db then raise (HTTPException 500 "Database unavailable")
  else
    lift (require_role current ["teacher"; "admin"]) ;;;
    i <- lift (oid (VStr assignment_id)) ;;
    assignment <- find_one "assignment" {[ "_id" := VOid i ]} ;;
    if negb (truthy_doc assignment) then
      raise (HTTPException 404 "Assignment not found")
    else
      course_id <- lift (subscript (default ∅ assignment) "course_id") ;;
      c <- lift (oid course_id) ;;
      course <- find_one "course" {[ "_id" := VOid c ]} ;;
      role <- lift (subscript current "role") ;;
      not_owner <-
        (if bool_decide (role = VStr "teacher") then
           match course with
           | None => raise (PyException "AttributeError")
           | Some course =>
               me <- lift (subscript current "_id") ;;
               ret (negb (bool_decide
                      (default VNone (course !! "teacher_id") = VStr (py_str me))))
           end
         else ret false) ;;
      if (not_owner : bool) then raise (HTTPException 403 "Not your course")
      else
        found <- find_many "submission" {[ "assignment_id" := VStr assignment_id ]} ;;
        ret (serialize_doc <$> cursor_sort "created_at" (-1) found).

(** [POST /teacher/announcements], the handler body. *)
Definition create_announcement (body : AnnouncementCreate.t) (current : doc)
    (now : Z) (new_id : ObjectId) : M doc :=
  db <- the_db ;;
  if is_none db then raise (HTTPException 500 "Database unavailable")
  else
    lift (require_role current ["teacher"; "admin"]) ;;;
    (if bool_decide (AnnouncementCreate.audience body = Audience.course) then
       if negb (truthy (opt_str (AnnouncementCreate.course_id body))) then
         raise (HTTPException 400 "course_id required for course audience")
       else
         i <- lift (oid (opt_str (AnnouncementCreate.course_id body))) ;;
         course <- find_one "course" {[ "_id" := VOid i ]} ;;
         if negb (truthy_doc course) then
           raise (HTTPException 404 "Course not found")
         else
           let course := default ∅ course in
           role <- lift (subscript current "role") ;;
           not_owner <-
             (if bool_decide (role = VStr "teacher") then
                me <- lift (subscript current "_id") ;;
                ret (negb (bool_decide
                       (default VNone (course !! "teacher_id") = VStr (py_str me))))
              else ret false) ;;
           if (not_owner : bool) then raise (HTTPException 403 "Not your course")
           else ret tt
     else ret tt) ;;;
    author <- lift (subscript current "_id") ;;
    let d : doc :=
      {[ "title" := VStr (AnnouncementCreate.title body);
         "content" := VStr (AnnouncementCreate.content body);
         "author_id" := VStr (py_str author);
         "course_id" := opt_str (AnnouncementCreate.course_id body);
         "audience" := VStr (audience_str (AnnouncementCreate.audience body));
         "created_at" := VTime now ]} in
    inserted_id <- insert_one "announcement" d new_id ;;
    let d := <["_id" := inserted_id]> d in
    ret (serialize_doc d).

(** [POST /teacher/materials], the handler body. *)
Definition upload_material (body : MaterialCreate.t) (current : doc)
    (now : Z) (new_id : ObjectId) : M doc :=
  db <- the_db ;;
  if is_none db then raise (HTTPException 500 "Database unavailable")
  else
    lift (require_role current ["teacher"; "admin"]) ;;;
    i <- lift (oid (VStr (MaterialCreate.course_id body))) ;;
    course <- find_one "course" {[ "_id" := VOid i ]} ;;
    if negb (truthy_doc course) then raise (HTTPException 404 "Course not found")
    else
      let course := default ∅ course in
      role <- lift (subscript current "role") ;;
      not_owner <-
        (if bool_decide (role = VStr "teacher") then
           me <- lift (subscript current "_id") ;;
           ret (negb (bool_decide
                  (default VNone (course !! "teacher_id") = VStr (py_str me))))
         else ret false) ;;
      if (not_owner : bool) then raise (HTTPException 403 "Not your course")
      else
        let d : doc :=
          {[ "course_id" := VStr (MaterialCreate.course_id body);
             "title" := VStr (MaterialCreate.title body);
             "description" := opt_str (MaterialCreate.description body);
             "file_url" := opt_str (MaterialCreate.file_url body);
             "created_at" := VTime now ]} in
        inserted_id <- insert_one "material" d new_id ;;
        let d := <["_id" := inserted_id]> d in
        ret (serialize_doc d).

(** *** Student endpoints *)

(** [POST /student/enroll], the handler body. *)
Definition enroll_course (body : EnrollRequest.t) (current : doc)
    (now : Z) (new_id : ObjectId) : M doc :=
  db <- the_db ;;
  if is_none db then raise (HTTPException 500 "Database unavailable")
  else
    lift (require_role current ["student"]) ;;;
    i <- lift (oid (VStr (EnrollRequest.course_id body))) ;;
    course <- find_one "course" {[ "_id" := VOid i ]} ;;
    if negb (truthy_doc course) then raise (HTTPException 404 "Course not found")
    else
      me <- lift (subscript current "_id") ;;
      exists_ <- find_one "enrollment"
                   {[ "course_id" := VStr (EnrollRequest.course_id body);
                      "student_id" := VStr (py_str me) ]} ;;
      if truthy_doc exists_
         && bool_decide (default VNone (default ∅ exists_ !! "status") = VStr "enrolled")
      then ret (serialize_doc (default ∅ exists_))
      else
        me <- lift (subscript current "_id") ;;
        let d : doc :=
          {[ "course_id" := VStr (EnrollRequest.course_id body);
             "student_id" := VStr (py_str me);
             "status" := VStr "enrolled";
             "created_at" := VTime now ]} in
        inserted_id <- insert_one "enrollment" d new_id ;;
        let d := <["_id" := inserted_id]> d in
        ret (serialize_doc d).

(** [POST /student/submit], the handler body.  The response is optional
    because [serialize_doc] hands a [None] back unchanged. *)
Definition submit_assignment (body : SubmissionCreate.t) (current : doc)
    (now : Z) (new_id : ObjectId) : M (option doc) :=
  db <- the_db ;;
  if is_none db then raise (HTTPException 500 "Database unavailable")
  else
    lift (require_role current ["student"]) ;;;
    i <- lift (oid (VStr (SubmissionCreate.assignment_id body))) ;;
    assignment <- find_one "assignment" {[ "_id" := VOid i ]} ;;
    if negb (truthy_doc assignment) then
      raise (HTTPException 404 "Assignment not found")
    else
      course_id <- lift (subscript (default ∅ assignment) "course_id") ;;
      me <- lift (subscript current "_id") ;;
      enr <- find_one "enrollment"
               {[ "course_id" := course_id;
                  "student_id" := VStr (py_str me);
                  "status" := VStr "enrolled" ]} ;;
      if negb (truthy_doc enr) then
        raise (HTTPException 403 "Not enrolled in course")
      else
        me <- lift (subscript current "_id") ;;
        existing <- find_one "submission"
                      {[ "assignment_id" := VStr (SubmissionCreate.assignment_id body);
                         "student_id" := VStr (py_str me) ]} ;;
        me <- lift (subscript current "_id") ;;
        let d : doc :=
          {[ "assignment_id" := VStr (SubmissionCreate.assignment_id body);
             "student_id" := VStr (py_str me);
             "content" := opt_str (SubmissionCreate.content body);
             "file_url" := opt_str (SubmissionCreate.file_url body);
             "created_at" := VTime now;
             "updated_at" := VTime now ]} in
        if truthy_doc existing then
          e <- lift (subscript (default ∅ existing) "_id") ;;
          update_one "submission" {[ "_id" := e ]} d ;;;
          e <- lift (subscript (default ∅ existing) "_id") ;;
          updated <- find_one "submission" {[ "_id" := e ]} ;;
          ret (serialize_doc <$> updated)
        else
          inserted_id <- insert_one "submission" d new_id ;;
          let d := <["_id" := inserted_id]> d in
          ret (Some (serialize_doc d)).

(** *** Admin endpoints *)

(** [GET /admin/users], the handler body. *)
Definition list_users (current : doc) : M (list doc) :=
  db <- the_db ;;
  if is_none db then raise (HTTPException 500 "Database unavailable")
  else
    lift (require_role current ["admin"]) ;;;
    found <- find_many "user" ∅ ;;
    ret ((λ u, serialize_doc (without_password_hash u))
           <$> cursor_sort "created_at" (-1) found).

(** [POST /admin/approve], the handler body. *)
Definition approve_user (body : ApproveUserRequest.t) (current : doc)
    (now : Z) : M doc :=
  db <- the_db ;;
  if is_none db then raise (HTTPException 500 "Database unavailable")
  else
    lift (require_role current ["admin"]) ;;;
    i <- lift (oid (VStr (ApproveUserRequest.user_id body))) ;;
    update_one "user" {[ "_id" := VOid i ]}
      {[ "approved" := VBool (ApproveUserRequest.approved body);
         "updated_at" := VTime now ]} ;;;
    i <- lift (oid (VStr (ApproveUserRequest.user_id body))) ;;
    user <- find_one "user" {[ "_id" := VOid i ]} ;;
    if negb (truthy_doc user) then raise (HTTPException 404 "User not found")
    else ret (serialize_doc (without_password_hash (default ∅ user))).

(** [POST /admin/assign-teacher], the handler body. *)
Definition assign_teacher (body : AssignTeacherRequest.t) (current : doc)
    (now : Z) : M doc :=
  db <- the_db ;;
  if is_none db then raise (HTTPException 500 "Database unavailable")
  else
    lift (require_role current ["admin"]) ;;;
    t <- lift (oid (VStr (AssignTeacherRequest.teacher_id body))) ;;
    teacher <- find_one "user" {[ "_id" := VOid t ]} ;;
    if negb (truthy_doc teacher)
       || negb (bool_decide
                  (default VNone (default ∅ teacher !! "role") = VStr "teacher"))
    then raise (HTTPException 400 "Invalid teacher")
    else
      i <- lift (oid (VStr (AssignTeacherRequest.course_id body))) ;;
      update_one "course" {[ "_id" := VOid i ]}
        {[ "teacher_id" := VStr (AssignTeacherRequest.teacher_id body);
           "updated_at" := VTime now ]} ;;;
      i <- lift (oid (VStr (AssignTeacherRequest.course_id body))) ;;
      course <- find_one "course" {[ "_id" := VOid i ]} ;;
      if negb (truthy_doc course) then raise (HTTPException 404 "Course not found")
      else ret (serialize_doc (default ∅ course)).

(** [GET /admin/stats], the handler body. *)
Definition stats (current : doc) : M doc :=
  db <- the_db ;;
  if is_none db then raise (HTTPException 500 "Database unavailable")
  else
    lift (require_role current ["admin"]) ;;;
    users <- count_documents "user" ∅ ;;
    students <- count_documents "user" {[ "role" := VStr "student" ]} ;;
    teachers <- count_documents "user" {[ "role" := VStr "teacher" ]} ;;
    courses <- count_documents "course" ∅ ;;
    assignments <- count_documents "assignment" ∅ ;;
    submissions <- count_documents "submission" ∅ ;;
    announcements <- count_documents "announcement" ∅ ;;
    materials <- count_documents "material" ∅ ;;
    ret ({[ "users" := VInt users;
            "students" := VInt students;
            "teachers" := VInt teachers;
            "courses" := VInt courses;
            "assignments" := VInt assignments;
            "submissions" := VInt submissions;
            "announcements" := VInt announcements;
            "materials" := VInt materials ]} : doc).

End MoreEndpoints.

(** ** A reference instance of the libraries

    An executable stand-in for PyJWT and passlib with the same external
    behaviour as far as the handlers observe it: a token is the
    hex-encoded payload followed by a dot and the hex-encoded key (no
    cryptographic protection is modelled); decoding checks the key, then
    the payload's shape, then the expiry; a password hash starts with the
    bcrypt identifier and cost, and verifying against a string that does
    not is a [ValueError], as passlib documents for a hash that does not
    match the algorithm's format. *)
Module Reference.

Fixpoint hex_encode (s : string) : string :=
  match s with
  | EmptyString => EmptyString
  | String c s' => byte_hex (byte_of_ascii c) +:+ hex_encode s'
  end.

Definition hex_decode (s : string) : option string :=
  match bytes_fromhex s with
  | Some bs => Some (string_of_list_ascii (List.map ascii_of_byte bs))
  | None => None
  end.

Definition encode_value (v : value) : string :=
  match v with
  | VNone => "n"
  | VBool true => "t"
  | VBool false => "f"
  | VInt z => String "i" (hex_encode (NilZero.string_of_int (Z.to_int z)))
  | VStr s => String "s" (hex_encode s)
  | VOid _ | VTime _ => "n"
  end.

Definition decode_value (s : string) : option value :=
  match s with
  | String "n" EmptyString => Some VNone
  | String "t" EmptyString => Some (VBool true)
  | String "f" EmptyString => Some (VBool false)
  | String "i" s' =>
      match hex_decode s' with
      | Some t =>
          match NilZero.int_of_string t with
          | Some n => Some (VInt (Z.of_int n))
          | None => None
          end
      | None => None
      end
  | String "s" s' =>
      match hex_decode s' with
      | Some t => Some (VStr t)
      | None => None
      end
  | _ => None
  end.

Fixpoint encode_items (l : list (string * value)) : string :=
  match l with
  | [] => EmptyString
  | (k, v) :: l' =>
      hex_encode k +:+ String ":" (encode_value v +:+ String ";" (encode_items l'))
  end.

Fixpoint decode_items (items : list string) : option (list (string * value)) :=
  match items with
  | [] => None
  | [last] => if bool_decide (last = "") then Some [] else None
  | item :: rest =>
      match split ":" item with
      | [k; v] =>
          match hex_decode k, decode_value v, decode_items rest with
          | Some k', Some v', Some l => Some ((k', v') :: l)
          | _, _, _ => None
          end
      | _ => None
      end
  end.

(** PyJWT stores a [datetime] under [exp] as its integer timestamp. *)
Definition numeric_date (p : doc) : doc :=
  match p !! "exp" with
  | Some (VTime e) => <["exp" := VInt e]> p
  | _ => p
  end.

Definition encode (p : doc) (key : string) : string :=
  encode_items (map_to_list (numeric_date p)) +:+ String "." (hex_encode key).

Definition decode (token key : string) (now : Z) : result doc :=
  match split "." token with
  | [body; sig] =>
      if negb (bool_decide (sig = hex_encode key)) then
        Raise (PyException "InvalidSignatureError")
      else
        match decode_items (split ";" body) with
        | Some l =>
            let p : doc := list_to_map l in
            match p !! "exp" with
            | Some (VInt e) =>
                if e <=? now then Raise ExpiredSignatureError else Ok p
            | Some _ => Raise (PyException "DecodeError")
            | None => Ok p
            end
        | None => Raise (PyException "DecodeError")
        end
  | _ => Raise (PyException "DecodeError")
  end.

Definition ident : string := "$2b$12$".

Fixpoint strip_prefix (p s : string) : option string :=
  match p, s with
  | EmptyString, _ => Some s
  | String a p', String b s' =>
      if bool_decide (a = b) then strip_prefix p' s' else None
  | String _ _, EmptyString => None
  end.

(** The text of a hash. *)
Definition hash (secret salt : string) : string :=
  ident +:+ hex_encode salt +:+ String "." (hex_encode secret).

(** A password bcrypt does not take: one that holds a NUL byte. *)
Definition has_nul (secret : string) : bool :=
  existsb (λ a, bool_decide (a = "000"%char)) (list_ascii_of_string secret).

(** [bcrypt.hash]. *)
Definition hash_password (secret salt : string) : result string :=
  if has_nul secret then Raise (PyException "PasswordValueError")
  else Ok (hash secret salt).

(** [bcrypt.verify]: the hash is parsed first, the password is looked
    at when the digest is computed. *)
Definition verify (secret : string) (h : value) : result bool :=
  match h with
  | VStr s =>
      match strip_prefix ident s with
      | Some rest =>
          match split "." rest with
          | [_; digest] =>
              if has_nul secret then Raise (PyException "PasswordValueError")
              else Ok (bool_decide (digest = hex_encode secret))
          | _ => Raise (PyException "ValueError")
          end
      | None => Raise (PyException "ValueError")
      end
  | _ => Raise (PyException "TypeError")
  end.

(** The tag characters of [encode_value] that are not hex digits. *)
Definition tag_chars : list ascii := ["n"; "t"; "i"; "s"]%char.

Definition timestamp_text (t : Z) : string :=
  NilZero.string_of_int (Z.to_int t).

Definition libraries : Libraries :=
  {| jwt_encode := encode;
     jwt_decode := decode;
     bcrypt_hash := hash_password;
     bcrypt_verify := verify;
     datetime_str := timestamp_text;
     datetime_isoformat := timestamp_text |}.

End Reference.

(** ** Sample accounts and stores

    Concrete data on which the handlers are run with the reference
    libraries and the default settings. *)
Module Sample.

Definition ann_id : ObjectId :=
  mkObjectId x65 x4f x1a x2b x3c x4d x5e x6f x70 x81 x92 xa3.
Definition bob_id : ObjectId :=
  mkObjectId x65 x4f x1a x2b x3c x4d x5e x6f x70 x81 x92 xa4.
Definition cat_id : ObjectId :=
  mkObjectId x65 x4f x1a x2b x3c x4d x5e x6f x70 x81 x92 xa5.
Definition root_id : ObjectId :=
  mkObjectId x65 x4f x1a x2b x3c x4d x5e x6f x70 x81 x92 xa6.
Definition dan_id : ObjectId :=
  mkObjectId x65 x4f x1a x2b x3c x4d x5e x6f x70 x81 x92 xa7.
Definition eve_id : ObjectId :=
  mkObjectId x65 x4f x1a x2b x3c x4d x5e x6f x70 x81 x92 xa8.
Definition algebra_id : ObjectId :=
  mkObjectId x65 x4f x1a x2b x3c x4d x5e x6f x70 x81 x92 xb0.
Definition homework_id : ObjectId :=
  mkObjectId x65 x4f x1a x2b x3c x4d x5e x6f x70 x81 x92 xc0.

(** A teacher who registered and is not yet approved. *)
Definition ann : doc :=
  {[ "_id" := VOid ann_id;
     "name" := VStr "Ann";
     "email" := VStr "ann@school.example";
     "password_hash" := VStr (Reference.hash "correct horse" "salt-a");
     "role" := VStr "teacher";
     "approved" := VBool false;
     "created_at" := VTime 1000;
     "updated_at" := VTime 1000 ]}.

(** A student, approved at registration. *)
Definition bob : doc :=
  {[ "_id" := VOid bob_id;
     "name" := VStr "Bob";
     "email" := VStr "bob@school.example";
     "password_hash" := VStr (Reference.hash "battery staple" "salt-b");
     "role" := VStr "student";
     "approved" := VBool true;
     "created_at" := VTime 1000;
     "updated_at" := VTime 1000 ]}.

(** The seeded administrator. *)
Definition root : doc :=
  {[ "_id" := VOid root_id;
     "name" := VStr "Administrator";
     "email" := VStr "admin@portal.com";
     "password_hash" := VStr (Reference.hash "admin123" "salt-c");
     "role" := VStr "admin";
     "approved" := VBool true ]}.

(** An account whose stored hash is not a bcrypt hash, and one that
    has none. *)
Definition dan : doc :=
  {[ "_id" := VOid dan_id;
     "email" := VStr "dan@school.example";
     "password_hash" := VStr "not-a-bcrypt-hash";
     "role" := VStr "student";
     "approved" := VBool true ]}.

Definition eve : doc :=
  {[ "_id" := VOid eve_id;
     "email" := VStr "eve@school.example";
     "role" := VStr "student";
     "approved" := VBool true ]}.

(** A course owned by Bob's id, that is, by somebody other than Ann. *)
Definition algebra : doc :=
  {[ "_id" := VOid algebra_id;
     "title" := VStr "Algebra";
     "teacher_id" := VStr (ObjectId_str bob_id) ]}.

Definition db : Database :=
  {[ "user" := [ann; bob; root]; "course" := [algebra] ]}.

Definition db_malformed : Database :=
  {[ "user" := [dan; eve] ]}.

Definition homework : AssignmentCreate.t :=
  AssignmentCreate.mk (ObjectId_str algebra_id) "Homework 1" None None.

Definition cat_request (r : Role) : RegisterRequest.t :=
  RegisterRequest.mk "Cat" "cat@school.example" "tr0ub4dor" r.

(** The hash of Cat's password under the salt of the runs below. *)
Definition cat_hash : string := Reference.hash "tr0ub4dor" "salt-d".

Definition bob_again (r : Role) : RegisterRequest.t :=
  RegisterRequest.mk "Bob" "bob@school.example" "battery staple" r.

(** A password that holds a NUL byte, as a JSON string may. *)
Definition nul_password : string := String "g" (String "000" "s").

Definition cat_nul_request (r : Role) : RegisterRequest.t :=
  RegisterRequest.mk "Cat" "cat@school.example" nul_password r.

End Sample.

(** ** Vocabulary of the statements *)

Section Vocabulary.
Context {L : Libraries} {C : Config}.

(** The payload [create_token] signs for a document whose [_id] is [i]. *)
Definition issued_payload (user : doc) (i : value) (now : Z) : doc :=
  claims (py_str i) (default (VStr "student") (user !! "role"))
    (VTime (now + 60 * JWT_EXP_MIN)).

(** The token [create_token] issues for such a document. *)
Definition issued_token (user : doc) (i : value) (now : Z) : string :=
  jwt_encode (issued_payload user i now) SECRET_KEY.

(** The document [register] stores for a request, once the hasher has
    returned [password_hash] and the driver has given it [new_id]. *)
Definition registered_doc (payload : RegisterRequest.t)
    (now : Z) (password_hash : string) (new_id : ObjectId) : doc :=
  <["_id" := VOid new_id]>
    ({[ "name" := VStr (RegisterRequest.name payload);
        "email" := VStr (RegisterRequest.email payload);
        "password_hash" := VStr password_hash;
        "role" := VStr (role_str (RegisterRequest.role payload));
        "approved" := VBool (bool_decide (RegisterRequest.role payload = student));
        "created_at" := VTime now;
        "updated_at" := VTime now ]} : doc).

(** No stored account carries the email. *)
Definition email_free (db : Database) (email : string) : Prop :=
  ∀ u, u ∈ collection db "user" → u !! "email" ≠ Some (VStr email).

(** No stored account carries the id. *)
Definition id_free (db : Database) (i : ObjectId) : Prop :=
  ∀ u, u ∈ collection db "user" → u !! "_id" ≠ Some (VOid i).

(** The hash [login] hands to the verifier: [password_hash], or the empty
    string when the account has none. *)
Definition stored_hash (u : doc) : value :=
  default (VStr "") (u !! "password_hash").

(** The approval test of [login]. *)
Definition pending (u : doc) : bool :=
  negb (bool_decide (default VNone (u !! "role") = VStr "admin"))
  && negb (truthy (default (VBool false) (u !! "approved"))).

(** The document [create_assignment] stores, once the driver has given
    it [new_id]. *)
Definition registered_assignment (body : AssignmentCreate.t)
    (now : Z) (new_id : ObjectId) : doc :=
  <["_id" := VOid new_id]>
    ({[ "course_id" := VStr (AssignmentCreate.course_id body);
        "title" := VStr (AssignmentCreate.title body);
        "description" := opt_str (AssignmentCreate.description body);
        "due_date" := opt_time (AssignmentCreate.due_date body);
        "created_at" := VTime now;
        "updated_at" := VTime now ]} : doc).

(** The document [create_course] stores for the account [me]. *)
Definition registered_course (body : CourseCreate.t) (me : value)
    (now : Z) (new_id : ObjectId) : doc :=
  <["_id" := VOid new_id]>
    ({[ "title" := VStr (CourseCreate.title body);
        "description" := opt_str (CourseCreate.description body);
        "subject" := opt_str (CourseCreate.subject body);
        "teacher_id" := VStr (py_str me);
        "created_at" := VTime now;
        "updated_at" := VTime now ]} : doc).

(** The store after one more document in a collection. *)
Definition stored (db : Database) (c : string) (d : doc) : Database :=
  <[c := (collection db c ++ [d])%list]> db.

End Vocabulary.

(** ** A reference sort

    A stand-in for the server's sort: an insertion sort on the integer
    or time value found under the key, other values counting as equal. *)
Module ReferenceCursor.

Definition sort_key (key : string) (d : doc) : Z :=
  match d !! key with
  | Some (VTime t) => t
  | Some (VInt z) => z
  | _ => 0
  end.

Fixpoint insert_by (before : doc → doc → bool) (x : doc) (l : list doc) : list doc :=
  match l with
  | [] => [x]
  | y :: l' => if before x y then x :: l else y :: insert_by before x l'
  end.

Definition sort (key : string) (direction : Z) (l : list doc) : list doc :=
  let before (x y : doc) : bool :=
    if direction <? 0 then sort_key key y <=? sort_key key x
    else sort_key key x <=? sort_key key y in
  foldr (insert_by before) [] l.

Definition cursor : Cursor := {| cursor_sort := sort |}.

End ReferenceCursor.

(** ** A sample school

    A store with one course, one assignment, an enrolled student and a
    graded submission, for the further handlers. *)
Module School.
Import Sample.

Definition enrollment_id : ObjectId :=
  mkObjectId x65 x4f x1a x2b x3c x4d x5e x6f x70 x81 x92 xd0.
Definition submission_id : ObjectId :=
  mkObjectId x65 x4f x1a x2b x3c x4d x5e x6f x70 x81 x92 xe0.
Definition fresh_id : ObjectId :=
  mkObjectId x65 x4f x1a x2b x3c x4d x5e x6f x70 x81 x92 xf0.
Definition other_id : ObjectId :=
  mkObjectId x65 x4f x1a x2b x3c x4d x5e x6f x70 x81 x92 xf1.
Definition botany_id : ObjectId :=
  mkObjectId x65 x4f x1a x2b x3c x4d x5e x6f x70 x81 x92 xb1.

(** Ann after approval. *)
Definition ann_approved : doc := <["approved" := VBool true]> ann.

(** A second teacher. *)
Definition tom : doc :=
  {[ "_id" := VOid other_id;
     "name" := VStr "Tom";
     "email" := VStr "tom@school.example";
     "password_hash" := VStr (Reference.hash "open sesame" "salt-t");
     "role" := VStr "teacher";
     "approved" := VBool true;
     "created_at" := VTime 1500;
     "updated_at" := VTime 1500 ]}.

(** Algebra, given by Ann. *)
Definition algebra : doc :=
  {[ "_id" := VOid algebra_id;
     "title" := VStr "Algebra";
     "teacher_id" := VStr (ObjectId_str ann_id);
     "created_at" := VTime 1200 ]}.

(** A course of Tom's. *)
Definition botany : doc :=
  {[ "_id" := VOid botany_id;
     "title" := VStr "Botany";
     "teacher_id" := VStr (ObjectId_str other_id);
     "created_at" := VTime 1300 ]}.

Definition homework : doc :=
  {[ "_id" := VOid homework_id;
     "course_id" := VStr (ObjectId_str algebra_id);
     "title" := VStr "Homework 1";
     "created_at" := VTime 1400 ]}.

(** Bob is enrolled in Algebra and has a graded submission. *)
Definition bob_enrolled : doc :=
  {[ "_id" := VOid enrollment_id;
     "course_id" := VStr (ObjectId_str algebra_id);
     "student_id" := VStr (ObjectId_str bob_id);
     "status" := VStr "enrolled";
     "created_at" := VTime 1600 ]}.

Definition bob_submission : doc :=
  {[ "_id" := VOid submission_id;
     "assignment_id" := VStr (ObjectId_str homework_id);
     "student_id" := VStr (ObjectId_str bob_id);
     "content" := VStr "first draft";
     "file_url" := VNone;
     "grade" := VInt 9;
     "feedback" := VStr "good";
     "created_at" := VTime 1700;
     "updated_at" := VTime 1700 ]}.

(** The school before anybody enrolled. *)
Definition db : Database :=
  {[ "user" := [ann_approved; bob; root; tom];
     "course" := [algebra; botany];
     "assignment" := [homework] ]}.

(** The school with Bob enrolled and his submission graded. *)
Definition db_graded : Database :=
  {[ "user" := [ann_approved; bob; root; tom];
     "course" := [algebra; botany];
     "assignment" := [homework];
     "enrollment" := [bob_enrolled];
     "submission" := [bob_submission] ]}.

Definition enroll_algebra : EnrollRequest.t :=
  EnrollRequest.mk (ObjectId_str algebra_id).

Definition submit_homework (text : string) : SubmissionCreate.t :=
  SubmissionCreate.mk (ObjectId_str homework_id) (Some text) None.

Definition slides : MaterialCreate.t :=
  MaterialCreate.mk (ObjectId_str algebra_id) "Slides" None None.

(** Ann's id, spelled in capital letters. *)
Definition ann_id_capitals : string := "654F1A2B3C4D5E6F708192A3".

End School.

(** ** Vocabulary of the further statements *)

Section MoreVocabulary.
Context {L : Libraries} {C : Config}.

(** What [serialize_doc] does to one value. *)
Definition isoformat_value (v : value) : value :=
  match v with VTime t => VStr (datetime_isoformat t) | _ => v end.

(** The fields [approve_user] sets. *)
Definition approval_fields (approved : bool) (now : Z) : doc :=
  {[ "approved" := VBool approved; "updated_at" := VTime now ]}.

(** The fields [assign_teacher] sets. *)
Definition assignment_fields (teacher_id : string) (now : Z) : doc :=
  {[ "teacher_id" := VStr teacher_id; "updated_at" := VTime now ]}.

(** The fields [update_me] sets. *)
Definition profile_fields (update : ProfileUpdate.t) (now : Z) : doc :=
  <["updated_at" := VTime now]> (profile_data update).

(** The account [seed_admin] stores, once the hasher has returned
    [password_hash]. *)
Definition seeded_admin (admin_email password_hash : string)
    (now : Z) (new_id : ObjectId) : doc :=
  <["_id" := VOid new_id]>
    ({[ "name" := VStr "Administrator";
        "email" := VStr admin_email;
        "password_hash" := VStr password_hash;
        "role" := VStr "admin";
        "approved" := VBool true;
        "created_at" := VTime now;
        "updated_at" := VTime now ]} : doc).

(** The enrollment [enroll_course] stores. *)
Definition registered_enrollment (course_id : string) (me : value)
    (now : Z) (new_id : ObjectId) : doc :=
  <["_id" := VOid new_id]>
    ({[ "course_id" := VStr course_id;
        "student_id" := VStr (py_str me);
        "status" := VStr "enrolled";
        "created_at" := VTime now ]} : doc).

(** The fields [submit_assignment] writes, on insert and on update. *)
Definition submission_fields (body : SubmissionCreate.t) (me : value)
    (now : Z) : doc :=
  {[ "assignment_id" := VStr (SubmissionCreate.assignment_id body);
     "student_id" := VStr (py_str me);
     "content" := opt_str (SubmissionCreate.content body);
     "file_url" := opt_str (SubmissionCreate.file_url body);
     "created_at" := VTime now;
     "updated_at" := VTime now ]}.

(** The material [upload_material] stores. *)
Definition registered_material (body : MaterialCreate.t)
    (now : Z) (new_id : ObjectId) : doc :=
  <["_id" := VOid new_id]>
    ({[ "course_id" := VStr (MaterialCreate.course_id body);
        "title" := VStr (MaterialCreate.title body);
        "description" := opt_str (MaterialCreate.description body);
        "file_url" := opt_str (MaterialCreate.file_url body);
        "created_at" := VTime now ]} : doc).

(** The announcement [create_announcement] stores. *)
Definition registered_announcement (body : AnnouncementCreate.t) (author : value)
    (now : Z) (new_id : ObjectId) : doc :=
  <["_id" := VOid new_id]>
    ({[ "title" := VStr (AnnouncementCreate.title body);
        "content" := VStr (AnnouncementCreate.content body);
        "author_id" := VStr (py_str author);
        "course_id" := opt_str (AnnouncementCreate.course_id body);
        "audience" := VStr (audience_str (AnnouncementCreate.audience body));
        "created_at" := VTime now ]} : doc).

(** The filter [enroll_course] looks an enrollment up with. *)
Definition enrollment_filter (course_id : string) (me : value) : doc :=
  {[ "course_id" := VStr course_id; "student_id" := VStr (py_str me) ]}.

(** The filter [submit_assignment] checks the enrollment with. *)
Definition enrolled_filter (course_id me : value) : doc :=
  {[ "course_id" := course_id;
     "student_id" := VStr (py_str me);
     "status" := VStr "enrolled" ]}.

(** The filter [submit_assignment] looks an earlier submission up with. *)
Definition submission_filter (assignment_id : string) (me : value) : doc :=
  {[ "assignment_id" := VStr assignment_id; "student_id" := VStr (py_str me) ]}.

(** No document of the collection carries the id. *)
Definition id_free_in (db : Database) (c : string) (i : ObjectId) : Prop :=
  ∀ d, d ∈ collection db c → d !! "_id" ≠ Some (VOid i).

(** The store after [update_one] rewrote a collection. *)
Definition updated (db : Database) (c : string) (q fields : doc) : Database :=
  <[c := update_first q fields (collection db c)]> db.

End MoreVocabulary.

(** * Properties *)

(** ** Text: splitting, hexadecimal, ObjectId *)

#[local] Arguments String.append !_ _ / : simpl nomatch.

Section Text.

Implicit Types (s t u : string) (c : ascii).

Lemma chars_append s t :
  list_ascii_of_string (s +:+ t) =
  (list_ascii_of_string s ++ list_ascii_of_string t)%list.
Proof. induction s as [|a s IH]; simpl; [done | by rewrite IH]. Qed.

Lemma append_assoc s t u : (s +:+ t) +:+ u = s +:+ (t +:+ u).
Proof. induction s as [|a s IH]; simpl; [done | by rewrite IH]. Qed.

Lemma split_nonempty c s : split c s ≠ [].
Proof.
  destruct s as [|a s]; simpl; [done |].
  case_bool_decide; [done |]. by destruct (split c s).
Qed.

(** A string without the separator is a single field. *)
Lemma split_absent c s :
  c ∉ list_ascii_of_string s → split c s = [s].
Proof.
  induction s as [|a s IH]; simpl; intros Hc; [done |].
  apply not_elem_of_cons in Hc as [Hne Hc].
  rewrite bool_decide_false by done. by rewrite IH.
Qed.

(** The first separator ends the first field. *)
Lemma split_first c s t :
  c ∉ list_ascii_of_string s →
  split c (s +:+ String c t) = s :: split c t.
Proof.
  induction s as [|a s IH]; simpl; intros Hc.
  - by rewrite bool_decide_true.
  - apply not_elem_of_cons in Hc as [Hne Hc].
    rewrite bool_decide_false by done. by rewrite IH.
Qed.

Lemma byte_hex_shape (b : byte) :
  ∃ c1 c2, byte_hex b = String c1 (String c2 EmptyString)
           ∧ byte_of_hex c1 c2 = Some b.
Proof. destruct b; do 2 eexists; split; reflexivity. Qed.

Lemma byte_hex_digits (b : byte) c :
  c ∈ list_ascii_of_string (byte_hex b) → is_Some (hex_value c).
Proof.
  unfold byte_hex. destruct (to_bits b) as (b0&b1&b2&b3&b4&b5&b6&b7).
  simpl. rewrite !elem_of_cons, elem_of_nil. intros [->|[->|[]]].
  - destruct b7, b6, b5, b4; by eexists.
  - destruct b3, b2, b1, b0; by eexists.
Qed.

Lemma bytes_fromhex_byte_hex (b : byte) s :
  bytes_fromhex (byte_hex b +:+ s) =
  match bytes_fromhex s with Some bs => Some (b :: bs) | None => None end.
Proof.
  destruct (byte_hex_shape b) as (c1 & c2 & -> & Hb). simpl. by rewrite Hb.
Qed.

(** Parsing the printed form of an ObjectId gives it back. *)
Lemma ObjectId_of_str_str (o : ObjectId) : ObjectId_of_str (ObjectId_str o) = Some o.
Proof.
  destruct o as [a0 a1 a2 a3 a4 a5 a6 a7 a8 a9 a10 a11].
  unfold ObjectId_of_str, ObjectId_str; simpl.
  rewrite !bytes_fromhex_byte_hex.
  destruct (byte_hex_shape a11) as (c1 & c2 & -> & Hb). simpl. by rewrite Hb.
Qed.

Lemma ObjectId_str_nonempty (o : ObjectId) : ObjectId_str o ≠ "".
Proof.
  unfold ObjectId_str.
  destruct (byte_hex_shape (oid_b0 o)) as (c1 & c2 & -> & _). done.
Qed.

End Text.

(** ** The reference instance meets the contract *)

Module ReferenceFacts.
Import Reference.

Lemma hex_encode_digits s c :
  c ∈ list_ascii_of_string (hex_encode s) → is_Some (hex_value c).
Proof.
  induction s as [|a s IH]; simpl.
  - by rewrite elem_of_nil.
  - rewrite chars_append, elem_of_app. intros [H|H]; [|by apply IH].
    by apply byte_hex_digits in H.
Qed.

Lemma hex_encode_lacks s c :
  hex_value c = None → c ∉ list_ascii_of_string (hex_encode s).
Proof.
  intros Hc Hin. apply hex_encode_digits in Hin as [x Hx]. congruence.
Qed.

Lemma hex_decode_encode s : hex_decode (hex_encode s) = Some s.
Proof.
  unfold hex_decode.
  assert (bytes_fromhex (hex_encode s)
          = Some (List.map byte_of_ascii (list_ascii_of_string s))) as ->.
  { induction s as [|a s IH]; simpl; [done |].
    by rewrite bytes_fromhex_byte_hex, IH. }
  f_equal. rewrite List.map_map.
  rewrite (List.map_ext _ id), List.map_id.
  - apply string_of_list_ascii_of_string.
  - intros a. apply ascii_of_byte_of_ascii.
Qed.

Lemma int_text_roundtrip (z : Z) :
  NilZero.int_of_string (NilZero.string_of_int (Z.to_int z)) = Some (Z.to_int z).
Proof.
  apply NilZero.isi; destruct z; simpl; try discriminate.
  - intros [= H]. by apply DecimalPos.Unsigned.to_uint_nonnil in H.
  - intros [= H]. by apply DecimalPos.Unsigned.to_uint_nonnil in H.
Qed.

Lemma decode_encode_value v :
  json_value v = true → decode_value (encode_value v) = Some v.
Proof.
  destruct v as [|[]|z|s|o|t]; simpl; try done; intros _.
  - by rewrite hex_decode_encode, int_text_roundtrip, DecimalZ.of_to.
  - by rewrite hex_decode_encode.
Qed.

Lemma encode_value_lacks v c :
  hex_value c = None → c ∉ tag_chars →
  c ∉ list_ascii_of_string (encode_value v).
Proof.
  intros Hc Htag.
  assert (∀ a s, (a ∈ tag_chars ∨ is_Some (hex_value a)) →
            c ∉ list_ascii_of_string (String a (hex_encode s))) as Htagged.
  { intros a s Ha. simpl. apply not_elem_of_cons. split.
    - intros ->. destruct Ha as [Ha|[x Hx]]; [done | congruence].
    - by apply hex_encode_lacks. }
  destruct v as [|[]|z|s|o|t]; simpl;
    try (apply (Htagged _ ""); first [left; compute_done | right; by eexists]);
    apply Htagged; left; compute_done.
Qed.

Lemma encode_items_lacks l c :
  hex_value c = None → c ∉ tag_chars → c ≠ ":"%char → c ≠ ";"%char →
  c ∉ list_ascii_of_string (encode_items l).
Proof.
  intros Hc Htag Hcolon Hsemi. induction l as [|[k v] l IH]; simpl.
  - apply not_elem_of_nil.
  - rewrite chars_append. simpl. rewrite chars_append. simpl.
    rewrite elem_of_app, elem_of_cons, elem_of_app, elem_of_cons.
    intros [H|[H|[H|[H|H]]]]; try done.
    + by apply hex_encode_lacks in H.
    + by apply encode_value_lacks in H.
Qed.

Lemma encode_items_cons k v l :
  encode_items ((k, v) :: l) =
  (hex_encode k +:+ String ":" (encode_value v)) +:+ String ";" (encode_items l).
Proof. simpl. by rewrite append_assoc. Qed.

Lemma decode_items_cons item rest :
  rest ≠ [] →
  decode_items (item :: rest) =
  match split ":" item with
  | [k; v] =>
      match hex_decode k, decode_value v, decode_items rest with
      | Some k', Some v', Some l => Some ((k', v') :: l)
      | _, _, _ => None
      end
  | _ => None
  end.
Proof. by destruct rest. Qed.

(** Decoding the items of an encoded payload gives the payload back. *)
Lemma decode_encode_items (l : list (string * value)) :
  Forall (λ kv, json_value kv.2 = true) l →
  decode_items (split ";" (encode_items l)) = Some l.
Proof.
  induction 1 as [|[k v] l Hv Hl IH]; [done |].
  rewrite encode_items_cons, split_first.
  2:{ rewrite chars_append. simpl. rewrite elem_of_app, elem_of_cons.
      intros [H|[H|H]]; [| done |].
      - by apply hex_encode_lacks in H.
      - apply encode_value_lacks in H; [done | done | compute_done]. }
  rewrite decode_items_cons by apply split_nonempty.
  rewrite split_first by (by apply hex_encode_lacks).
  rewrite split_absent
    by (apply encode_value_lacks; [done | compute_done]).
  simpl in Hv. by rewrite hex_decode_encode, decode_encode_value, IH.
Qed.

Lemma encode_lacks (p : doc) key c :
  hex_value c = None → c ∉ tag_chars →
  c ≠ ":"%char → c ≠ ";"%char → c ≠ "."%char →
  c ∉ list_ascii_of_string (encode p key).
Proof.
  intros Hc Htag H1 H2 H3. unfold encode.
  rewrite chars_append. simpl. rewrite elem_of_app, elem_of_cons.
  intros [H|[H|H]]; [| done |].
  - by apply encode_items_lacks in H.
  - by apply hex_encode_lacks in H.
Qed.

Lemma numeric_date_items (p : doc) e :
  p !! "exp" = Some (VTime e) →
  map_Forall (λ _ v, json_value v = true) (delete "exp" p) →
  numeric_date p = <["exp" := VInt e]> p
  ∧ Forall (λ kv, json_value kv.2 = true) (map_to_list (numeric_date p)).
Proof.
  intros Hexp Hjson. unfold numeric_date. rewrite Hexp. split; [done |].
  rewrite <- insert_delete_eq.
  eapply Forall_impl.
  - apply (map_Forall_to_list (λ _ v, json_value v = true)).
    by apply map_Forall_insert_2.
  - by intros [k v].
Qed.

(** What the reference decoder does with a freshly encoded payload: the
    expiry test is the only thing left to decide. *)
Lemma decode_encode (p : doc) key e now :
  p !! "exp" = Some (VTime e) →
  map_Forall (λ _ v, json_value v = true) (delete "exp" p) →
  decode (encode p key) key now =
  if e <=? now then Raise ExpiredSignatureError else Ok (<["exp" := VInt e]> p).
Proof.
  intros Hexp Hjson.
  destruct (numeric_date_items p e Hexp Hjson) as [Hnum Hitems].
  unfold decode, encode.
  rewrite split_first by (apply encode_items_lacks; [done | compute_done | done | done]).
  rewrite split_absent by (by apply hex_encode_lacks).
  rewrite bool_decide_true by done. simpl.
  rewrite decode_encode_items by done.
  rewrite list_to_map_to_list, Hnum, lookup_insert_eq. done.
Qed.

Lemma verify_hash pw salt h :
  hash_password pw salt = Ok h → verify pw (VStr h) = Ok true.
Proof.
  unfold hash_password. destruct (has_nul pw) eqn:Hnul; [done |]. intros [= <-].
  unfold verify, hash, ident. simpl.
  rewrite split_first by (by apply hex_encode_lacks).
  rewrite split_absent by (by apply hex_encode_lacks).
  by rewrite Hnul, bool_decide_true.
Qed.

Lemma claims_exp sub role e :
  claims sub role e !! "exp" = Some e
  ∧ (json_value role = true →
     map_Forall (λ _ v, json_value v = true) (delete "exp" (claims sub role e)))
  ∧ ∀ e', <["exp" := e']> (claims sub role e) = claims sub role e'.
Proof.
  unfold claims. split; [by simplify_map_eq |]. split.
  - intros Hrole k v.
    rewrite lookup_delete_Some, !lookup_insert_Some, lookup_singleton_Some.
    intros [Hk [[<- <-]|[_ [[<- <-]|[_ [<- <-]]]]]]; done.
  - intros e'.
    rewrite (insert_insert_ne _ "exp" "sub"), (insert_insert_ne _ "exp" "role") by done.
    by rewrite insert_singleton_eq.
Qed.

(** The reference instance satisfies the contract of the libraries. *)
Lemma libraries_spec : LibrariesSpec libraries.
Proof.
  split; simpl.
  - intros p k. apply encode_lacks; [done | compute_done | done | done | done].
  - intros sub role k e now Hrole Hlt.
    destruct (claims_exp sub role (VTime e)) as (Hexp & Hjson & Hset).
    rewrite (decode_encode _ k e now Hexp (Hjson Hrole)), Hset.
    by rewrite (proj2 (Z.leb_gt e now)).
  - intros sub role k e now Hrole Hlt.
    destruct (claims_exp sub role (VTime e)) as (Hexp & Hjson & Hset).
    rewrite (decode_encode _ k e now Hexp (Hjson Hrole)).
    rewrite (proj2 (Z.leb_le e now)); [done | lia].
  - apply verify_hash.
  - intros pw salt salt' e. unfold hash_password. by destruct (has_nul pw).
Qed.

End ReferenceFacts.

(** ** Documents and lookups *)

Section Store.

Implicit Types (d u q : doc) (l : list doc) (db : Database).

Lemma doc_matches_field (k : string) (v : value) d :
  doc_matches {[ k := v ]} d = true ↔ d !! k = Some v.
Proof.
  unfold doc_matches. rewrite bool_decide_eq_true.
  by rewrite map_Forall_singleton.
Qed.

(** What [find_one] returns for a one-field filter is stored and carries
    the field. *)
Lemma find_field_Some (k : string) (v : value) l u :
  List.find (doc_matches {[ k := v ]}) l = Some u → u ∈ l ∧ u !! k = Some v.
Proof.
  intros [Hin Hm]%List.find_some. split.
  - by apply list_elem_of_In.
  - by apply doc_matches_field.
Qed.

Lemma find_field_None (k : string) (v : value) l :
  List.find (doc_matches {[ k := v ]}) l = None ↔ ∀ u, u ∈ l → u !! k ≠ Some v.
Proof.
  split.
  - intros Hnone u Hin Hk.
    apply list_elem_of_In in Hin.
    pose proof (List.find_none _ _ Hnone u Hin) as Hf.
    apply doc_matches_field in Hk. congruence.
  - intros Hall. destruct (List.find _ l) as [u|] eqn:Hf; [|done].
    apply find_field_Some in Hf as [Hin Hk]. by destruct (Hall u Hin).
Qed.

(** A stored document with the field is found, possibly an earlier one. *)
Lemma find_field_is_Some (k : string) (v : value) l u :
  u ∈ l → u !! k = Some v →
  ∃ u', List.find (doc_matches {[ k := v ]}) l = Some u'.
Proof.
  intros Hin Hk. destruct (List.find _ l) as [u'|] eqn:Hf; [by eexists |].
  by destruct (proj1 (find_field_None k v l) Hf u Hin).
Qed.

(** A found document is never the empty dict. *)
Lemma found_truthy (k : string) (v : value) l u :
  List.find (doc_matches {[ k := v ]}) l = Some u →
  truthy_doc (Some u) = true.
Proof.
  intros [_ Hk]%find_field_Some. simpl.
  rewrite bool_decide_false; [done |]. intros ->. by rewrite lookup_empty in Hk.
Qed.

(** The first match in a collection extended at the end. *)
Lemma find_app_fresh (k : string) (v : value) l u :
  (∀ x, x ∈ l → x !! k ≠ Some v) → u !! k = Some v →
  List.find (doc_matches {[ k := v ]}) (l ++ [u]) = Some u.
Proof.
  intros Hfresh Hk. induction l as [|x l IH]; simpl.
  - by rewrite (proj2 (doc_matches_field k v u) Hk).
  - destruct (doc_matches {[k := v]} x) eqn:Hx.
    + apply doc_matches_field in Hx. destruct (Hfresh x); [left | done].
    + apply IH. intros y Hy. apply Hfresh. by right.
Qed.

(** Freedom of an email or an id, decided by a scan of the accounts. *)
Lemma email_free_check db (email : string) :
  forallb (λ u, negb (bool_decide (u !! "email" = Some (VStr email))))
    (collection db "user") = true →
  email_free db email.
Proof.
  intros Hall u Hin. apply list_elem_of_In in Hin.
  pose proof (proj1 (List.forallb_forall _ _) Hall u Hin) as Hu.
  apply negb_true_iff in Hu. by apply bool_decide_eq_false in Hu.
Qed.

Lemma id_free_check db (i : ObjectId) :
  forallb (λ u, negb (bool_decide (u !! "_id" = Some (VOid i))))
    (collection db "user") = true →
  id_free db i.
Proof.
  intros Hall u Hin. apply list_elem_of_In in Hin.
  pose proof (proj1 (List.forallb_forall _ _) Hall u Hin) as Hu.
  apply negb_true_iff in Hu. by apply bool_decide_eq_false in Hu.
Qed.

Lemma collection_insert db (c c' : string) l :
  collection (<[c := l]> db) c' = if decide (c = c') then l else collection db c'.
Proof.
  unfold collection. rewrite lookup_insert. by case_decide.
Qed.

End Store.

(** ** Token issuance and verification *)

Section Tokens.
Context {L : Libraries} {C : Config} {LS : LibrariesSpec L}.

Lemma create_token_eq user i now :
  user !! "_id" = Some i →
  create_token user now = Ok (issued_token user i now).
Proof. intros Hid. unfold create_token. by rewrite Hid. Qed.

Lemma claims_sub (sub : string) (role e : value) :
  claims sub role e !! "sub" = Some (VStr sub).
Proof. unfold claims. by simplify_map_eq. Qed.

Lemma get_current_user_try_live user (i : ObjectId) issued now (db : Database) :
  user !! "_id" = Some (VOid i) →
  json_value (default (VStr "student") (user !! "role")) = true →
  now < issued + 60 * JWT_EXP_MIN →
  get_current_user_try
    (Some ("Bearer " +:+ issued_token user (VOid i) issued))
    now (Some db) =
  match List.find (doc_matches {[ "_id" := VOid i ]}) (collection db "user") with
  | Some u => (Ok u, Some db)
  | None => (Raise (PyException "Exception"), Some db)
  end.
Proof.
  intros Hid Hrole Hlive.
  unfold get_current_user_try, issued_token, issued_payload, bind, lift. simpl.
  rewrite split_absent by apply jwt_encode_no_space. simpl.
  rewrite (jwt_decode_live _ _ _ _ _ Hrole Hlive).
  rewrite !claims_sub. simpl.
  rewrite bool_decide_false by apply ObjectId_str_nonempty. simpl.
  rewrite ObjectId_of_str_str.
  destruct (List.find _ _) as [u|] eqn:Hfind; simpl; [|done].
  apply found_truthy in Hfind. simpl in Hfind. by rewrite Hfind.
Qed.

Lemma truthy_str_bearer t : truthy_str (Some ("Bearer " +:+ t)) = true.
Proof. done. Qed.

(** Verifying, before its expiry, a token issued for an ObjectId looks the
    account up by that id and returns what the store holds. *)
Lemma get_current_user_live user (i : ObjectId) issued now (db : Database) :
  user !! "_id" = Some (VOid i) →
  json_value (default (VStr "student") (user !! "role")) = true →
  now < issued + 60 * JWT_EXP_MIN →
  get_current_user
    (Some ("Bearer " +:+ issued_token user (VOid i) issued))
    now (Some db) =
  match List.find (doc_matches {[ "_id" := VOid i ]}) (collection db "user") with
  | Some u => (Ok u, Some db)
  | None => (Raise (HTTPException 401 "Invalid token"), Some db)
  end.
Proof.
  intros Hid Hrole Hlive. unfold get_current_user.
  rewrite truthy_str_bearer. unfold try_except. cbn [negb]. cbv beta.
  rewrite (get_current_user_try_live user i issued now db Hid Hrole Hlive).
  by destruct (List.find _ _).
Qed.

(** Once the expiry is past, decoding fails before anything else is
    looked at: the outcome does not depend on the store. *)
Lemma get_current_user_expired user (i : value) issued now (s : option Database) :
  json_value (default (VStr "student") (user !! "role")) = true →
  issued + 60 * JWT_EXP_MIN < now →
  get_current_user
    (Some ("Bearer " +:+ issued_token user i issued))
    now s =
  (Raise (HTTPException 401 "Token expired"), s).
Proof.
  intros Hrole Hpast.
  unfold get_current_user.
  rewrite truthy_str_bearer.
  unfold try_except, get_current_user_try, issued_token, issued_payload, bind, lift.
  simpl.
  rewrite split_absent by apply jwt_encode_no_space. simpl.
  by rewrite (jwt_decode_expired _ _ _ _ _ Hrole Hpast).
Qed.

Lemma role_str_json (r : Role) (user : doc) :
  user !! "role" = Some (VStr (role_str r)) →
  json_value (default (VStr "student") (user !! "role")) = true.
Proof. by intros ->. Qed.

(** C1.  Round trip of issuance and verification: for every account id
    and role, a token is issued, and while the account with that id is
    still in the store and the token's time to live has not elapsed,
    verifying the token (presented as a bearer credential) returns a
    stored account record whose id is the issued id. *)
Theorem issue_verify_roundtrip (i : ObjectId) (r : Role) (user : doc)
    (db : Database) (issued now : Z) :
  user !! "_id" = Some (VOid i) →
  user !! "role" = Some (VStr (role_str r)) →
  (∃ a, a ∈ collection db "user" ∧ a !! "_id" = Some (VOid i)) →
  now < issued + 60 * JWT_EXP_MIN →
  ∃ tok account,
    create_token user issued = Ok tok
    ∧ get_current_user (Some ("Bearer " +:+ tok)) now (Some db) = (Ok account, Some db)
    ∧ account ∈ collection db "user"
    ∧ account !! "_id" = Some (VOid i).
Proof.
  intros Hid Hrole (a & Hin & Ha) Hlive.
  destruct (find_field_is_Some "_id" (VOid i) _ a Hin Ha) as [u Hu].
  exists (issued_token user (VOid i) issued), u.
  split; [by apply create_token_eq |].
  rewrite (get_current_user_live user i issued now db Hid
             (role_str_json r user Hrole) Hlive), Hu.
  apply find_field_Some in Hu as [? ?]. done.
Qed.

(** C8.  A token whose expiry has elapsed is rejected as expired (401
    "Token expired") and as nothing else: whatever the store holds, even
    when the account is gone or no database is configured. *)
Theorem expired_token_rejected (user : doc) (i : value) (issued now : Z)
    (s : option Database) :
  user !! "_id" = Some i →
  json_value (default (VStr "student") (user !! "role")) = true →
  issued + 60 * JWT_EXP_MIN < now →
  ∃ tok,
    create_token user issued = Ok tok
    ∧ get_current_user (Some ("Bearer " +:+ tok)) now s
      = (Raise (HTTPException 401 "Token expired"), s).
Proof.
  intros Hid Hrole Hpast.
  exists (issued_token user i issued).
  split; [by apply create_token_eq |].
  by apply get_current_user_expired.
Qed.

(** C10 (as the code has it).  An absent or empty Authorization header
    fails with 401 "Missing Authorization header"; a present header that
    is not of the bearer form (it does not split into exactly a scheme
    and a token, or its scheme is not "bearer" in any letter case) fails
    with 401 "Invalid token", the failure of a bad token. *)
Theorem header_failures (now : Z) (s : option Database) :
  get_current_user None now s
    = (Raise (HTTPException 401 "Missing Authorization header"), s)
  ∧ get_current_user (Some "") now s
    = (Raise (HTTPException 401 "Missing Authorization header"), s)
  ∧ ∀ h : string,
      h ≠ "" →
      (∀ scheme token, split " " h = [scheme; token] → lower scheme ≠ "bearer") →
      get_current_user (Some h) now s
        = (Raise (HTTPException 401 "Invalid token"), s).
Proof.
  split; [done |]. split; [done |].
  intros h Hne Hform. unfold get_current_user, truthy_str.
  rewrite bool_decide_false by done. cbn [negb].
  unfold try_except, get_current_user_try, bind, lift. cbn [default from_option id].
  destruct (split " " h) as [|a [|b [|c l]]] eqn:Hsplit; try done.
  simpl. by rewrite bool_decide_false by (by apply (Hform a b)).
Qed.

End Tokens.

(** ** Login *)

Section Login.
Context {L : Libraries} {C : Config}.

(** [login] on an available store, by cases. *)
Lemma login_eq (payload : LoginRequest.t) (now : Z) (db : Database) :
  login payload now (Some db) =
  match List.find (doc_matches {[ "email" := VStr (LoginRequest.email payload) ]})
          (collection db "user") with
  | None => (Raise (HTTPException 401 "Invalid credentials"), Some db)
  | Some u =>
      match bcrypt_verify (LoginRequest.password payload) (stored_hash u) with
      | Raise e => (Raise e, Some db)
      | Ok false => (Raise (HTTPException 401 "Invalid credentials"), Some db)
      | Ok true =>
          if pending u then
            (Raise (HTTPException 403 "Account pending approval"), Some db)
          else
            match create_token u now with
            | Ok token => (Ok (TokenResponse.mk token "bearer"), Some db)
            | Raise e => (Raise e, Some db)
            end
      end
  end.
Proof.
  unfold login, bind, the_db, find_one, lift, ret, raise. simpl.
  destruct (List.find _ _) as [u|] eqn:Hfind; [|done].
  apply found_truthy in Hfind. rewrite Hfind. simpl.
  fold (stored_hash u).
  destruct (bcrypt_verify _ _) as [[]|e]; simpl; try done.
  fold (pending u). destruct (pending u); [done |].
  by destruct (create_token u now).
Qed.

Lemma pending_true (u : doc) :
  pending u = true ↔
  u !! "role" ≠ Some (VStr "admin")
  ∧ truthy (default (VBool false) (u !! "approved")) = false.
Proof.
  unfold pending. rewrite andb_true_iff, !negb_true_iff, bool_decide_eq_false.
  split; intros [Hr Ha]; (split; [|done]).
  - intros Heq. apply Hr. by rewrite Heq.
  - intros Heq. apply Hr. by destruct (u !! "role") as [v|]; simplify_eq/=.
Qed.

(** C2.  A login whose email resolves to an account and whose password
    verifies against the stored hash fails with 403 ("Account pending
    approval") when the role is not admin and the approved flag is
    false, and otherwise succeeds with one token, the one issued for
    that account. *)
Theorem login_verified (payload : LoginRequest.t) (now : Z) (db : Database)
    (u : doc) (i : value) :
  List.find (doc_matches {[ "email" := VStr (LoginRequest.email payload) ]})
    (collection db "user") = Some u →
  u !! "_id" = Some i →
  bcrypt_verify (LoginRequest.password payload) (stored_hash u) = Ok true →
  (u !! "role" ≠ Some (VStr "admin")
   ∧ truthy (default (VBool false) (u !! "approved")) = false →
   login payload now (Some db)
     = (Raise (HTTPException 403 "Account pending approval"), Some db))
  ∧ (u !! "role" = Some (VStr "admin")
     ∨ truthy (default (VBool false) (u !! "approved")) = true →
     login payload now (Some db)
       = (Ok (TokenResponse.mk (issued_token u i now) "bearer"), Some db)).
Proof.
  intros Hfind Hid Hverify. rewrite login_eq, Hfind, Hverify.
  rewrite (create_token_eq u i now Hid). split.
  - intros Hp. by rewrite (proj2 (pending_true u) Hp).
  - intros Hp. destruct (pending u) eqn:Hpend; [|done].
    apply pending_true in Hpend as [Hr Ha]. destruct Hp; congruence.
Qed.

(** When the verifier returns false, a login with an email no stored
    account carries and a login with a stored email end the same way,
    401 "Invalid credentials", and leave the store as it was. *)
Lemma login_failures_indistinguishable (password unknown known : string)
    (now : Z) (db : Database) (u : doc) :
  email_free db unknown →
  List.find (doc_matches {[ "email" := VStr known ]}) (collection db "user") = Some u →
  bcrypt_verify password (stored_hash u) = Ok false →
  login (LoginRequest.mk unknown password) now (Some db)
    = (Raise (HTTPException 401 "Invalid credentials"), Some db)
  ∧ login (LoginRequest.mk known password) now (Some db)
    = login (LoginRequest.mk unknown password) now (Some db).
Proof.
  intros Hfree Hfind Hverify. rewrite !login_eq. simpl.
  rewrite (proj2 (find_field_None "email" (VStr unknown) _) Hfree).
  by rewrite Hfind, Hverify.
Qed.

(** [login] passes the stored hash, or the empty string when the
    account has none, to the verifier and has no guard around the call:
    it ends in 401 "Invalid credentials" when the verifier returns
    false, and in the verifier's own exception when the verifier
    raises. *)
Lemma login_verifier_outcome (payload : LoginRequest.t) (now : Z)
    (db : Database) (u : doc) :
  List.find (doc_matches {[ "email" := VStr (LoginRequest.email payload) ]})
    (collection db "user") = Some u →
  (u !! "password_hash" = None → stored_hash u = VStr "")
  ∧ (bcrypt_verify (LoginRequest.password payload) (stored_hash u) = Ok false →
     login payload now (Some db)
       = (Raise (HTTPException 401 "Invalid credentials"), Some db))
  ∧ (∀ e, bcrypt_verify (LoginRequest.password payload) (stored_hash u) = Raise e →
     login payload now (Some db) = (Raise e, Some db)).
Proof.
  intros Hfind. rewrite login_eq, Hfind. split; [|split].
  - unfold stored_hash. by intros ->.
  - by intros ->.
  - by intros e ->.
Qed.

(** An exception of the verifier tells a stored email from one that is
    not: the login with the stored email ends in the exception, the
    login with the other email and the same password in 401. *)
Lemma login_verifier_raises_known_only (password unknown known : string)
    (now : Z) (db : Database) (u : doc) (e : exn) :
  email_free db unknown →
  List.find (doc_matches {[ "email" := VStr known ]}) (collection db "user") = Some u →
  bcrypt_verify password (stored_hash u) = Raise e →
  login (LoginRequest.mk unknown password) now (Some db)
    = (Raise (HTTPException 401 "Invalid credentials"), Some db)
  ∧ login (LoginRequest.mk known password) now (Some db) = (Raise e, Some db).
Proof.
  intros Hfree Hfind Hverify. rewrite !login_eq. simpl.
  rewrite (proj2 (find_field_None "email" (VStr unknown) _) Hfree).
  by rewrite Hfind, Hverify.
Qed.

End Login.

(** ** Registration *)

Section Registration.
Context {L : Libraries} {C : Config}.

(** [register] on an available store, by cases. *)
Lemma register_eq (payload : RegisterRequest.t) (now : Z) (salt : string)
    (new_id : ObjectId) (db : Database) :
  register payload now salt new_id (Some db) =
  if bool_decide (RegisterRequest.role payload = admin) then
    (Raise (HTTPException 400 "Cannot self-register as admin"), Some db)
  else
    match List.find (doc_matches {[ "email" := VStr (RegisterRequest.email payload) ]})
            (collection db "user") with
    | Some _ => (Raise (HTTPException 400 "Email already registered"), Some db)
    | None =>
        match bcrypt_hash (RegisterRequest.password payload) salt with
        | Ok h =>
            let d := registered_doc payload now h new_id in
            (Ok (TokenResponse.mk (issued_token d (VOid new_id) now) "bearer"),
             Some (stored db "user" d))
        | Raise e => (Raise e, Some db)
        end
    end.
Proof.
  unfold register, bind, the_db, find_one, insert_one, lift, ret, raise. simpl.
  case_bool_decide; [done |].
  destruct (List.find _ _) as [u|] eqn:Hfind.
  - apply found_truthy in Hfind. by rewrite Hfind.
  - simpl. destruct (bcrypt_hash _ salt) as [h|e]; [|done].
    rewrite !lookup_insert_ne by done. rewrite lookup_singleton_ne by done.
    simpl. unfold create_token. by rewrite lookup_insert_eq.
Qed.

(** The hasher's refusal of a password leaves [register] without a
    handler: the exception leaves the handler and nothing is stored. *)
Lemma register_hash_raises (payload : RegisterRequest.t) (now : Z) (salt : string)
    (new_id : ObjectId) (db : Database) (e : exn) :
  RegisterRequest.role payload ≠ admin →
  email_free db (RegisterRequest.email payload) →
  bcrypt_hash (RegisterRequest.password payload) salt = Raise e →
  register payload now salt new_id (Some db) = (Raise e, Some db).
Proof.
  intros Hrole Hfree Hhash. rewrite register_eq, bool_decide_false by done.
  by rewrite (proj2 (find_field_None "email" _ _) Hfree), Hhash.
Qed.

(** C3 (as the code has it).  On an available store registration
    dispatches on the requested role: with role admin it fails with 400
    "Cannot self-register as admin" and inserts nothing, for any input;
    with role student, an email no stored account carries and a
    password the hasher takes (it returns [h]) it inserts one account
    with approved = true and returns a token; with role teacher, such
    an email and such a password it inserts one account with approved =
    false and returns a token. *)
Theorem register_by_role (payload : RegisterRequest.t) (now : Z) (salt h : string)
    (new_id : ObjectId) (db : Database) :
  let d := registered_doc payload now h new_id in
  let inserted (approved : bool) :=
    register payload now salt new_id (Some db)
      = (Ok (TokenResponse.mk (issued_token d (VOid new_id) now) "bearer"),
         Some (stored db "user" d))
    ∧ d !! "approved" = Some (VBool approved)
    ∧ d !! "password_hash" = Some (VStr h) in
  (RegisterRequest.role payload = admin →
   register payload now salt new_id (Some db)
     = (Raise (HTTPException 400 "Cannot self-register as admin"), Some db))
  ∧ (RegisterRequest.role payload = student →
     email_free db (RegisterRequest.email payload) →
     bcrypt_hash (RegisterRequest.password payload) salt = Ok h →
     inserted true)
  ∧ (RegisterRequest.role payload = teacher →
     email_free db (RegisterRequest.email payload) →
     bcrypt_hash (RegisterRequest.password payload) salt = Ok h →
     inserted false).
Proof.
  intros d inserted. subst inserted. cbv beta. rewrite register_eq.
  subst d. unfold registered_doc.
  split; [|split]; intros Hrole; rewrite Hrole; [done | |]; intros Hfree Hhash;
    rewrite (proj2 (find_field_None "email" _ _) Hfree), Hhash; by simplify_map_eq.
Qed.

(** C6 (as the code has it).  Registering with a role other than admin
    and an email a stored account already carries fails with 400 "Email
    already registered"; no token is returned and the store, so every
    existing record, is unchanged. *)
Theorem register_conflict (payload : RegisterRequest.t) (now : Z) (salt : string)
    (new_id : ObjectId) (db : Database) :
  RegisterRequest.role payload ≠ admin →
  ¬ email_free db (RegisterRequest.email payload) →
  register payload now salt new_id (Some db)
    = (Raise (HTTPException 400 "Email already registered"), Some db).
Proof.
  intros Hrole Htaken. rewrite register_eq.
  rewrite bool_decide_false by done.
  destruct (List.find _ _) eqn:Hfind; [done |].
  destruct Htaken. unfold email_free. by apply find_field_None.
Qed.

End Registration.

(** ** The access gate *)

Section Access.
Context {L : Libraries} {C : Config}.

Lemma require_role_Ok (current : doc) (roles : list string) :
  require_role current roles = Ok tt ↔
  ∃ r, current !! "role" = Some (VStr r) ∧ r ∈ roles.
Proof.
  unfold require_role. split.
  - destruct (current !! "role") as [[| | |r| |]|]; try done.
    case_bool_decide; [|done]. by exists r.
  - intros (r & -> & Hr). by rewrite bool_decide_true.
Qed.

Lemma require_role_Forbidden (current : doc) (roles : list string) :
  require_role current roles = Raise (HTTPException 403 "Forbidden") ↔
  ¬ ∃ r, current !! "role" = Some (VStr r) ∧ r ∈ roles.
Proof.
  rewrite <- require_role_Ok. unfold require_role.
  destruct (current !! "role") as [[| | |r| |]|]; try done.
  by case_bool_decide.
Qed.

(** The approved flag is not an input of the gate. *)
Lemma require_role_approved (current : doc) (roles : list string) (v : value) :
  require_role (<["approved" := v]> current) roles = require_role current roles.
Proof. unfold require_role. by rewrite lookup_insert_ne. Qed.

(** [create_assignment] past the role gate, with the course found. *)
Lemma create_assignment_eq (body : AssignmentCreate.t) (current : doc) (now : Z)
    (new_id cid : ObjectId) (db : Database) (r : string) (course : doc) :
  current !! "role" = Some (VStr r) →
  r ∈ ["teacher"; "admin"] →
  oid (VStr (AssignmentCreate.course_id body)) = Ok cid →
  List.find (doc_matches {[ "_id" := VOid cid ]}) (collection db "course") = Some course →
  create_assignment body current now new_id (Some db) =
  if bool_decide (r = "teacher") then
    match current !! "_id" with
    | None => (Raise (PyException "KeyError"), Some db)
    | Some me =>
        if bool_decide (default VNone (course !! "teacher_id") = VStr (py_str me))
        then
          let d := registered_assignment body now new_id in
          (Ok (serialize_doc d), Some (stored db "assignment" d))
        else (Raise (HTTPException 403 "Not your course"), Some db)
    end
  else
    let d := registered_assignment body now new_id in
    (Ok (serialize_doc d), Some (stored db "assignment" d)).
Proof.
  intros Hrole Hr Hoid Hfind.
  assert (ObjectId_of_str (AssignmentCreate.course_id body) = Some cid) as Hparse.
  { unfold oid in Hoid. destruct (ObjectId_of_str _); by simplify_eq. }
  unfold create_assignment, bind, the_db, find_one, insert_one, lift, ret, raise.
  simpl. rewrite (proj2 (require_role_Ok current _)) by eauto.
  rewrite Hparse, Hfind. rewrite (found_truthy _ _ _ _ Hfind). simpl.
  unfold subscript. rewrite Hrole.
  rewrite !lookup_insert_ne by done. rewrite lookup_singleton_ne by done.
  rewrite (bool_decide_ext (VStr r = VStr "teacher") (r = "teacher"))
    by (split; congruence).
  case_bool_decide; [|done].
  destruct (current !! "_id") as [me|]; [|done]. simpl.
  by case_bool_decide.
Qed.

(** [create_course] past the role gate. *)
Lemma create_course_eq (body : CourseCreate.t) (current : doc) (now : Z)
    (new_id : ObjectId) (db : Database) (r : string) (me : value) :
  current !! "role" = Some (VStr r) →
  r ∈ ["teacher"; "admin"] →
  current !! "_id" = Some me →
  create_course body current now new_id (Some db) =
  let d := registered_course body me now new_id in
  (Ok (serialize_doc d), Some (stored db "course" d)).
Proof.
  intros Hrole Hr Hid.
  unfold create_course, bind, the_db, find_one, insert_one, lift, ret, raise.
  simpl. rewrite (proj2 (require_role_Ok current _)) by eauto.
  unfold subscript. rewrite Hrole, Hid. simpl.
  rewrite (bool_decide_ext (VStr r = VStr "teacher") (r = "teacher"))
    by (split; congruence).
  case_bool_decide; simpl;
    rewrite !lookup_insert_ne by done; by rewrite lookup_singleton_ne by done.
Qed.

(** The approved flag is not an input of [create_course] either. *)
Lemma create_course_approved (body : CourseCreate.t) (current : doc) (now : Z)
    (new_id : ObjectId) (v : value) (s : option Database) :
  create_course body (<["approved" := v]> current) now new_id s
  = create_course body current now new_id s.
Proof.
  unfold create_course, subscript.
  by rewrite require_role_approved, !lookup_insert_ne by done.
Qed.

(** C7.  The gate denies with 403 "Forbidden" exactly when the account's
    role is not in the allowed set, and passes otherwise.  In the
    resource-scoped [create_assignment], on an existing course, a
    teacher whose id is not the course's [teacher_id] is denied with
    403 "Not your course", a teacher whose id is the owner's is let
    through, and an admin is let through whoever owns the course. *)
Theorem access_gate (current : doc) (roles : list string) :
  (require_role current roles = Raise (HTTPException 403 "Forbidden") ↔
   ¬ ∃ r, current !! "role" = Some (VStr r) ∧ r ∈ roles)
  ∧ (require_role current roles = Ok tt ↔
     ∃ r, current !! "role" = Some (VStr r) ∧ r ∈ roles)
  ∧ ∀ (body : AssignmentCreate.t) (now : Z) (new_id cid : ObjectId)
      (db : Database) (course : doc),
      oid (VStr (AssignmentCreate.course_id body)) = Ok cid →
      List.find (doc_matches {[ "_id" := VOid cid ]}) (collection db "course")
        = Some course →
      let allowed :=
        create_assignment body current now new_id (Some db)
        = (Ok (serialize_doc (registered_assignment body now new_id)),
           Some (stored db "assignment" (registered_assignment body now new_id))) in
      (∀ me, current !! "role" = Some (VStr "teacher") →
             current !! "_id" = Some me →
             default VNone (course !! "teacher_id") ≠ VStr (py_str me) →
             create_assignment body current now new_id (Some db)
             = (Raise (HTTPException 403 "Not your course"), Some db))
      ∧ (∀ me, current !! "role" = Some (VStr "teacher") →
               current !! "_id" = Some me →
               default VNone (course !! "teacher_id") = VStr (py_str me) →
               allowed)
      ∧ (current !! "role" = Some (VStr "admin") → allowed).
Proof.
  split; [apply require_role_Forbidden |]. split; [apply require_role_Ok |].
  intros body now new_id cid db course Hoid Hfind allowed. subst allowed.
  split; [|split].
  - intros me Hrole Hid Hne.
    rewrite (create_assignment_eq body current now new_id cid db "teacher" course)
      by (done || set_solver).
    rewrite bool_decide_true, Hid by done. by rewrite bool_decide_false.
  - intros me Hrole Hid Heq.
    rewrite (create_assignment_eq body current now new_id cid db "teacher" course)
      by (done || set_solver).
    rewrite bool_decide_true, Hid by done. by rewrite bool_decide_true.
  - intros Hrole.
    rewrite (create_assignment_eq body current now new_id cid db "admin" course)
      by (done || set_solver).
    by rewrite bool_decide_false.
Qed.

End Access.

(** ** Approval and the bearer token *)

Section Approval.
Context {L : Libraries} {C : Config} {LS : LibrariesSpec L}.

Lemma registered_doc_fields (payload : RegisterRequest.t) (now : Z)
    (h : string) (new_id : ObjectId) :
  let d := registered_doc payload now h new_id in
  d !! "_id" = Some (VOid new_id)
  ∧ d !! "email" = Some (VStr (RegisterRequest.email payload))
  ∧ d !! "role" = Some (VStr (role_str (RegisterRequest.role payload)))
  ∧ d !! "approved"
    = Some (VBool (bool_decide (RegisterRequest.role payload = student)))
  ∧ stored_hash d = VStr h.
Proof.
  unfold stored_hash, registered_doc. cbv zeta.
  repeat split; by simplify_map_eq.
Qed.

(** C5.  Neither authentication nor the role gate reads the approved
    flag.  [get_current_user] returns the stored account for its
    unexpired token also when approved = false; [require_role] passes
    whenever the role is in the allowed set and gives the same answer
    whatever the approved field holds, and so does [create_course].  In
    particular the token a teacher receives at registration (the
    hasher having taken the password and returned [h]), while the
    account is unapproved, authenticates and opens the role-gated
    [create_course]; the one place that refuses the account is [login]
    (403 "Account pending approval"). *)
Theorem approval_only_in_login :
  (∀ (account : doc) (i : ObjectId) (db : Database) (issued now : Z),
     List.find (doc_matches {[ "_id" := VOid i ]}) (collection db "user")
       = Some account →
     account !! "approved" = Some (VBool false) →
     json_value (default (VStr "student") (account !! "role")) = true →
     now < issued + 60 * JWT_EXP_MIN →
     get_current_user (Some ("Bearer " +:+ issued_token account (VOid i) issued))
       now (Some db) = (Ok account, Some db))
  ∧ (∀ (current : doc) (roles : list string) (r : string) (v : value),
       current !! "role" = Some (VStr r) → r ∈ roles →
       require_role (<["approved" := v]> current) roles = Ok tt)
  ∧ (∀ (body : CourseCreate.t) (current : doc) (now : Z) (new_id : ObjectId)
       (v : value) (s : option Database),
       create_course body (<["approved" := v]> current) now new_id s
       = create_course body current now new_id s)
  ∧ (∀ (payload : RegisterRequest.t) (salt h : string) (new_id course_id : ObjectId)
       (db : Database) (body : CourseCreate.t) (issued now : Z),
       RegisterRequest.role payload = teacher →
       email_free db (RegisterRequest.email payload) →
       bcrypt_hash (RegisterRequest.password payload) salt = Ok h →
       id_free db new_id →
       now < issued + 60 * JWT_EXP_MIN →
       let account := registered_doc payload issued h new_id in
       let token := issued_token account (VOid new_id) issued in
       let s1 := Some (stored db "user" account) in
       let course := registered_course body (VOid new_id) now course_id in
       register payload issued salt new_id (Some db)
         = (Ok (TokenResponse.mk token "bearer"), s1)
       ∧ account !! "approved" = Some (VBool false)
       ∧ get_current_user (Some ("Bearer " +:+ token)) now s1 = (Ok account, s1)
       ∧ Depends_get_current_user
           (λ current, create_course body current now course_id)
           (Some ("Bearer " +:+ token)) now s1
         = (Ok (serialize_doc course),
            Some (stored (stored db "user" account) "course" course))
       ∧ login (LoginRequest.mk (RegisterRequest.email payload)
                  (RegisterRequest.password payload)) now s1
         = (Raise (HTTPException 403 "Account pending approval"), s1)).
Proof.
  split; [|split; [|split]].
  - intros account i db issued now Hfind Happroved Hrole Hlive.
    pose proof (find_field_Some _ _ _ _ Hfind) as [_ Hid].
    by rewrite (get_current_user_live account i issued now db Hid Hrole Hlive), Hfind.
  - intros current roles r v Hrole Hr.
    rewrite require_role_approved. apply require_role_Ok. eauto.
  - apply create_course_approved.
  - intros payload salt h new_id course_id db body issued now Hteacher Hfree Hhash
      Hid Hlive account token s1 course.
    destruct (registered_doc_fields payload issued h new_id)
      as (Did & Demail & Drole & Dapproved & Dhash).
    fold account in Did, Demail, Drole, Dapproved, Dhash.
    rewrite Hteacher in Drole, Dapproved. simpl in Drole, Dapproved.
    assert (get_current_user (Some ("Bearer " +:+ token)) now s1 = (Ok account, s1))
      as Hauth.
    { subst token s1.
      rewrite (get_current_user_live account new_id issued now _ Did) by
        (done || by rewrite Drole).
      unfold stored. rewrite collection_insert, decide_True by done.
      by rewrite (find_app_fresh "_id" (VOid new_id) _ account Hid Did). }
    split; [|split; [done |split; [done |split]]].
    + rewrite register_eq, Hteacher. simpl.
      by rewrite (proj2 (find_field_None "email" _ _) Hfree), Hhash.
    + unfold Depends_get_current_user, bind. rewrite Hauth. subst s1.
      by rewrite (create_course_eq body account now course_id _ "teacher" (VOid new_id))
        by (done || set_solver).
    + subst s1. rewrite login_eq. simpl. unfold stored.
      rewrite collection_insert, decide_True by done.
      rewrite (find_app_fresh "email" _ _ account Hfree Demail).
      rewrite Dhash, (bcrypt_verify_hash _ _ _ Hhash).
      rewrite (proj2 (pending_true account)); [done |].
      by rewrite Drole, Dapproved.
Qed.

End Approval.

(** ** Identifiers and serialisation *)

Section Serialisation.
Context {L : Libraries} {C : Config}.

Lemma bytes_fromhex_length s bs :
  bytes_fromhex s = Some bs → String.length s = (2 * length bs)%nat.
Proof.
  revert bs.
  assert ((∀ bs, bytes_fromhex s = Some bs → String.length s = (2 * length bs)%nat)
          ∧ (∀ c bs, bytes_fromhex (String c s) = Some bs →
                     S (String.length s) = (2 * length bs)%nat)) as [H _]; [|done].
  induction s as [|a s [IH1 IH2]]; (split; [intros bs | intros c bs]); simpl.
  - by intros [= <-].
  - done.
  - apply IH2.
  - destruct (byte_of_hex c a); [|done].
    destruct (bytes_fromhex s) as [bs'|] eqn:Hs; [|done].
    intros [= <-]. simpl. rewrite (IH1 bs' eq_refl). lia.
Qed.

(** X1.  [oid] gives back the ObjectId whose printed form it is handed,
    so two ObjectIds with the same printed form are the same; an
    ObjectId passes through unchanged. *)
Theorem oid_roundtrip (o : ObjectId) :
  oid (VStr (ObjectId_str o)) = Ok o
  ∧ oid (VOid o) = Ok o
  ∧ ∀ o', ObjectId_str o' = ObjectId_str o → o' = o.
Proof.
  split; [|split].
  - unfold oid. by rewrite ObjectId_of_str_str.
  - done.
  - intros o' Heq.
    pose proof (ObjectId_of_str_str o') as H'. rewrite Heq, ObjectId_of_str_str in H'.
    by injection H'.
Qed.

(** X2.  [oid] turns every string that is not 24 characters long, and
    every number, boolean and datetime, into a 400 "Invalid id format".
    [None] is left out: for it the driver's constructor makes up a new
    id, and no handler passes it. *)
Theorem oid_invalid (v : value) :
  v ≠ VNone →
  (∀ s, v = VStr s → String.length s ≠ 24%nat) →
  (∀ o, v ≠ VOid o) →
  oid v = Raise (HTTPException 400 "Invalid id format").
Proof.
  intros Hnone Hlen Hoid. destruct v as [| | |s|o|]; try done.
  - unfold oid, ObjectId_of_str.
    destruct (bytes_fromhex s) as [bs|] eqn:Hbs; [|done].
    apply bytes_fromhex_length in Hbs.
    destruct bs as [|? [|? [|? [|? [|? [|? [|? [|? [|? [|? [|? [|? [|? ?]]]]]]]]]]]]];
      try done.
    by destruct (Hlen s eq_refl).
  - by destruct (Hoid o).
Qed.

Lemma isoformat_value_idemp v : isoformat_value (isoformat_value v) = isoformat_value v.
Proof. by destruct v. Qed.

Lemma serialize_doc_nonempty (d : doc) :
  d ≠ ∅ →
  serialize_doc d =
  isoformat_value <$>
    match d !! "_id" with
    | Some i => <["id" := VStr (py_str i)]> (delete "_id" d)
    | None => d
    end.
Proof. intros Hne. unfold serialize_doc. by rewrite bool_decide_false. Qed.

(** The fields of a serialised document. *)
Lemma serialize_doc_lookup (d : doc) :
  serialize_doc d !! "_id" = None
  ∧ (∀ k t, serialize_doc d !! k ≠ Some (VTime t))
  ∧ (∀ i, d !! "_id" = Some i → serialize_doc d !! "id" = Some (VStr (py_str i)))
  ∧ (∀ k, k ≠ "_id" → (k ≠ "id" ∨ d !! "_id" = None) →
          serialize_doc d !! k = isoformat_value <$> d !! k).
Proof.
  destruct (decide (d = ∅)) as [->|Hne].
  { unfold serialize_doc. rewrite bool_decide_true by done.
    repeat split; intros; by rewrite ?lookup_empty in *. }
  rewrite serialize_doc_nonempty by done.
  split; [|split; [|split]].
  - rewrite lookup_fmap. destruct (d !! "_id") eqn:Hid.
    + by rewrite lookup_insert_ne, lookup_delete_eq.
    + by rewrite Hid.
  - intros k t. rewrite lookup_fmap.
    destruct (_ !! k) as [[]|]; done.
  - intros i Hid. rewrite Hid, lookup_fmap. by rewrite lookup_insert_eq.
  - intros k Hk Hk'. rewrite lookup_fmap. destruct (d !! "_id") eqn:Hid; [|done].
    destruct Hk' as [Hk'|]; [|done].
    by rewrite lookup_insert_ne, lookup_delete_ne.
Qed.

(** X3.  A serialised document has no [_id] and holds no datetime; when
    the document had an [_id], its printed form is under [id]; every
    other field is kept, a datetime as its ISO text. *)
Theorem serialize_doc_shape (d : doc) :
  serialize_doc d !! "_id" = None
  ∧ (∀ k t, serialize_doc d !! k ≠ Some (VTime t))
  ∧ (∀ i, d !! "_id" = Some i → serialize_doc d !! "id" = Some (VStr (py_str i)))
  ∧ (∀ k, k ≠ "_id" → (k ≠ "id" ∨ d !! "_id" = None) →
          serialize_doc d !! k = isoformat_value <$> d !! k).
Proof. apply serialize_doc_lookup. Qed.

(** A serialised document from which the password hash was dropped
    first does not carry one. *)
Lemma serialize_without_password_hash (d : doc) :
  serialize_doc (without_password_hash d) !! "password_hash" = None.
Proof.
  destruct (serialize_doc_lookup (without_password_hash d)) as (_ & _ & _ & Hother).
  rewrite Hother by (done || by left).
  unfold without_password_hash. by rewrite lookup_delete_eq.
Qed.

(** X4.  Serialising twice is serialising once. *)
Theorem serialize_doc_idempotent (d : doc) :
  serialize_doc (serialize_doc d) = serialize_doc d.
Proof.
  destruct (serialize_doc_lookup d) as (Hid & _).
  destruct (decide (serialize_doc d = ∅)) as [->|Hne]; [done |].
  rewrite (serialize_doc_nonempty (serialize_doc d)) by done.
  rewrite Hid.
  destruct (decide (d = ∅)) as [->|Hd].
  { unfold serialize_doc. rewrite bool_decide_true by done. by rewrite fmap_empty. }
  rewrite serialize_doc_nonempty by done.
  rewrite <- map_fmap_compose. apply map_fmap_ext.
  intros k v _. apply isoformat_value_idemp.
Qed.

End Serialisation.

(** ** More on token verification *)

Section MoreTokens.
Context {L : Libraries} {C : Config} {LS : LibrariesSpec L}.

(** [get_current_user] reads the scheme and the token off the two
    space-separated fields only. *)
Lemma get_current_user_fields (scheme token : string) (now : Z)
    (s : option Database) :
  " "%char ∉ list_ascii_of_string scheme →
  get_current_user (Some (scheme +:+ String " " token)) now s =
  try_except
    (st <- lift (unpack2 (scheme :: split " " token)) ;;
     let '(scheme, token) := st in
     if negb (bool_decide (lower scheme = "bearer")) then
       raise (PyException "Exception")
     else
       payload <- lift (jwt_decode token SECRET_KEY now) ;;
       let user_id := default VNone (payload !! "sub") in
       if negb (truthy user_id) then raise (PyException "Exception")
       else
         db <- the_db ;;
         if is_none db then raise (PyException "Exception")
         else
           i <- lift (oid user_id) ;;
           user <- find_one "user" {[ "_id" := VOid i ]} ;;
           if negb (truthy_doc user) then raise (PyException "Exception")
           else ret (default ∅ user))
    (λ e, match e with
          | ExpiredSignatureError => raise (HTTPException 401 "Token expired")
          | _ => raise (HTTPException 401 "Invalid token")
          end) s.
Proof.
  intros Hscheme. unfold get_current_user, truthy_str.
  rewrite bool_decide_false by (by destruct scheme).
  cbn [negb]. unfold get_current_user_try. cbn [default from_option id].
  by rewrite split_first.
Qed.

(** X5.  The scheme is matched without regard to letter case: a header
    whose scheme lower-cases to "bearer" is treated like one that spells
    it "Bearer", whatever the token and the store. *)
Theorem scheme_case_insensitive (scheme token : string) (now : Z)
    (s : option Database) :
  lower scheme = "bearer" →
  get_current_user (Some (scheme +:+ String " " token)) now s
  = get_current_user (Some ("Bearer" +:+ String " " token)) now s.
Proof.
  intros Hlower.
  assert (" "%char ∉ list_ascii_of_string scheme) as Hscheme.
  { intros Hin.
    assert (" "%char ∈ list_ascii_of_string (lower scheme)) as Hin'.
    { clear Hlower. induction scheme as [|a scheme IH]; simpl in *.
      - by apply elem_of_nil in Hin.
      - apply elem_of_cons in Hin as [<-|Hin]; [left | right; by apply IH]. }
    rewrite Hlower in Hin'. revert Hin'. change (" "%char ∉ list_ascii_of_string "bearer").
    compute_done. }
  rewrite !get_current_user_fields by (done || compute_done).
  unfold try_except, bind, lift.
  destruct (split " " token) as [|t [|t' l]]; simpl; try done.
  by rewrite Hlower.
Qed.

(** X6.  A token that is still valid is not enough when its account is
    gone from the store, and when no database is configured: both end
    in 401 "Invalid token" (the missing database is not reported as
    500 here). *)
Theorem live_token_without_account (user : doc) (i : ObjectId) (issued now : Z) :
  user !! "_id" = Some (VOid i) →
  json_value (default (VStr "student") (user !! "role")) = true →
  now < issued + 60 * JWT_EXP_MIN →
  (∀ db, id_free db i →
     get_current_user (Some ("Bearer " +:+ issued_token user (VOid i) issued))
       now (Some db) = (Raise (HTTPException 401 "Invalid token"), Some db))
  ∧ get_current_user (Some ("Bearer " +:+ issued_token user (VOid i) issued))
      now None = (Raise (HTTPException 401 "Invalid token"), None).
Proof.
  intros Hid Hrole Hlive. split.
  - intros db Hfree.
    rewrite (get_current_user_live user i issued now db Hid Hrole Hlive).
    by rewrite (proj2 (find_field_None "_id" (VOid i) _) Hfree).
  - unfold get_current_user. rewrite truthy_str_bearer.
    unfold try_except, get_current_user_try, issued_token, issued_payload, bind, lift.
    simpl. rewrite split_absent by apply jwt_encode_no_space. simpl.
    rewrite (jwt_decode_live _ _ _ _ _ Hrole Hlive).
    rewrite !claims_sub. simpl.
    by rewrite bool_decide_false by apply ObjectId_str_nonempty.
Qed.

End MoreTokens.

(** ** Updates in the store *)

Section Updates.

Implicit Types (d u q fields : doc) (l : list doc) (db : Database).

Lemma existsb_find (f : doc → bool) l :
  existsb f l = match List.find f l with Some _ => true | None => false end.
Proof. induction l as [|x l IH]; simpl; [done |]. by destruct (f x). Qed.

(** [update_one] on an available store, by cases. *)
Lemma update_one_eq (c : string) q fields db :
  update_one c q fields (Some db) =
  match List.find (doc_matches q) (collection db c) with
  | Some _ => (Ok tt, Some (updated db c q fields))
  | None => (Ok tt, Some db)
  end.
Proof.
  unfold update_one, updated. rewrite existsb_find. by destruct (List.find _ _).
Qed.

Lemma update_first_length q fields l :
  length (update_first q fields l) = length l.
Proof. induction l as [|x l IH]; simpl; [done |]. destruct (doc_matches q x); simpl; lia. Qed.

(** A field the update does not set keeps its value. *)
Lemma union_lookup_other fields d (k : string) :
  fields !! k = None → (fields ∪ d) !! k = d !! k.
Proof. intros Hk. by apply lookup_union_r. Qed.

Lemma union_matches (k : string) (v : value) fields d :
  fields !! k = None →
  doc_matches {[ k := v ]} (fields ∪ d) = doc_matches {[ k := v ]} d.
Proof.
  intros Hk. apply bool_decide_ext.
  by rewrite !map_Forall_singleton, union_lookup_other.
Qed.

(** After an update by a one-field filter that the update leaves alone,
    the filter finds the updated document. *)
Lemma find_update_first (k : string) (v : value) fields l u :
  fields !! k = None →
  List.find (doc_matches {[ k := v ]}) l = Some u →
  List.find (doc_matches {[ k := v ]}) (update_first {[ k := v ]} fields l)
  = Some (fields ∪ u).
Proof.
  intros Hk. induction l as [|x l IH]; simpl; [done |].
  destruct (doc_matches {[k := v]} x) eqn:Hx.
  - intros [= ->]. simpl. by rewrite union_matches, Hx.
  - intros Hfind. simpl. rewrite Hx. by apply IH.
Qed.

(** Without a match the collection is left as it is. *)
Lemma update_first_no_match q fields l :
  List.find (doc_matches q) l = None → update_first q fields l = l.
Proof.
  induction l as [|x l IH]; simpl; [done |].
  destruct (doc_matches q x); [done |]. intros Hfind. by rewrite IH.
Qed.

(** An update that reaches the last document only. *)
Lemma update_first_app_fresh (k : string) (v : value) fields l u :
  (∀ x, x ∈ l → x !! k ≠ Some v) → u !! k = Some v →
  update_first {[ k := v ]} fields (l ++ [u])%list = (l ++ [fields ∪ u])%list.
Proof.
  intros Hfresh Hk. induction l as [|x l IH]; simpl.
  - by rewrite (proj2 (doc_matches_field k v u) Hk).
  - destruct (doc_matches {[k := v]} x) eqn:Hx.
    + apply doc_matches_field in Hx. destruct (Hfresh x); [left | done].
    + f_equal. apply IH. intros y Hy. apply Hfresh. by right.
Qed.

(** Every document of an updated collection is an old one, or the old
    one with the fields set. *)
Lemma update_first_elem q fields l x :
  x ∈ update_first q fields l →
  x ∈ l ∨ ∃ u, u ∈ l ∧ doc_matches q u = true ∧ x = fields ∪ u.
Proof.
  induction l as [|y l IH]; simpl; [by intros ?%elem_of_nil |].
  destruct (doc_matches q y) eqn:Hy.
  - intros [->|Hin]%elem_of_cons.
    + right. exists y. split; [left | done].
    + left. by right.
  - intros [->|Hin]%elem_of_cons; [left; left |].
    destruct (IH Hin) as [?|(u & ? & ? & ?)]; [left; by right |].
    right. exists u. split; [by right | done].
Qed.

Lemma collection_updated db (c c' : string) q fields :
  collection (updated db c q fields) c' =
  if decide (c = c') then update_first q fields (collection db c)
  else collection db c'.
Proof. unfold updated. apply collection_insert. Qed.

Lemma collection_stored db (c c' : string) d :
  collection (stored db c d) c' =
  if decide (c = c') then (collection db c ++ [d])%list else collection db c'.
Proof. unfold stored. apply collection_insert. Qed.

End Updates.

(** ** Profile *)

Section Profile.
Context {L : Libraries} {C : Config} {K : Cursor}.

(** X7.  [GET /me] answers with the account without its password hash
    and without [_id], the id in printed form under [id], and every
    other field kept (a datetime as ISO text). *)
Theorem me_hides_password_hash (current : doc) (s : option Database) :
  ∃ out,
    me current s = (Ok out, s)
    ∧ out !! "password_hash" = None
    ∧ out !! "_id" = None
    ∧ (∀ i, current !! "_id" = Some i → out !! "id" = Some (VStr (py_str i)))
    ∧ (∀ k, k ∉ ["password_hash"; "_id"; "id"] →
            out !! k = isoformat_value <$> current !! k).
Proof.
  exists (serialize_doc (without_password_hash current)).
  destruct (serialize_doc_lookup (without_password_hash current))
    as (Hid & _ & Hprinted & Hother).
  unfold without_password_hash in *.
  split; [done |]. split; [|split; [done |split]].
  - rewrite Hother by (done || by left). by rewrite lookup_delete_eq.
  - intros i Hi. apply Hprinted. by rewrite lookup_delete_ne.
  - intros k Hk. rewrite !not_elem_of_cons in Hk. destruct Hk as (? & ? & ? & _).
    rewrite Hother by (done || by left). by rewrite lookup_delete_ne.
Qed.

Lemma profile_data_empty (update : ProfileUpdate.t) :
  profile_data update = ∅ ↔ update = ProfileUpdate.mk None None None.
Proof.
  destruct update as [[n|] [b|] [a|]]; unfold profile_data; simpl;
    (split; [intros Heq | intros [=]]); try done;
    by apply insert_non_empty in Heq.
Qed.

Lemma profile_fields_other (update : ProfileUpdate.t) (now : Z) (k : string) :
  k ∉ ["name"; "bio"; "avatar_url"; "updated_at"] →
  profile_fields update now !! k = None.
Proof.
  rewrite !not_elem_of_cons. intros (? & ? & ? & ? & _).
  unfold profile_fields, profile_data.
  destruct update as [[n|] [b|] [a|]]; simpl; by simplify_map_eq.
Qed.

(** X8.  An update that sets nothing answers with the serialised account
    as it was handed in, password hash included, and writes nothing. *)
Theorem update_me_nothing_to_set (current : doc) (now : Z) (db : Database) :
  update_me (ProfileUpdate.mk None None None) current now (Some db)
    = (Ok (serialize_doc current), Some db)
  ∧ (∀ h, current !! "password_hash" = Some (VStr h) →
          serialize_doc current !! "password_hash" = Some (VStr h)).
Proof.
  split; [done |].
  intros h Hh. destruct (serialize_doc_lookup current) as (_ & _ & _ & Hother).
  rewrite Hother by (done || by left). by rewrite Hh.
Qed.

(** X9.  An update that sets something rewrites, in the stored account,
    only [name], [bio], [avatar_url] and [updated_at]: the role, the
    approved flag, the email and the password hash stay as they were,
    the other collections are untouched, and the answer carries no
    password hash. *)
Theorem update_me_sets_profile_only (update : ProfileUpdate.t) (current : doc)
    (i : value) (now : Z) (db : Database) :
  update ≠ ProfileUpdate.mk None None None →
  List.find (doc_matches {[ "_id" := i ]}) (collection db "user") = Some current →
  let fields := profile_fields update now in
  let account := fields ∪ current in
  update_me update current now (Some db)
    = (Ok (serialize_doc (without_password_hash account)),
       Some (updated db "user" {[ "_id" := i ]} fields))
  ∧ List.find (doc_matches {[ "_id" := i ]})
      (collection (updated db "user" {[ "_id" := i ]} fields) "user") = Some account
  ∧ (∀ k, k ∉ ["name"; "bio"; "avatar_url"; "updated_at"] →
          account !! k = current !! k)
  ∧ (∀ c, c ≠ "user" →
          collection (updated db "user" {[ "_id" := i ]} fields) c = collection db c)
  ∧ serialize_doc (without_password_hash account) !! "password_hash" = None.
Proof.
  intros Hset Hfind fields account.
  pose proof (find_field_Some _ _ _ _ Hfind) as [_ Hid].
  assert (fields !! "_id" = None) as Hfid.
  { apply profile_fields_other. compute_done. }
  assert (List.find (doc_matches {[ "_id" := i ]})
            (collection (updated db "user" {[ "_id" := i ]} fields) "user")
          = Some account) as Hfound.
  { rewrite collection_updated, decide_True by done.
    by apply find_update_first. }
  split; [|split; [done |split; [|split]]].
  - unfold update_me, bind, the_db, lift, ret, raise, subscript. simpl.
    rewrite bool_decide_false by (by rewrite profile_data_empty).
    rewrite Hid. fold (profile_fields update now). fold fields.
    rewrite update_one_eq, Hfind. unfold find_one. by rewrite Hfound.
  - intros k Hk. apply union_lookup_other. by apply profile_fields_other.
  - intros c Hc. by rewrite collection_updated, decide_False.
  - apply serialize_without_password_hash.
Qed.

End Profile.

(** ** Administration *)

Section Admin.
Context {L : Libraries} {C : Config} {K : Cursor}.

Lemma require_admin (current : doc) :
  current !! "role" = Some (VStr "admin") → require_role current ["admin"] = Ok tt.
Proof. intros Hrole. apply require_role_Ok. exists "admin". split; [done | left]. Qed.

Lemma require_admin_denied (current : doc) :
  current !! "role" ≠ Some (VStr "admin") →
  require_role current ["admin"] = Raise (HTTPException 403 "Forbidden").
Proof.
  intros Hrole. apply require_role_Forbidden. intros (r & Hr & Hin).
  apply list_elem_of_singleton in Hin as ->. done.
Qed.

Lemma approval_fields_other (approved : bool) (now : Z) (k : string) :
  k ∉ ["approved"; "updated_at"] → approval_fields approved now !! k = None.
Proof.
  rewrite !not_elem_of_cons. intros (? & ? & _).
  unfold approval_fields. by simplify_map_eq.
Qed.

(** [approve_user] for an admin, by cases. *)
Lemma approve_user_eq (body : ApproveUserRequest.t) (current : doc) (now : Z)
    (db : Database) :
  current !! "role" = Some (VStr "admin") →
  approve_user body current now (Some db) =
  match oid (VStr (ApproveUserRequest.user_id body)) with
  | Raise e => (Raise e, Some db)
  | Ok i =>
      let fields := approval_fields (ApproveUserRequest.approved body) now in
      match List.find (doc_matches {[ "_id" := VOid i ]}) (collection db "user") with
      | None => (Raise (HTTPException 404 "User not found"), Some db)
      | Some u =>
          (Ok (serialize_doc (without_password_hash (fields ∪ u))),
           Some (updated db "user" {[ "_id" := VOid i ]} fields))
      end
  end.
Proof.
  intros Hrole.
  unfold approve_user, bind, the_db, lift, ret, raise. cbn [is_none].
  rewrite (require_admin current Hrole).
  destruct (oid _) as [i|e]; [|done].
  fold (approval_fields (ApproveUserRequest.approved body) now).
  rewrite update_one_eq. unfold find_one.
  destruct (List.find _ (collection db "user")) as [u|] eqn:Hfind.
  - rewrite collection_updated, decide_True by done.
    rewrite (find_update_first "_id" (VOid i) _ _ u) by
      (done || (apply approval_fields_other; compute_done)).
    simpl. rewrite bool_decide_false; [done |].
    apply find_field_Some in Hfind as [_ Hid]. intros Hempty.
    apply (f_equal (λ m : doc, m !! "_id")) in Hempty.
    rewrite union_lookup_other, Hid, lookup_empty in Hempty
      by (apply approval_fields_other; compute_done).
    done.
  - by rewrite Hfind.
Qed.

(** X10.  [approve_user] refuses everyone but an admin with 403
    "Forbidden", an admin's malformed id with 400 and an id no account
    carries with 404 "User not found"; in all three cases nothing is
    written. *)
Theorem approve_user_refusals (body : ApproveUserRequest.t) (current : doc)
    (now : Z) (db : Database) :
  (current !! "role" ≠ Some (VStr "admin") →
   approve_user body current now (Some db)
     = (Raise (HTTPException 403 "Forbidden"), Some db))
  ∧ (current !! "role" = Some (VStr "admin") →
     String.length (ApproveUserRequest.user_id body) ≠ 24%nat →
     approve_user body current now (Some db)
       = (Raise (HTTPException 400 "Invalid id format"), Some db))
  ∧ (∀ i, current !! "role" = Some (VStr "admin") →
          oid (VStr (ApproveUserRequest.user_id body)) = Ok i →
          id_free db i →
          approve_user body current now (Some db)
            = (Raise (HTTPException 404 "User not found"), Some db)).
Proof.
  split; [|split].
  - intros Hrole.
    unfold approve_user, bind, the_db, lift, ret, raise. cbn [is_none].
    by rewrite (require_admin_denied current Hrole).
  - intros Hrole Hlen. rewrite approve_user_eq by done.
    assert (oid (VStr (ApproveUserRequest.user_id body))
            = Raise (HTTPException 400 "Invalid id format")) as ->; [|done].
    unfold oid, ObjectId_of_str.
    destruct (bytes_fromhex _) as [bs|] eqn:Hbs; [|done].
    apply bytes_fromhex_length in Hbs.
    destruct bs as [|? [|? [|? [|? [|? [|? [|? [|? [|? [|? [|? [|? [|? ?]]]]]]]]]]]]];
      try done.
  - intros i Hrole Hoid Hfree. rewrite approve_user_eq, Hoid by done. cbv zeta.
    by rewrite (proj2 (find_field_None "_id" (VOid i) _) Hfree).
Qed.

(** X11.  For an admin and an existing account [approve_user] sets the
    approved flag to the requested value, true or false, and stamps
    [updated_at]; every other field of the account, its role, email and
    password hash among them, is as before, and the answer carries no
    password hash. *)
Theorem approve_user_effect (body : ApproveUserRequest.t) (current u : doc)
    (i : ObjectId) (now : Z) (db : Database) :
  current !! "role" = Some (VStr "admin") →
  oid (VStr (ApproveUserRequest.user_id body)) = Ok i →
  List.find (doc_matches {[ "_id" := VOid i ]}) (collection db "user") = Some u →
  let fields := approval_fields (ApproveUserRequest.approved body) now in
  let db' := updated db "user" {[ "_id" := VOid i ]} fields in
  approve_user body current now (Some db)
    = (Ok (serialize_doc (without_password_hash (fields ∪ u))), Some db')
  ∧ List.find (doc_matches {[ "_id" := VOid i ]}) (collection db' "user")
    = Some (fields ∪ u)
  ∧ (fields ∪ u) !! "approved" = Some (VBool (ApproveUserRequest.approved body))
  ∧ (∀ k, k ∉ ["approved"; "updated_at"] → (fields ∪ u) !! k = u !! k)
  ∧ length (collection db' "user") = length (collection db "user")
  ∧ serialize_doc (without_password_hash (fields ∪ u)) !! "password_hash" = None.
Proof.
  intros Hrole Hoid Hfind fields db'.
  split; [|split; [|split; [|split; [|split]]]].
  - rewrite approve_user_eq, Hoid by done. cbv zeta. by rewrite Hfind.
  - subst db'. rewrite collection_updated, decide_True by done.
    apply find_update_first; [|done]. apply approval_fields_other. compute_done.
  - apply lookup_union_Some_l. subst fields. unfold approval_fields.
    by simplify_map_eq.
  - intros k Hk. apply union_lookup_other. by apply approval_fields_other.
  - subst db'. rewrite collection_updated, decide_True by done.
    apply update_first_length.
  - apply serialize_without_password_hash.
Qed.

End Admin.

(** ** Approval, from registration to login *)

Section ApprovalFlow.
Context {L : Libraries} {C : Config} {K : Cursor} {LS : LibrariesSpec L}.

(** X12.  A teacher who has registered (the hasher having taken the
    password and returned [h]) cannot log in; once an admin approves
    the account, login with the same credentials returns a token; if
    the admin sets the flag to false instead, login is still refused.
    The admin names the account by its printed id. *)
Theorem approve_then_login (payload : RegisterRequest.t) (salt h : string)
    (new_id : ObjectId) (db : Database) (current : doc) (approved : bool)
    (t0 t1 t2 : Z) :
  RegisterRequest.role payload = teacher →
  email_free db (RegisterRequest.email payload) →
  bcrypt_hash (RegisterRequest.password payload) salt = Ok h →
  id_free db new_id →
  current !! "role" = Some (VStr "admin") →
  let account := registered_doc payload t0 h new_id in
  let s1 := Some (stored db "user" account) in
  let credentials := LoginRequest.mk (RegisterRequest.email payload)
                       (RegisterRequest.password payload) in
  let fields := approval_fields approved t1 in
  let db2 := updated (stored db "user" account) "user"
               {[ "_id" := VOid new_id ]} fields in
  snd (register payload t0 salt new_id (Some db)) = s1
  ∧ login credentials t1 s1
    = (Raise (HTTPException 403 "Account pending approval"), s1)
  ∧ snd (approve_user (ApproveUserRequest.mk (ObjectId_str new_id) approved)
           current t1 s1) = Some db2
  ∧ login credentials t2 (Some db2)
    = if approved then
        (Ok (TokenResponse.mk (issued_token (fields ∪ account) (VOid new_id) t2)
               "bearer"), Some db2)
      else (Raise (HTTPException 403 "Account pending approval"), Some db2).
Proof.
  intros Hteacher Hfree Hhash Hid Hadmin account s1 credentials fields db2.
  destruct (registered_doc_fields payload t0 h new_id)
    as (Did & Demail & Drole & Dapproved & Dhash).
  fold account in Did, Demail, Drole, Dapproved, Dhash.
  rewrite Hteacher in Drole, Dapproved. simpl in Drole, Dapproved.
  assert (∀ k, k ∉ ["approved"; "updated_at"] → (fields ∪ account) !! k = account !! k)
    as Hkeep.
  { intros k Hk. apply union_lookup_other. by apply approval_fields_other. }
  assert (collection db2 "user" = (collection db "user" ++ [fields ∪ account])%list)
    as Husers.
  { subst db2. rewrite collection_updated, decide_True by done.
    rewrite collection_stored, decide_True by done.
    by apply update_first_app_fresh. }
  split; [|split; [|split]].
  - rewrite register_eq, Hteacher. simpl.
    by rewrite (proj2 (find_field_None "email" _ _) Hfree), Hhash.
  - subst s1. rewrite login_eq. simpl.
    rewrite collection_stored, decide_True by done.
    rewrite (find_app_fresh "email" _ _ account Hfree Demail).
    rewrite Dhash, (bcrypt_verify_hash _ _ _ Hhash).
    rewrite (proj2 (pending_true account)); [done |].
    by rewrite Drole, Dapproved.
  - subst s1. rewrite approve_user_eq by done. simpl ApproveUserRequest.user_id.
    unfold oid at 1. rewrite ObjectId_of_str_str. cbv zeta.
    rewrite collection_stored, decide_True by done.
    by rewrite (find_app_fresh "_id" _ _ account Hid Did).
  - rewrite login_eq. simpl. rewrite Husers.
    rewrite (find_app_fresh "email" _ _ (fields ∪ account) Hfree)
      by (rewrite Hkeep by compute_done; done).
    unfold stored_hash. rewrite Hkeep by compute_done.
    fold (stored_hash account). rewrite Dhash, (bcrypt_verify_hash _ _ _ Hhash).
    assert ((fields ∪ account) !! "approved" = Some (VBool approved)) as Happ.
    { apply lookup_union_Some_l. subst fields. unfold approval_fields.
      by simplify_map_eq. }
    destruct approved.
    + assert (pending (fields ∪ account) = false) as ->.
      { unfold pending. by rewrite Happ, andb_false_r. }
      rewrite (create_token_eq (fields ∪ account) (VOid new_id) t2); [done |].
      by rewrite Hkeep by compute_done.
    + rewrite (proj2 (pending_true (fields ∪ account))); [done |].
      rewrite Hkeep by compute_done. by rewrite Drole, Happ.
Qed.

End ApprovalFlow.

(** ** Listings and counts *)

Section Listings.
Context {L : Libraries} {C : Config} {K : Cursor} {KS : CursorSpec K}.

Lemma filter_all (l : list doc) : List.filter (doc_matches ∅) l = l.
Proof.
  induction l as [|x l IH]; simpl; [done |].
  unfold doc_matches at 1. rewrite bool_decide_true by apply map_Forall_empty.
  by rewrite IH.
Qed.

(** X13.  [list_users] answers an admin with one entry per stored
    account, none of which carries a password hash or an [_id], and
    everyone else with 403 "Forbidden"; it writes nothing. *)
Theorem list_users_hides_hashes (current : doc) (db : Database) :
  (current !! "role" ≠ Some (VStr "admin") →
   list_users current (Some db) = (Raise (HTTPException 403 "Forbidden"), Some db))
  ∧ (current !! "role" = Some (VStr "admin") →
     ∃ out, list_users current (Some db) = (Ok out, Some db)
            ∧ length out = length (collection db "user")
            ∧ ∀ d, d ∈ out → d !! "password_hash" = None ∧ d !! "_id" = None).
Proof.
  split; intros Hrole;
    unfold list_users, bind, the_db, find_many, lift, ret, raise; cbn [is_none].
  - by rewrite (require_admin_denied current Hrole).
  - rewrite (require_admin current Hrole), filter_all.
    eexists. split; [done |]. split.
    + rewrite length_fmap. by rewrite cursor_sort_perm.
    + intros d (u & -> & _)%list_elem_of_fmap. split.
      * apply serialize_without_password_hash.
      * apply serialize_doc_lookup.
Qed.

Lemma filter_disjoint_length (f g : doc → bool) (l : list doc) :
  (∀ x, f x = true → g x = false) →
  (length (List.filter f l) + length (List.filter g l) ≤ length l)%nat.
Proof.
  intros Hfg. induction l as [|x l IH]; simpl; [done |].
  destruct (f x) eqn:Hf.
  - rewrite (Hfg x Hf). simpl. lia.
  - destruct (g x); simpl; lia.
Qed.

(** X14.  [stats] answers an admin with the sizes of the collections;
    the students and the teachers it counts are disjoint groups of the
    users, so the two counts together never exceed the user count.
    Everyone else gets 403 "Forbidden". *)
Theorem stats_counts (current : doc) (db : Database) :
  (current !! "role" ≠ Some (VStr "admin") →
   stats current (Some db) = (Raise (HTTPException 403 "Forbidden"), Some db))
  ∧ (current !! "role" = Some (VStr "admin") →
     ∃ out users students teachers,
       stats current (Some db) = (Ok out, Some db)
       ∧ out !! "users" = Some (VInt users)
       ∧ out !! "students" = Some (VInt students)
       ∧ out !! "teachers" = Some (VInt teachers)
       ∧ out !! "courses" = Some (VInt (Z.of_nat (length (collection db "course"))))
       ∧ users = Z.of_nat (length (collection db "user"))
       ∧ 0 ≤ students ∧ 0 ≤ teachers ∧ students + teachers ≤ users).
Proof.
  split; intros Hrole;
    unfold stats, bind, the_db, count_documents, lift, ret, raise; cbn [is_none].
  - by rewrite (require_admin_denied current Hrole).
  - rewrite (require_admin current Hrole), !filter_all.
    eexists _, _, _, _. split; [done |].
    repeat (split; [by simplify_map_eq |]).
    split; [lia |]. split; [lia |].
    pose proof (filter_disjoint_length
                  (doc_matches {[ "role" := VStr "student" ]})
                  (doc_matches {[ "role" := VStr "teacher" ]})
                  (collection db "user")) as Hlen.
    rewrite <- Nat2Z.inj_add. apply Nat2Z.inj_le, Hlen.
    intros x Hx. apply doc_matches_field in Hx.
    destruct (doc_matches {[ "role" := VStr "teacher" ]} x) eqn:Hx'; [|done].
    apply doc_matches_field in Hx'. congruence.
Qed.

(** [my_courses] past the role gate. *)
Lemma my_courses_eq (current : doc) (me : value) (r : string) (db : Database) :
  current !! "_id" = Some me →
  current !! "role" = Some (VStr r) →
  r ∈ ["teacher"; "admin"] →
  my_courses current (Some db) =
  (Ok (serialize_doc <$>
         cursor_sort "created_at" (-1)
           (List.filter
              (doc_matches (if bool_decide (r = "teacher")
                            then {[ "teacher_id" := VStr (py_str me) ]} else ∅))
              (collection db "course"))),
   Some db).
Proof.
  intros Hid Hrole Hr.
  unfold my_courses, bind, the_db, find_many, lift, ret, raise, subscript.
  cbn [is_none]. rewrite (proj2 (require_role_Ok current _)) by eauto.
  rewrite Hrole, Hid.
  rewrite (bool_decide_ext (VStr r = VStr "teacher") (r = "teacher"))
    by (split; congruence).
  by case_bool_decide.
Qed.

(** X15.  [my_courses] shows a teacher the courses stored under the
    teacher's own printed id and no other; an admin is shown every
    course. *)
Theorem my_courses_own_only (current : doc) (me : value) (db : Database) :
  current !! "_id" = Some me →
  (current !! "role" = Some (VStr "teacher") →
   ∃ found, my_courses current (Some db)
            = (Ok (serialize_doc <$> found), Some db)
     ∧ ∀ c, c ∈ found ↔
            c ∈ collection db "course" ∧ c !! "teacher_id" = Some (VStr (py_str me)))
  ∧ (current !! "role" = Some (VStr "admin") →
     ∃ found, my_courses current (Some db)
              = (Ok (serialize_doc <$> found), Some db)
       ∧ found ≡ₚ collection db "course").
Proof.
  intros Hid. split; intros Hrole.
  - rewrite (my_courses_eq current me "teacher" db) by (done || set_solver).
    rewrite bool_decide_true by done.
    eexists. split; [done |]. intros c.
    rewrite cursor_sort_perm, list_elem_of_In, List.filter_In, <- list_elem_of_In.
    by rewrite doc_matches_field.
  - rewrite (my_courses_eq current me "admin" db) by (done || set_solver).
    rewrite bool_decide_false by done.
    eexists. split; [done |]. by rewrite filter_all, cursor_sort_perm.
Qed.

End Listings.

(** ** Course ownership *)

Section Ownership.
Context {L : Libraries} {C : Config} {K : Cursor}.

Lemma assignment_fields_other (teacher_id : string) (now : Z) (k : string) :
  k ∉ ["teacher_id"; "updated_at"] → assignment_fields teacher_id now !! k = None.
Proof.
  rewrite !not_elem_of_cons. intros (? & ? & _).
  unfold assignment_fields. by simplify_map_eq.
Qed.

(** [assign_teacher] for an admin, by cases. *)
Lemma assign_teacher_eq (body : AssignTeacherRequest.t) (current : doc) (now : Z)
    (db : Database) :
  current !! "role" = Some (VStr "admin") →
  assign_teacher body current now (Some db) =
  match oid (VStr (AssignTeacherRequest.teacher_id body)) with
  | Raise e => (Raise e, Some db)
  | Ok t =>
      match List.find (doc_matches {[ "_id" := VOid t ]}) (collection db "user") with
      | Some tutor =>
          if bool_decide (tutor !! "role" = Some (VStr "teacher")) then
            match oid (VStr (AssignTeacherRequest.course_id body)) with
            | Raise e => (Raise e, Some db)
            | Ok i =>
                let fields :=
                  assignment_fields (AssignTeacherRequest.teacher_id body) now in
                match List.find (doc_matches {[ "_id" := VOid i ]})
                        (collection db "course") with
                | None => (Raise (HTTPException 404 "Course not found"), Some db)
                | Some course =>
                    (Ok (serialize_doc (fields ∪ course)),
                     Some (updated db "course" {[ "_id" := VOid i ]} fields))
                end
            end
          else (Raise (HTTPException 400 "Invalid teacher"), Some db)
      | None => (Raise (HTTPException 400 "Invalid teacher"), Some db)
      end
  end.
Proof.
  intros Hrole.
  unfold assign_teacher, bind, the_db, lift, ret, raise. cbn [is_none].
  rewrite (require_admin current Hrole).
  destruct (oid (VStr (AssignTeacherRequest.teacher_id body))) as [t|e]; [|done].
  unfold find_one at 1.
  destruct (List.find _ (collection db "user")) as [tutor|] eqn:Htutor; [|done].
  rewrite (found_truthy _ _ _ _ Htutor). cbn [negb orb default from_option id].
  rewrite (bool_decide_ext (default VNone (tutor !! "role") = VStr "teacher")
             (tutor !! "role" = Some (VStr "teacher"))).
  2:{ destruct (tutor !! "role"); simpl; split; congruence. }
  case_bool_decide; [|done]. cbn [negb].
  destruct (oid (VStr (AssignTeacherRequest.course_id body))) as [i|e]; [|done].
  fold (assignment_fields (AssignTeacherRequest.teacher_id body) now).
  rewrite update_one_eq. unfold find_one.
  destruct (List.find _ (collection db "course")) as [course|] eqn:Hcourse.
  - rewrite collection_updated, decide_True by done.
    rewrite (find_update_first "_id" (VOid i) _ _ course) by
      (done || (apply assignment_fields_other; compute_done)).
    simpl. rewrite bool_decide_false; [done |].
    apply find_field_Some in Hcourse as [_ Hid]. intros Hempty.
    apply (f_equal (λ m : doc, m !! "_id")) in Hempty.
    rewrite union_lookup_other, Hid, lookup_empty in Hempty
      by (apply assignment_fields_other; compute_done).
    done.
  - by rewrite Hcourse.
Qed.

(** X16.  [assign_teacher] hands a course only to an existing account
    whose role is teacher: an id no account carries, and the id of a
    student or an admin, are refused with 400 "Invalid teacher", and
    nothing is written. *)
Theorem assign_teacher_needs_teacher (body : AssignTeacherRequest.t)
    (current : doc) (t : ObjectId) (now : Z) (db : Database) :
  current !! "role" = Some (VStr "admin") →
  oid (VStr (AssignTeacherRequest.teacher_id body)) = Ok t →
  (id_free db t →
   assign_teacher body current now (Some db)
     = (Raise (HTTPException 400 "Invalid teacher"), Some db))
  ∧ (∀ u, List.find (doc_matches {[ "_id" := VOid t ]}) (collection db "user")
            = Some u →
          u !! "role" ≠ Some (VStr "teacher") →
          assign_teacher body current now (Some db)
            = (Raise (HTTPException 400 "Invalid teacher"), Some db)).
Proof.
  intros Hrole Hoid. rewrite assign_teacher_eq, Hoid by done. split.
  - intros Hfree. by rewrite (proj2 (find_field_None "_id" (VOid t) _) Hfree).
  - intros u -> Hu. by rewrite bool_decide_false.
Qed.

(** X17.  After [assign_teacher] the course records the teacher id as
    the text the request carried.  The assigned teacher then passes the
    ownership test of [create_assignment] exactly when that text is the
    printed form of the teacher's id: a request that spells the id in
    another way that [oid] accepts leaves the teacher with 403 "Not
    your course". *)
Theorem assign_teacher_then_create_assignment (body : AssignTeacherRequest.t)
    (abody : AssignmentCreate.t) (current tutor course : doc)
    (t i new_id : ObjectId) (now now' : Z) (db : Database) :
  current !! "role" = Some (VStr "admin") →
  oid (VStr (AssignTeacherRequest.teacher_id body)) = Ok t →
  List.find (doc_matches {[ "_id" := VOid t ]}) (collection db "user") = Some tutor →
  tutor !! "role" = Some (VStr "teacher") →
  oid (VStr (AssignTeacherRequest.course_id body)) = Ok i →
  oid (VStr (AssignmentCreate.course_id abody)) = Ok i →
  List.find (doc_matches {[ "_id" := VOid i ]}) (collection db "course") = Some course →
  let fields := assignment_fields (AssignTeacherRequest.teacher_id body) now in
  let db' := updated db "course" {[ "_id" := VOid i ]} fields in
  assign_teacher body current now (Some db)
    = (Ok (serialize_doc (fields ∪ course)), Some db')
  ∧ (fields ∪ course) !! "teacher_id"
    = Some (VStr (AssignTeacherRequest.teacher_id body))
  ∧ create_assignment abody tutor now' new_id (Some db')
    = if bool_decide (AssignTeacherRequest.teacher_id body = ObjectId_str t) then
        (Ok (serialize_doc (registered_assignment abody now' new_id)),
         Some (stored db' "assignment" (registered_assignment abody now' new_id)))
      else (Raise (HTTPException 403 "Not your course"), Some db').
Proof.
  intros Hadmin Ht Htutor Hrole Hi Hi' Hcourse fields db'.
  pose proof (find_field_Some _ _ _ _ Htutor) as [_ Htid].
  assert ((fields ∪ course) !! "teacher_id"
          = Some (VStr (AssignTeacherRequest.teacher_id body))) as Hset.
  { apply lookup_union_Some_l. subst fields. unfold assignment_fields.
    by simplify_map_eq. }
  split; [|split; [done |]].
  - rewrite assign_teacher_eq, Ht, Htutor by done.
    rewrite bool_decide_true by done. by rewrite Hi, Hcourse.
  - rewrite (create_assignment_eq abody tutor now' new_id i db' "teacher"
               (fields ∪ course)); [| done | set_solver | done |].
    + rewrite bool_decide_true, Htid, Hset by done. simpl.
      rewrite (bool_decide_ext
                 (VStr (AssignTeacherRequest.teacher_id body) = VStr (ObjectId_str t))
                 (AssignTeacherRequest.teacher_id body = ObjectId_str t))
        by (split; congruence).
      by case_bool_decide.
    + subst db'. rewrite collection_updated, decide_True by done.
      apply find_update_first; [|done].
      apply assignment_fields_other. compute_done.
Qed.

(** X18.  The teacher who creates a course owns it: with the course
    stored under a fresh id, the creator's [create_assignment] on it is
    let through, and that of a teacher with another id is refused with
    403 "Not your course". *)
Theorem create_course_then_create_assignment (cbody : CourseCreate.t)
    (abody : AssignmentCreate.t) (creator other : doc) (me you : value)
    (cid new_id : ObjectId) (now now' : Z) (db : Database) :
  creator !! "role" = Some (VStr "teacher") →
  creator !! "_id" = Some me →
  other !! "role" = Some (VStr "teacher") →
  other !! "_id" = Some you →
  py_str you ≠ py_str me →
  id_free_in db "course" cid →
  AssignmentCreate.course_id abody = ObjectId_str cid →
  let course := registered_course cbody me now cid in
  let db' := stored db "course" course in
  create_course cbody creator now cid (Some db)
    = (Ok (serialize_doc course), Some db')
  ∧ create_assignment abody creator now' new_id (Some db')
    = (Ok (serialize_doc (registered_assignment abody now' new_id)),
       Some (stored db' "assignment" (registered_assignment abody now' new_id)))
  ∧ create_assignment abody other now' new_id (Some db')
    = (Raise (HTTPException 403 "Not your course"), Some db').
Proof.
  intros Hrole Hid Hrole' Hid' Hne Hfree Hcid course db'.
  assert (oid (VStr (AssignmentCreate.course_id abody)) = Ok cid) as Hoid.
  { rewrite Hcid. unfold oid. by rewrite ObjectId_of_str_str. }
  assert (course !! "_id" = Some (VOid cid)
          ∧ course !! "teacher_id" = Some (VStr (py_str me))) as [Hcourse_id Howner].
  { subst course. unfold registered_course. split; by simplify_map_eq. }
  assert (List.find (doc_matches {[ "_id" := VOid cid ]}) (collection db' "course")
          = Some course) as Hfind.
  { subst db'. rewrite collection_stored, decide_True by done.
    by apply find_app_fresh. }
  split; [|split].
  - by rewrite (create_course_eq cbody creator now cid db "teacher" me)
      by (done || set_solver).
  - rewrite (create_assignment_eq abody creator now' new_id cid db' "teacher" course)
      by (done || set_solver).
    rewrite bool_decide_true, Hid, Howner by done. simpl.
    by rewrite bool_decide_true.
  - rewrite (create_assignment_eq abody other now' new_id cid db' "teacher" course)
      by (done || set_solver).
    rewrite bool_decide_true, Hid', Howner by done. simpl.
    rewrite bool_decide_false; [done |]. congruence.
Qed.

End Ownership.

(** ** Materials and announcements *)

Section Publishing.
Context {L : Libraries} {C : Config} {K : Cursor}.

(** X19.  [upload_material] applies the ownership rule of
    [create_assignment]: on an existing course a teacher whose printed
    id is not the course's [teacher_id] is refused with 403 "Not your
    course" and nothing is stored; the owning teacher and any admin
    store exactly one material; an id no course carries gives 404. *)
Theorem upload_material_ownership (body : MaterialCreate.t) (current : doc)
    (r : string) (i new_id : ObjectId) (now : Z) (db : Database) :
  current !! "role" = Some (VStr r) →
  r ∈ ["teacher"; "admin"] →
  oid (VStr (MaterialCreate.course_id body)) = Ok i →
  let stored_one :=
    upload_material body current now new_id (Some db)
    = (Ok (serialize_doc (registered_material body now new_id)),
       Some (stored db "material" (registered_material body now new_id))) in
  (id_free_in db "course" i →
   upload_material body current now new_id (Some db)
     = (Raise (HTTPException 404 "Course not found"), Some db))
  ∧ ∀ course,
      List.find (doc_matches {[ "_id" := VOid i ]}) (collection db "course")
        = Some course →
      (r = "admin" → stored_one)
      ∧ (∀ me, r = "teacher" → current !! "_id" = Some me →
               default VNone (course !! "teacher_id") = VStr (py_str me) →
               stored_one)
      ∧ (∀ me, r = "teacher" → current !! "_id" = Some me →
               default VNone (course !! "teacher_id") ≠ VStr (py_str me) →
               upload_material body current now new_id (Some db)
                 = (Raise (HTTPException 403 "Not your course"), Some db)).
Proof.
  intros Hrole Hr Hoid stored_one. subst stored_one.
  assert (ObjectId_of_str (MaterialCreate.course_id body) = Some i) as Hparse.
  { unfold oid in Hoid. destruct (ObjectId_of_str _); by simplify_eq. }
  assert (∀ found,
    List.find (doc_matches {[ "_id" := VOid i ]}) (collection db "course") = found →
    upload_material body current now new_id (Some db) =
    match found with
    | None => (Raise (HTTPException 404 "Course not found"), Some db)
    | Some course =>
        if bool_decide (r = "teacher") then
          match current !! "_id" with
          | None => (Raise (PyException "KeyError"), Some db)
          | Some me =>
              if bool_decide (default VNone (course !! "teacher_id") = VStr (py_str me))
              then (Ok (serialize_doc (registered_material body now new_id)),
                    Some (stored db "material" (registered_material body now new_id)))
              else (Raise (HTTPException 403 "Not your course"), Some db)
          end
        else (Ok (serialize_doc (registered_material body now new_id)),
              Some (stored db "material" (registered_material body now new_id)))
    end) as Heq.
  { intros found Hfind.
    unfold upload_material, bind, the_db, find_one, insert_one, lift, ret, raise.
    simpl. rewrite (proj2 (require_role_Ok current _)) by eauto.
    rewrite Hparse, Hfind. destruct found as [course|]; [|done].
    rewrite (found_truthy _ _ _ _ Hfind). simpl.
    unfold subscript. rewrite Hrole.
    rewrite !lookup_insert_ne by done. rewrite lookup_singleton_ne by done.
    rewrite (bool_decide_ext (VStr r = VStr "teacher") (r = "teacher"))
      by (split; congruence).
    case_bool_decide; [|done].
    destruct (current !! "_id") as [me|]; [|done]. simpl.
    by case_bool_decide. }
  split.
  - intros Hfree. apply (Heq None). by apply find_field_None.
  - intros course Hfind. rewrite (Heq _ Hfind). split; [|split].
    + intros ->. by rewrite bool_decide_false.
    + intros me -> -> Hown. by rewrite !bool_decide_true.
    + intros me -> -> Hown. rewrite bool_decide_true by done.
      by rewrite bool_decide_false.
Qed.

(** X20.  An announcement for everyone is stored for any teacher or
    admin, whatever course id it mentions and whoever owns that
    course: no course is looked up.  An announcement for a course
    needs a course id: without one, or with an empty one, the answer
    is 400 and nothing is stored. *)
Theorem create_announcement_audience (title content : string)
    (course_id : option string) (current : doc) (r : string) (author : value)
    (new_id : ObjectId) (now : Z) (db : Database) :
  current !! "role" = Some (VStr r) →
  r ∈ ["teacher"; "admin"] →
  current !! "_id" = Some author →
  let to_all := AnnouncementCreate.mk title content course_id Audience.all in
  create_announcement to_all current now new_id (Some db)
    = (Ok (serialize_doc (registered_announcement to_all author now new_id)),
       Some (stored db "announcement"
               (registered_announcement to_all author now new_id)))
  ∧ (course_id = None ∨ course_id = Some "" →
     create_announcement
       (AnnouncementCreate.mk title content course_id Audience.course)
       current now new_id (Some db)
     = (Raise (HTTPException 400 "course_id required for course audience"),
        Some db)).
Proof.
  intros Hrole Hr Hid to_all. split.
  - unfold create_announcement, bind, the_db, find_one, insert_one, lift, ret, raise.
    simpl. rewrite (proj2 (require_role_Ok current _)) by eauto.
    unfold subscript. rewrite Hid. simpl.
    rewrite !lookup_insert_ne by done. by rewrite lookup_singleton_ne by done.
  - intros Hnone.
    unfold create_announcement, bind, the_db, find_one, insert_one, lift, ret, raise.
    simpl. rewrite (proj2 (require_role_Ok current _)) by eauto.
    by destruct Hnone as [-> | ->].
Qed.

End Publishing.

(** ** Enrollment and submissions *)

Section Reading.
Context {L : Libraries} {C : Config} {K : Cursor} {KS : CursorSpec K}.

Lemma list_submissions_eq (assignment_id cid : string) (current assignment : doc)
    (r : string) (a c : ObjectId) (db : Database) :
  current !! "role" = Some (VStr r) →
  r ∈ ["teacher"; "admin"] →
  oid (VStr assignment_id) = Ok a →
  List.find (doc_matches {[ "_id" := VOid a ]}) (collection db "assignment")
    = Some assignment →
  assignment !! "course_id" = Some (VStr cid) →
  oid (VStr cid) = Ok c →
  let listing :=
    (Ok (serialize_doc <$>
           cursor_sort "created_at" (-1)
             (List.filter (doc_matches {[ "assignment_id" := VStr assignment_id ]})
                (collection db "submission"))),
     Some db) in
  list_submissions assignment_id current (Some db) =
  if bool_decide (r = "teacher") then
    match List.find (doc_matches {[ "_id" := VOid c ]}) (collection db "course") with
    | None => (Raise (PyException "AttributeError"), Some db)
    | Some course =>
        match current !! "_id" with
        | None => (Raise (PyException "KeyError"), Some db)
        | Some me =>
            if bool_decide (default VNone (course !! "teacher_id") = VStr (py_str me))
            then listing
            else (Raise (HTTPException 403 "Not your course"), Some db)
        end
    end
  else listing.
Proof.
  intros Hrole Hr Ha Hfind Hcid Hc listing. subst listing.
  assert (ObjectId_of_str assignment_id = Some a) as Hpa.
  { unfold oid in Ha. destruct (ObjectId_of_str _); by simplify_eq. }
  assert (ObjectId_of_str cid = Some c) as Hpc.
  { unfold oid in Hc. destruct (ObjectId_of_str _); by simplify_eq. }
  unfold list_submissions, bind, the_db, find_one, find_many, lift, ret, raise.
  simpl. rewrite (proj2 (require_role_Ok current _)) by eauto.
  rewrite Hpa, Hfind, (found_truthy _ _ _ _ Hfind). simpl.
  unfold subscript. rewrite Hcid. simpl. rewrite Hpc, Hrole.
  rewrite (bool_decide_ext (VStr r = VStr "teacher") (r = "teacher"))
    by (split; congruence).
  case_bool_decide; [|done].
  destruct (List.find _ (collection db "course")) as [course|]; [|done].
  destruct (current !! "_id") as [me|]; [|done].
  by case_bool_decide.
Qed.

(** X27.  [list_submissions] shows the submissions of an assignment to
    the teacher who owns the assignment's course and to any admin, and
    these are exactly the stored submissions that carry the assignment
    id; a teacher who does not own the course is refused with 403 "Not
    your course".  When the course of the assignment is no longer
    stored, an admin is still answered, while for a teacher the lookup
    of [teacher_id] on the missing course raises [AttributeError]. *)
Theorem list_submissions_ownership (assignment_id cid : string)
    (current assignment : doc) (r : string) (a c : ObjectId) (db : Database) :
  current !! "role" = Some (VStr r) →
  r ∈ ["teacher"; "admin"] →
  oid (VStr assignment_id) = Ok a →
  List.find (doc_matches {[ "_id" := VOid a ]}) (collection db "assignment")
    = Some assignment →
  assignment !! "course_id" = Some (VStr cid) →
  oid (VStr cid) = Ok c →
  let shown :=
    ∃ found, list_submissions assignment_id current (Some db)
             = (Ok (serialize_doc <$> found), Some db)
      ∧ ∀ d, d ∈ found ↔
             d ∈ collection db "submission"
             ∧ d !! "assignment_id" = Some (VStr assignment_id) in
  (r = "admin" → shown)
  ∧ (∀ course me,
       r = "teacher" →
       List.find (doc_matches {[ "_id" := VOid c ]}) (collection db "course")
         = Some course →
       current !! "_id" = Some me →
       (default VNone (course !! "teacher_id") = VStr (py_str me) → shown)
       ∧ (default VNone (course !! "teacher_id") ≠ VStr (py_str me) →
          list_submissions assignment_id current (Some db)
            = (Raise (HTTPException 403 "Not your course"), Some db)))
  ∧ (r = "teacher" → id_free_in db "course" c →
     list_submissions assignment_id current (Some db)
       = (Raise (PyException "AttributeError"), Some db)).
Proof.
  intros Hrole Hr Ha Hfind Hcid Hc shown.
  pose proof (list_submissions_eq assignment_id cid current assignment r a c db
                Hrole Hr Ha Hfind Hcid Hc) as Heq.
  cbv zeta in Heq.
  assert (∀ found,
    found = cursor_sort "created_at" (-1)
              (List.filter (doc_matches {[ "assignment_id" := VStr assignment_id ]})
                 (collection db "submission")) →
    ∀ d, d ∈ found ↔
         d ∈ collection db "submission"
         ∧ d !! "assignment_id" = Some (VStr assignment_id)) as Hshown.
  { intros found -> d.
    rewrite cursor_sort_perm, list_elem_of_In, List.filter_In, <- list_elem_of_In.
    by rewrite doc_matches_field. }
  subst shown. split; [|split].
  - intros ->. rewrite bool_decide_false in Heq by done.
    eexists. split; [exact Heq |]. by apply Hshown.
  - intros course me -> Hcourse Hme.
    rewrite bool_decide_true, Hcourse, Hme in Heq by done. split; intros Hown.
    + rewrite bool_decide_true in Heq by done.
      eexists. split; [exact Heq |]. by apply Hshown.
    + by rewrite bool_decide_false in Heq.
  - intros -> Hfree. rewrite bool_decide_true in Heq by done.
    by rewrite (proj2 (find_field_None _ _ _) Hfree) in Heq.
Qed.

End Reading.

Section Students.
Context {L : Libraries} {C : Config} {K : Cursor}.

Lemma require_student (current : doc) :
  current !! "role" = Some (VStr "student") → require_role current ["student"] = Ok tt.
Proof. intros Hrole. apply require_role_Ok. exists "student". split; [done | left]. Qed.

Lemma require_student_denied (current : doc) :
  current !! "role" ≠ Some (VStr "student") →
  require_role current ["student"] = Raise (HTTPException 403 "Forbidden").
Proof.
  intros Hrole. apply require_role_Forbidden. intros (r & Hr & Hin).
  apply list_elem_of_singleton in Hin as ->. done.
Qed.

(** [enroll_course] for a student on an existing course. *)
Lemma enroll_course_eq (body : EnrollRequest.t) (current course : doc) (me : value)
    (i new_id : ObjectId) (now : Z) (db : Database) :
  current !! "role" = Some (VStr "student") →
  current !! "_id" = Some me →
  oid (VStr (EnrollRequest.course_id body)) = Ok i →
  List.find (doc_matches {[ "_id" := VOid i ]}) (collection db "course") = Some course →
  enroll_course body current now new_id (Some db) =
  let d := registered_enrollment (EnrollRequest.course_id body) me now new_id in
  match List.find (doc_matches (enrollment_filter (EnrollRequest.course_id body) me))
          (collection db "enrollment") with
  | Some e =>
      if bool_decide (e !! "status" = Some (VStr "enrolled"))
      then (Ok (serialize_doc e), Some db)
      else (Ok (serialize_doc d), Some (stored db "enrollment" d))
  | None => (Ok (serialize_doc d), Some (stored db "enrollment" d))
  end.
Proof.
  intros Hrole Hid Hoid Hfind.
  assert (ObjectId_of_str (EnrollRequest.course_id body) = Some i) as Hparse.
  { unfold oid in Hoid. destruct (ObjectId_of_str _); by simplify_eq. }
  unfold enroll_course, bind, the_db, find_one, insert_one, lift, ret, raise.
  simpl. rewrite (require_student current Hrole).
  rewrite Hparse, Hfind. rewrite (found_truthy _ _ _ _ Hfind). simpl.
  unfold subscript. rewrite Hid.
  fold (enrollment_filter (EnrollRequest.course_id body) me).
  rewrite !lookup_insert_ne by done. rewrite lookup_singleton_ne by done.
  destruct (List.find _ (collection db "enrollment")) as [e|] eqn:He; [|done].
  assert (e ≠ ∅) as Hne.
  { intros ->. apply List.find_some in He as [_ He].
    unfold doc_matches, enrollment_filter in He. apply bool_decide_eq_true in He.
    specialize (He "course_id" (VStr (EnrollRequest.course_id body))).
    rewrite lookup_insert_eq, lookup_empty in He. by specialize (He eq_refl). }
  simpl. rewrite (bool_decide_false (e = ∅)) by done. simpl.
  rewrite (bool_decide_ext (default VNone (e !! "status") = VStr "enrolled")
             (e !! "status" = Some (VStr "enrolled"))).
  2:{ destruct (e !! "status"); simpl; split; congruence. }
  by case_bool_decide.
Qed.

End Students.

Section Enrollment.
Context {L : Libraries} {C : Config} {K : Cursor}.

Lemma find_app_last (q d : doc) (l : list doc) :
  List.find (doc_matches q) l = None → doc_matches q d = true →
  List.find (doc_matches q) (l ++ [d]) = Some d.
Proof.
  intros Hnone Hd. induction l as [|x l IH]; simpl in *.
  - by rewrite Hd.
  - destruct (doc_matches q x); [done |]. by apply IH.
Qed.

(** X21.  Enrolling is idempotent: when a student without an enrollment
    in a course enrolls, one enrollment is stored, and a second request
    answers with that same enrollment and stores nothing. *)
Theorem enroll_course_twice (body : EnrollRequest.t) (current course : doc)
    (me : value) (i new_id new_id' : ObjectId) (now now' : Z) (db : Database) :
  current !! "role" = Some (VStr "student") →
  current !! "_id" = Some me →
  oid (VStr (EnrollRequest.course_id body)) = Ok i →
  List.find (doc_matches {[ "_id" := VOid i ]}) (collection db "course") = Some course →
  List.find (doc_matches (enrollment_filter (EnrollRequest.course_id body) me))
    (collection db "enrollment") = None →
  let d := registered_enrollment (EnrollRequest.course_id body) me now new_id in
  let db' := stored db "enrollment" d in
  enroll_course body current now new_id (Some db) = (Ok (serialize_doc d), Some db')
  ∧ enroll_course body current now' new_id' (Some db')
    = (Ok (serialize_doc d), Some db').
Proof.
  intros Hrole Hid Hoid Hcourse Hnone d db'.
  split.
  - rewrite (enroll_course_eq body current course me i new_id now db) by done.
    cbv zeta. by rewrite Hnone.
  - rewrite (enroll_course_eq body current course me i new_id' now' db'); try done.
    + cbv zeta. subst db'. rewrite collection_stored, decide_True by done.
      rewrite (find_app_last _ d _ Hnone).
      * rewrite bool_decide_true; [done |].
        subst d. unfold registered_enrollment. by simplify_map_eq.
      * unfold doc_matches, enrollment_filter. apply bool_decide_eq_true.
        intros k v. rewrite lookup_insert_Some, lookup_singleton_Some.
        subst d. unfold registered_enrollment.
        intros [[<- <-]|[_ [<- <-]]]; by simplify_map_eq.
    + subst db'. by rewrite collection_stored, decide_False.
Qed.

(** X22.  [enroll_course] is for students and existing courses: any
    other role gets 403 "Forbidden", a malformed course id 400 and an
    id no course carries 404 "Course not found"; in each case nothing
    is stored. *)
Theorem enroll_course_refusals (body : EnrollRequest.t) (current : doc)
    (now : Z) (new_id : ObjectId) (db : Database) :
  (current !! "role" ≠ Some (VStr "student") →
   enroll_course body current now new_id (Some db)
     = (Raise (HTTPException 403 "Forbidden"), Some db))
  ∧ (current !! "role" = Some (VStr "student") →
     String.length (EnrollRequest.course_id body) ≠ 24%nat →
     enroll_course body current now new_id (Some db)
       = (Raise (HTTPException 400 "Invalid id format"), Some db))
  ∧ (∀ i, current !! "role" = Some (VStr "student") →
          oid (VStr (EnrollRequest.course_id body)) = Ok i →
          id_free_in db "course" i →
          enroll_course body current now new_id (Some db)
            = (Raise (HTTPException 404 "Course not found"), Some db)).
Proof.
  split; [|split].
  - intros Hrole.
    unfold enroll_course, bind, the_db, lift, ret, raise. cbn [is_none].
    by rewrite (require_student_denied current Hrole).
  - intros Hrole Hlen.
    unfold enroll_course, bind, the_db, lift, ret, raise. cbn [is_none].
    rewrite (require_student current Hrole).
    assert (oid (VStr (EnrollRequest.course_id body))
            = Raise (HTTPException 400 "Invalid id format")) as ->; [|done].
    unfold oid, ObjectId_of_str.
    destruct (bytes_fromhex _) as [bs|] eqn:Hbs; [|done].
    apply bytes_fromhex_length in Hbs.
    destruct bs as [|? [|? [|? [|? [|? [|? [|? [|? [|? [|? [|? [|? [|? ?]]]]]]]]]]]]];
      try done.
  - intros i Hrole Hoid Hfree.
    unfold enroll_course, bind, the_db, find_one, lift, ret, raise. cbn [is_none].
    rewrite (require_student current Hrole), Hoid.
    by rewrite (proj2 (find_field_None "_id" (VOid i) _) Hfree).
Qed.

Lemma submission_fields_other (body : SubmissionCreate.t) (me : value) (now : Z)
    (k : string) :
  k ∉ ["assignment_id"; "student_id"; "content"; "file_url"; "created_at"; "updated_at"] →
  submission_fields body me now !! k = None.
Proof.
  rewrite !not_elem_of_cons. intros (? & ? & ? & ? & ? & ? & _).
  unfold submission_fields. by simplify_map_eq.
Qed.

(** [submit_assignment] for a student on an existing assignment. *)
Lemma submit_assignment_eq (body : SubmissionCreate.t) (current assignment : doc)
    (me course_id : value) (i new_id : ObjectId) (now : Z) (db : Database) :
  current !! "role" = Some (VStr "student") →
  current !! "_id" = Some me →
  oid (VStr (SubmissionCreate.assignment_id body)) = Ok i →
  List.find (doc_matches {[ "_id" := VOid i ]}) (collection db "assignment")
    = Some assignment →
  assignment !! "course_id" = Some course_id →
  submit_assignment body current now new_id (Some db) =
  let fields := submission_fields body me now in
  match List.find (doc_matches (enrolled_filter course_id me))
          (collection db "enrollment") with
  | None => (Raise (HTTPException 403 "Not enrolled in course"), Some db)
  | Some _ =>
      match List.find
              (doc_matches (submission_filter (SubmissionCreate.assignment_id body) me))
              (collection db "submission") with
      | None =>
          (Ok (Some (serialize_doc (<["_id" := VOid new_id]> fields))),
           Some (stored db "submission" (<["_id" := VOid new_id]> fields)))
      | Some existing =>
          match existing !! "_id" with
          | None => (Raise (PyException "KeyError"), Some db)
          | Some e =>
              match List.find (doc_matches {[ "_id" := e ]})
                      (collection db "submission") with
              | Some first =>
                  (Ok (Some (serialize_doc (fields ∪ first))),
                   Some (updated db "submission" {[ "_id" := e ]} fields))
              | None => (Ok None, Some db)
              end
          end
      end
  end.
Proof.
  intros Hrole Hid Hoid Hfind Hcourse.
  assert (ObjectId_of_str (SubmissionCreate.assignment_id body) = Some i) as Hparse.
  { unfold oid in Hoid. destruct (ObjectId_of_str _); by simplify_eq. }
  unfold submit_assignment, bind, the_db, find_one, insert_one, lift, ret, raise.
  simpl. rewrite (require_student current Hrole).
  rewrite Hparse, Hfind. rewrite (found_truthy _ _ _ _ Hfind). simpl.
  unfold subscript. rewrite Hcourse, Hid.
  fold (enrolled_filter course_id me).
  fold (submission_filter (SubmissionCreate.assignment_id body) me).
  fold (submission_fields body me now).
  destruct (List.find _ (collection db "enrollment")) as [enr|] eqn:Henr; [|done].
  assert (enr ≠ ∅) as Hne.
  { intros ->. apply List.find_some in Henr as [_ He].
    unfold doc_matches, enrolled_filter in He. apply bool_decide_eq_true in He.
    specialize (He "course_id" course_id).
    rewrite lookup_insert_eq, lookup_empty in He. by specialize (He eq_refl). }
  simpl. rewrite (bool_decide_false (enr = ∅)) by done. simpl.
  destruct (List.find _ (collection db "submission")) as [existing|] eqn:Hex.
  - assert (existing ≠ ∅) as Hne'.
    { intros ->. apply List.find_some in Hex as [_ He].
      unfold doc_matches, submission_filter in He. apply bool_decide_eq_true in He.
      specialize (He "assignment_id" (VStr (SubmissionCreate.assignment_id body))).
      rewrite lookup_insert_eq, lookup_empty in He. by specialize (He eq_refl). }
    simpl. rewrite (bool_decide_false (existing = ∅)) by done. simpl.
    destruct (existing !! "_id") as [e|]; [|done].
    rewrite existsb_find.
    fold (updated db "submission" {[ "_id" := e ]} (submission_fields body me now)).
    destruct (List.find (doc_matches {[ "_id" := e ]}) (collection db "submission"))
      as [first|] eqn:Hfirst.
    + rewrite collection_updated, decide_True by done.
      rewrite (find_update_first "_id" e _ _ first) by
        (done || (apply submission_fields_other; compute_done)).
      done.
    + by rewrite Hfirst.
  - simpl. rewrite submission_fields_other by compute_done. done.
Qed.

End Enrollment.

Section Submissions.
Context {L : Libraries} {C : Config} {K : Cursor}.

(** X23.  A student can submit to an assignment only while enrolled in
    its course: without an enrollment the answer is 403 "Not enrolled in
    course" and nothing is stored; after [enroll_course] on that course
    the same submission is stored. *)
Theorem submit_needs_enrollment (ebody : EnrollRequest.t) (body : SubmissionCreate.t)
    (current course assignment : doc) (me : value)
    (c a enrollment_id new_id : ObjectId) (now now' : Z) (db : Database) :
  current !! "role" = Some (VStr "student") →
  current !! "_id" = Some me →
  oid (VStr (EnrollRequest.course_id ebody)) = Ok c →
  List.find (doc_matches {[ "_id" := VOid c ]}) (collection db "course") = Some course →
  oid (VStr (SubmissionCreate.assignment_id body)) = Ok a →
  List.find (doc_matches {[ "_id" := VOid a ]}) (collection db "assignment")
    = Some assignment →
  assignment !! "course_id" = Some (VStr (EnrollRequest.course_id ebody)) →
  List.find (doc_matches (enrollment_filter (EnrollRequest.course_id ebody) me))
    (collection db "enrollment") = None →
  List.find (doc_matches (submission_filter (SubmissionCreate.assignment_id body) me))
    (collection db "submission") = None →
  let enrollment :=
    registered_enrollment (EnrollRequest.course_id ebody) me now enrollment_id in
  let db' := stored db "enrollment" enrollment in
  let submission := <["_id" := VOid new_id]> (submission_fields body me now') in
  submit_assignment body current now' new_id (Some db)
    = (Raise (HTTPException 403 "Not enrolled in course"), Some db)
  ∧ snd (enroll_course ebody current now enrollment_id (Some db)) = Some db'
  ∧ submit_assignment body current now' new_id (Some db')
    = (Ok (Some (serialize_doc submission)), Some (stored db' "submission" submission)).
Proof.
  intros Hrole Hid Hc Hcourse Ha Hassignment Hcid Hnone Hnosub enrollment db' submission.
  assert (List.find
            (doc_matches (enrolled_filter (VStr (EnrollRequest.course_id ebody)) me))
            (collection db "enrollment") = None) as Hnot.
  { destruct (List.find (doc_matches (enrolled_filter _ _)) _) as [e|] eqn:He;
      [|done].
    apply List.find_some in He as [Hin He].
    pose proof (List.find_none _ _ Hnone e Hin) as Hno.
    unfold doc_matches in *. apply bool_decide_eq_true in He.
    apply bool_decide_eq_false in Hno. destruct Hno.
    intros k v. unfold enrollment_filter, enrolled_filter in *.
    rewrite lookup_insert_Some, lookup_singleton_Some.
    intros [[<- <-]|[_ [<- <-]]]; apply He; by simplify_map_eq. }
  split; [|split].
  - rewrite (submit_assignment_eq body current assignment me _ a new_id now' db)
      by done.
    cbv zeta. by rewrite Hnot.
  - rewrite (enroll_course_eq ebody current course me c enrollment_id now db) by done.
    cbv zeta. by rewrite Hnone.
  - rewrite (submit_assignment_eq body current assignment me
               (VStr (EnrollRequest.course_id ebody)) a new_id now' db'); try done.
    + cbv zeta. subst db'. rewrite collection_stored, decide_True by done.
      rewrite (find_app_last _ enrollment _ Hnot).
      * rewrite collection_stored, decide_False by done. by rewrite Hnosub.
      * unfold doc_matches, enrolled_filter. apply bool_decide_eq_true.
        intros k v. rewrite !lookup_insert_Some, lookup_singleton_Some.
        subst enrollment. unfold registered_enrollment.
        intros [[<- <-]|[_ [[<- <-]|[_ [<- <-]]]]]; by simplify_map_eq.
    + subst db'. by rewrite collection_stored, decide_False.
Qed.

(** X24.  Submitting again replaces the earlier submission in place:
    the number of submissions stays the same, the six written fields
    take the new values, and every other field of the stored
    submission, a grade and its feedback for instance, is kept. *)
Theorem resubmission_in_place (body : SubmissionCreate.t)
    (current assignment enrollment existing : doc) (me course_id e : value)
    (a new_id : ObjectId) (now : Z) (db : Database) :
  current !! "role" = Some (VStr "student") →
  current !! "_id" = Some me →
  oid (VStr (SubmissionCreate.assignment_id body)) = Ok a →
  List.find (doc_matches {[ "_id" := VOid a ]}) (collection db "assignment")
    = Some assignment →
  assignment !! "course_id" = Some course_id →
  List.find (doc_matches (enrolled_filter course_id me)) (collection db "enrollment")
    = Some enrollment →
  List.find (doc_matches (submission_filter (SubmissionCreate.assignment_id body) me))
    (collection db "submission") = Some existing →
  existing !! "_id" = Some e →
  List.find (doc_matches {[ "_id" := e ]}) (collection db "submission")
    = Some existing →
  let fields := submission_fields body me now in
  let db' := updated db "submission" {[ "_id" := e ]} fields in
  submit_assignment body current now new_id (Some db)
    = (Ok (Some (serialize_doc (fields ∪ existing))), Some db')
  ∧ length (collection db' "submission") = length (collection db "submission")
  ∧ List.find (doc_matches {[ "_id" := e ]}) (collection db' "submission")
    = Some (fields ∪ existing)
  ∧ (∀ k v, fields !! k = Some v → (fields ∪ existing) !! k = Some v)
  ∧ (∀ k, k ∉ ["assignment_id"; "student_id"; "content"; "file_url";
                "created_at"; "updated_at"] →
          (fields ∪ existing) !! k = existing !! k).
Proof.
  intros Hrole Hid Ha Hassignment Hcid Henr Hex He Hfirst fields db'.
  split; [|split; [|split; [|split]]].
  - rewrite (submit_assignment_eq body current assignment me course_id a new_id now db)
      by done.
    cbv zeta. by rewrite Henr, Hex, He, Hfirst.
  - subst db'. rewrite collection_updated, decide_True by done.
    apply update_first_length.
  - subst db'. rewrite collection_updated, decide_True by done.
    apply find_update_first; [|done].
    apply submission_fields_other. compute_done.
  - intros k v Hk. by apply lookup_union_Some_l.
  - intros k Hk. apply union_lookup_other. by apply submission_fields_other.
Qed.

End Submissions.

(** ** Seeding the administrator *)

Section Seeding.
Context {L : Libraries} {C : Config} {K : Cursor} {LS : LibrariesSpec L}.

(** [seed_admin], by cases. *)
Lemma seed_admin_eq (admin_email admin_pass : string) (now : Z) (salt : string)
    (new_id : ObjectId) (s : option Database) :
  seed_admin admin_email admin_pass now salt new_id s =
  (Ok tt,
   match s with
   | None => None
   | Some db =>
       match List.find (doc_matches {[ "email" := VStr admin_email ]})
               (collection db "user") with
       | Some _ => Some db
       | None =>
           match bcrypt_hash admin_pass salt with
           | Ok h => Some (stored db "user" (seeded_admin admin_email h now new_id))
           | Raise _ => Some db
           end
       end
   end).
Proof.
  destruct s as [db|]; [|done].
  unfold seed_admin, try_except, bind, the_db, find_one, insert_one, lift, ret, raise.
  simpl.
  destruct (List.find _ _) as [u|] eqn:Hfind.
  - apply found_truthy in Hfind. by rewrite Hfind.
  - simpl. destruct (bcrypt_hash admin_pass salt) as [h|e]; [|done].
    rewrite !lookup_insert_ne by done. by rewrite lookup_singleton_ne by done.
Qed.

(** X25.  [seed_admin] never raises.  Without a database it does
    nothing; with an account already under the admin email it writes
    nothing; otherwise it stores one approved admin account under the
    hash the hasher returns, and writes nothing when the hasher refuses
    the configured password.  Seeding a second time, with whatever
    clock, salt and id, changes nothing. *)
Theorem seed_admin_idempotent (admin_email admin_pass : string)
    (now now' : Z) (salt salt' : string) (new_id new_id' : ObjectId)
    (s : option Database) :
  let seeded := seed_admin admin_email admin_pass now salt new_id s in
  fst seeded = Ok tt
  ∧ (s = None → snd seeded = None)
  ∧ (∀ db, s = Some db → ¬ email_free db admin_email → snd seeded = Some db)
  ∧ (∀ db h, s = Some db → email_free db admin_email →
             bcrypt_hash admin_pass salt = Ok h →
             snd seeded
             = Some (stored db "user" (seeded_admin admin_email h now new_id)))
  ∧ (∀ db e, s = Some db → bcrypt_hash admin_pass salt = Raise e →
             snd seeded = Some db)
  ∧ seed_admin admin_email admin_pass now' salt' new_id' (snd seeded)
    = (Ok tt, snd seeded).
Proof.
  intros seeded. subst seeded. rewrite !seed_admin_eq. simpl.
  split; [done |]. split; [by intros -> |]. split; [|split; [|split]].
  - intros db -> Htaken. destruct (List.find _ _) eqn:Hfind; [done |].
    destruct Htaken. unfold email_free. by apply find_field_None.
  - intros db h -> Hfree Hhash.
    by rewrite (proj2 (find_field_None "email" _ _) Hfree), Hhash.
  - intros db e -> Hhash. destruct (List.find _ _); [done |]. by rewrite Hhash.
  - destruct s as [db|]; [|done].
    destruct (List.find _ (collection db "user")) as [u|] eqn:Hfind.
    + by rewrite Hfind.
    + destruct (bcrypt_hash admin_pass salt) as [h|e] eqn:Hhash.
      * rewrite collection_stored, decide_True by done.
        rewrite (find_app_fresh "email" (VStr admin_email) _
                   (seeded_admin admin_email h now new_id)); [done | |].
        -- by apply find_field_None.
        -- unfold seeded_admin. by simplify_map_eq.
      * by rewrite Hfind, (bcrypt_hash_refusal _ _ salt' _ Hhash).
Qed.

End Seeding.

Section SeededLogin.
Context {L : Libraries} {C : Config} {K : Cursor} {LS : LibrariesSpec L}.

(** X26.  On a store without an account under the admin email, the
    seeded administrator (the hasher having taken the configured
    password and returned [h]) can log in with that password and
    receives a token for the seeded id. *)
Theorem seed_admin_then_login (admin_email admin_pass : string)
    (now now' : Z) (salt h : string) (new_id : ObjectId) (db : Database) :
  email_free db admin_email →
  bcrypt_hash admin_pass salt = Ok h →
  let account := seeded_admin admin_email h now new_id in
  let s1 := Some (stored db "user" account) in
  seed_admin admin_email admin_pass now salt new_id (Some db) = (Ok tt, s1)
  ∧ login (LoginRequest.mk admin_email admin_pass) now' s1
    = (Ok (TokenResponse.mk (issued_token account (VOid new_id) now') "bearer"), s1).
Proof.
  intros Hfree Hhash account s1. split.
  - rewrite seed_admin_eq.
    by rewrite (proj2 (find_field_None "email" _ _) Hfree), Hhash.
  - subst s1. rewrite login_eq. simpl.
    rewrite collection_stored, decide_True by done.
    rewrite (find_app_fresh "email" _ _ account Hfree)
      by (subst account; unfold seeded_admin; by simplify_map_eq).
    assert (stored_hash account = VStr h) as ->.
    { subst account. unfold stored_hash, seeded_admin. by simplify_map_eq. }
    rewrite (bcrypt_verify_hash _ _ _ Hhash).
    assert (pending account = false) as ->.
    { subst account. unfold pending, seeded_admin. by simplify_map_eq. }
    rewrite (create_token_eq account (VOid new_id) now'); [done |].
    subst account. unfold seeded_admin. by simplify_map_eq.
Qed.

End SeededLogin.

(** ** The reference sort meets its contract *)

Module ReferenceCursorFacts.
Import ReferenceCursor.

Lemma insert_by_perm (before : doc → doc → bool) (x : doc) (l : list doc) :
  insert_by before x l ≡ₚ x :: l.
Proof.
  induction l as [|y l IH]; simpl; [done |].
  destruct (before x y); [done |]. by rewrite IH, Permutation_swap.
Qed.

Lemma cursor_spec : CursorSpec cursor.
Proof.
  split. intros key direction l. simpl. unfold sort.
  induction l as [|x l IH]; simpl; [done |]. by rewrite insert_by_perm, IH.
Qed.

End ReferenceCursorFacts.

(** Freedom of an id in a collection, decided by a scan. *)
Lemma id_free_in_check (db : Database) (c : string) (i : ObjectId) :
  forallb (λ d, negb (bool_decide (d !! "_id" = Some (VOid i)))) (collection db c)
    = true →
  id_free_in db c i.
Proof.
  intros Hall d Hin. apply list_elem_of_In in Hin.
  pose proof (proj1 (List.forallb_forall _ _) Hall d Hin) as Hd.
  apply negb_true_iff in Hd. by apply bool_decide_eq_false in Hd.
Qed.

(** A field name outside a list of names, decided by a scan. *)
Lemma not_elem_of_check (k : string) (l : list string) :
  forallb (λ x, negb (String.eqb k x)) l = true → k ∉ l.
Proof.
  intros Hall Hin. apply list_elem_of_In in Hin.
  pose proof (proj1 (List.forallb_forall _ _) Hall k Hin) as Hk.
  cbv beta in Hk. by rewrite String.eqb_refl in Hk.
Qed.

(** ** The handlers on the sample data *)

Import Sample.

#[local] Existing Instance Reference.libraries.
#[local] Existing Instance default_config.
#[local] Existing Instance ReferenceFacts.libraries_spec.

(** Ann's token, issued at 1000, still verifies at 2000. *)
Lemma issue_verify_roundtrip_witness :
  ∃ tok account,
    create_token ann 1000 = Ok tok
    ∧ get_current_user (Some ("Bearer " +:+ tok)) 2000 (Some db) = (Ok account, Some db)
    ∧ account ∈ collection db "user"
    ∧ account !! "_id" = Some (VOid ann_id).
Proof.
  apply (issue_verify_roundtrip ann_id teacher ann db 1000 2000).
  - reflexivity.
  - reflexivity.
  - exists ann. split; [left | reflexivity].
  - reflexivity.
Defined.

(** The same token at 5000, past its expiry 1000 + 3600. *)
Lemma expired_token_rejected_witness :
  ∃ tok,
    create_token ann 1000 = Ok tok
    ∧ get_current_user (Some ("Bearer " +:+ tok)) 5000 None
      = (Raise (HTTPException 401 "Token expired"), None).
Proof.
  apply (expired_token_rejected ann (VOid ann_id) 1000 5000 None).
  - reflexivity.
  - reflexivity.
  - reflexivity.
Defined.

(** C10, refuted as stated: a Basic header is a present header whose
    scheme is not bearer, and it fails as an invalid token, not as a
    missing credential. *)
Lemma basic_scheme_is_invalid_token :
  get_current_user (Some "Basic dXNlcjpwdw==") 2000 (Some db)
    = (Raise (HTTPException 401 "Invalid token"), Some db)
  ∧ get_current_user (Some "Basic dXNlcjpwdw==") 2000 (Some db)
    ≠ (Raise (HTTPException 401 "Missing Authorization header"), Some db).
Proof.
  assert (get_current_user (Some "Basic dXNlcjpwdw==") 2000 (Some db)
          = (Raise (HTTPException 401 "Invalid token"), Some db)) as H.
  { reflexivity. }
  split; [exact H |]. rewrite H. discriminate.
Qed.

Lemma header_failures_witness :
  get_current_user None 2000 (Some db)
    = (Raise (HTTPException 401 "Missing Authorization header"), Some db)
  ∧ get_current_user (Some "Basic dXNlcjpwdw==") 2000 (Some db)
    = (Raise (HTTPException 401 "Invalid token"), Some db).
Proof.
  destruct (header_failures 2000 (Some db)) as (Hnone & _ & Hform).
  split; [exact Hnone |].
  apply Hform.
  - discriminate.
  - vm_compute. intros scheme token Heq Hlower.
    injection Heq as <- <-. discriminate Hlower.
Defined.

(** Bob, an approved student, logs in; Ann, an unapproved teacher, is
    refused. *)
Lemma login_verified_witness :
  login (LoginRequest.mk "ann@school.example" "correct horse") 2000 (Some db)
    = (Raise (HTTPException 403 "Account pending approval"), Some db)
  ∧ login (LoginRequest.mk "bob@school.example" "battery staple") 2000 (Some db)
    = (Ok (TokenResponse.mk (issued_token bob (VOid bob_id) 2000) "bearer"), Some db).
Proof.
  split.
  - apply (login_verified (LoginRequest.mk "ann@school.example" "correct horse")
             2000 db ann (VOid ann_id)).
    + reflexivity.
    + reflexivity.
    + reflexivity.
    + split; [discriminate | reflexivity].
  - apply (login_verified (LoginRequest.mk "bob@school.example" "battery staple")
             2000 db bob (VOid bob_id)).
    + reflexivity.
    + reflexivity.
    + reflexivity.
    + right. reflexivity.
Defined.

Lemma login_failures_indistinguishable_witness :
  login (LoginRequest.mk "nobody@school.example" "guess") 2000 (Some db)
    = (Raise (HTTPException 401 "Invalid credentials"), Some db)
  ∧ login (LoginRequest.mk "bob@school.example" "guess") 2000 (Some db)
    = login (LoginRequest.mk "nobody@school.example" "guess") 2000 (Some db).
Proof.
  apply (login_failures_indistinguishable "guess" "nobody@school.example"
           "bob@school.example" 2000 db bob).
  - apply email_free_check. reflexivity.
  - reflexivity.
  - reflexivity.
Defined.

(** C4, at the failing input: with a hasher that refuses a password
    holding a NUL byte, as passlib's bcrypt does, the login with such a
    password ends in the hasher's exception for Bob's stored email, and
    in 401 "Invalid credentials" for an email no account carries: the
    two failures differ, and tell the caller which emails are stored. *)
Lemma login_nul_password_tells_stored_email :
  login (LoginRequest.mk "bob@school.example" nul_password) 2000 (Some db)
    = (Raise (PyException "PasswordValueError"), Some db)
  ∧ login (LoginRequest.mk "nobody@school.example" nul_password) 2000 (Some db)
    = (Raise (HTTPException 401 "Invalid credentials"), Some db)
  ∧ login (LoginRequest.mk "bob@school.example" nul_password) 2000 (Some db)
    ≠ login (LoginRequest.mk "nobody@school.example" nul_password) 2000 (Some db).
Proof.
  destruct (login_verifier_raises_known_only nul_password "nobody@school.example"
              "bob@school.example" 2000 db bob (PyException "PasswordValueError"))
    as [Hunknown Hknown].
  - apply email_free_check. reflexivity.
  - reflexivity.
  - reflexivity.
  - split; [exact Hknown |]. split; [exact Hunknown |].
    rewrite Hknown, Hunknown. discriminate.
Qed.

(** C9, at the failing input: with a verifier that raises on a string
    that is not a bcrypt hash, as passlib's does, login on an account
    with a malformed hash, or with none (the empty string [login] puts
    in its place), ends in that exception and not in 401. *)
Lemma login_malformed_hash_raises :
  login (LoginRequest.mk "dan@school.example" "guess") 2000 (Some db_malformed)
    = (Raise (PyException "ValueError"), Some db_malformed)
  ∧ login (LoginRequest.mk "eve@school.example" "guess") 2000 (Some db_malformed)
    = (Raise (PyException "ValueError"), Some db_malformed).
Proof. split; reflexivity. Qed.

Lemma login_verifier_outcome_witness :
  login (LoginRequest.mk "bob@school.example" "guess") 2000 (Some db)
    = (Raise (HTTPException 401 "Invalid credentials"), Some db)
  ∧ login (LoginRequest.mk "dan@school.example" "guess") 2000 (Some db_malformed)
    = (Raise (PyException "ValueError"), Some db_malformed)
  ∧ stored_hash eve = VStr "".
Proof.
  split; [|split].
  - refine (proj1 (proj2 (login_verifier_outcome
             (LoginRequest.mk "bob@school.example" "guess") 2000 db bob _)) _).
    + reflexivity.
    + reflexivity.
  - refine (proj2 (proj2 (login_verifier_outcome
             (LoginRequest.mk "dan@school.example" "guess") 2000 db_malformed dan _))
             (PyException "ValueError") _).
    + reflexivity.
    + reflexivity.
  - refine (proj1 (login_verifier_outcome
             (LoginRequest.mk "eve@school.example" "guess") 2000 db_malformed eve _) _).
    + reflexivity.
    + reflexivity.
Defined.

(** C3, refuted as stated: a student registration with Bob's email
    inserts nothing and returns no token, and an admin registration
    when no database is configured fails with 500, not with 400. *)
Lemma register_student_taken_email :
  register (bob_again student) 2000 "salt-d" cat_id (Some db)
    = (Raise (HTTPException 400 "Email already registered"), Some db)
  ∧ register (cat_request admin) 2000 "salt-d" cat_id None
    = (Raise (HTTPException 500 "Database unavailable"), None).
Proof. split; reflexivity. Qed.

(** A registration whose password holds a NUL byte: the hasher's
    exception leaves [register], nothing is stored and no token is
    returned. *)
Lemma register_nul_password_raises :
  register (cat_nul_request student) 2000 "salt-d" cat_id (Some db)
    = (Raise (PyException "PasswordValueError"), Some db).
Proof.
  apply register_hash_raises.
  - discriminate.
  - apply email_free_check. reflexivity.
  - reflexivity.
Qed.

Lemma register_by_role_witness :
  register (cat_request admin) 2000 "salt-d" cat_id (Some db)
    = (Raise (HTTPException 400 "Cannot self-register as admin"), Some db)
  ∧ (register (cat_request student) 2000 "salt-d" cat_id (Some db)
     = (Ok (TokenResponse.mk
              (issued_token (registered_doc (cat_request student) 2000 cat_hash cat_id)
                 (VOid cat_id) 2000) "bearer"),
        Some (stored db "user" (registered_doc (cat_request student) 2000 cat_hash cat_id)))
     ∧ registered_doc (cat_request student) 2000 cat_hash cat_id !! "approved"
       = Some (VBool true))
  ∧ (register (cat_request teacher) 2000 "salt-d" cat_id (Some db)
     = (Ok (TokenResponse.mk
              (issued_token (registered_doc (cat_request teacher) 2000 cat_hash cat_id)
                 (VOid cat_id) 2000) "bearer"),
        Some (stored db "user" (registered_doc (cat_request teacher) 2000 cat_hash cat_id)))
     ∧ registered_doc (cat_request teacher) 2000 cat_hash cat_id !! "approved"
       = Some (VBool false)).
Proof.
  assert (email_free db "cat@school.example") as Hfree.
  { apply email_free_check. reflexivity. }
  assert (bcrypt_hash "tr0ub4dor" "salt-d" = Ok cat_hash) as Hhash.
  { reflexivity. }
  split; [|split].
  - exact (proj1 (register_by_role (cat_request admin) 2000 "salt-d" cat_hash cat_id db)
             eq_refl).
  - destruct (proj1 (proj2 (register_by_role (cat_request student) 2000 "salt-d"
                              cat_hash cat_id db)) eq_refl Hfree Hhash)
      as (Hrun & Happroved & _).
    split; [exact Hrun | exact Happroved].
  - destruct (proj2 (proj2 (register_by_role (cat_request teacher) 2000 "salt-d"
                              cat_hash cat_id db)) eq_refl Hfree Hhash)
      as (Hrun & Happroved & _).
    split; [exact Hrun | exact Happroved].
Defined.

(** C6, refuted as stated: with role admin a registration under Bob's
    email is turned away by the admin rule, not as a duplicate. *)
Lemma register_admin_taken_email :
  register (bob_again admin) 2000 "salt-d" cat_id (Some db)
    = (Raise (HTTPException 400 "Cannot self-register as admin"), Some db)
  ∧ register (bob_again admin) 2000 "salt-d" cat_id (Some db)
    ≠ (Raise (HTTPException 400 "Email already registered"), Some db).
Proof.
  assert (register (bob_again admin) 2000 "salt-d" cat_id (Some db)
          = (Raise (HTTPException 400 "Cannot self-register as admin"), Some db)) as H.
  { reflexivity. }
  split; [exact H |]. rewrite H. discriminate.
Qed.

Lemma register_conflict_witness :
  register (bob_again teacher) 2000 "salt-d" cat_id (Some db)
    = (Raise (HTTPException 400 "Email already registered"), Some db).
Proof.
  apply (register_conflict (bob_again teacher) 2000 "salt-d" cat_id db).
  - discriminate.
  - intros Hfree. apply (Hfree bob); [right; left | reflexivity].
Defined.

(** Ann, a teacher, may not add an assignment to Bob's course; the
    administrator may; Bob, a student, does not pass the gate. *)
Lemma access_gate_witness :
  require_role bob ["teacher"; "admin"] = Raise (HTTPException 403 "Forbidden")
  ∧ require_role ann ["teacher"; "admin"] = Ok tt
  ∧ create_assignment homework ann 2000 homework_id (Some db)
    = (Raise (HTTPException 403 "Not your course"), Some db)
  ∧ create_assignment homework root 2000 homework_id (Some db)
    = (Ok (serialize_doc (registered_assignment homework 2000 homework_id)),
       Some (stored db "assignment" (registered_assignment homework 2000 homework_id))).
Proof.
  split; [|split; [|split]].
  - apply (proj1 (access_gate bob ["teacher"; "admin"])).
    intros (r & Hr & Hin). vm_compute in Hr. injection Hr as <-.
    apply elem_of_cons in Hin as [Hin|Hin]; [discriminate |].
    apply elem_of_cons in Hin as [Hin|Hin]; [discriminate |].
    by apply elem_of_nil in Hin.
  - apply (proj1 (proj2 (access_gate ann ["teacher"; "admin"]))).
    exists "teacher". split; [reflexivity | left].
  - refine (proj1 (proj2 (proj2 (access_gate ann ["teacher"; "admin"]))
                     homework 2000 homework_id algebra_id db algebra _ _)
              (VOid ann_id) _ _ _).
    + reflexivity.
    + reflexivity.
    + reflexivity.
    + reflexivity.
    + vm_compute. discriminate.
  - refine (proj2 (proj2 (proj2 (proj2 (access_gate root ["teacher"; "admin"]))
                     homework 2000 homework_id algebra_id db algebra _ _)) _).
    + reflexivity.
    + reflexivity.
    + reflexivity.
Defined.

(** Cat registers as a teacher at 1000; at 2000 the registration token
    authenticates and creates a course, while login is refused. *)
Lemma approval_only_in_login_witness :
  let account := registered_doc (cat_request teacher) 1000 cat_hash cat_id in
  let token := issued_token account (VOid cat_id) 1000 in
  let s1 := Some (stored db "user" account) in
  account !! "approved" = Some (VBool false)
  ∧ get_current_user (Some ("Bearer " +:+ token)) 2000 s1 = (Ok account, s1)
  ∧ (∃ out s2,
       Depends_get_current_user
         (λ current, create_course (CourseCreate.mk "Geometry" None None)
                       current 2000 homework_id)
         (Some ("Bearer " +:+ token)) 2000 s1 = (Ok out, s2))
  ∧ login (LoginRequest.mk "cat@school.example" "tr0ub4dor") 2000 s1
    = (Raise (HTTPException 403 "Account pending approval"), s1)
  ∧ get_current_user (Some ("Bearer " +:+ issued_token ann (VOid ann_id) 1000))
      2000 (Some db) = (Ok ann, Some db)
  ∧ require_role (<["approved" := VBool false]> ann) ["teacher"; "admin"] = Ok tt.
Proof.
  intros account token s1.
  destruct approval_only_in_login as (Hauth & Hgate & _ & Hflow).
  assert (email_free db "cat@school.example") as Hfree.
  { apply email_free_check. reflexivity. }
  assert (id_free db cat_id) as Hid.
  { apply id_free_check. reflexivity. }
  assert (bcrypt_hash "tr0ub4dor" "salt-d" = Ok cat_hash) as Hhash.
  { reflexivity. }
  destruct (Hflow (cat_request teacher) "salt-d" cat_hash cat_id homework_id db
              (CourseCreate.mk "Geometry" None None) 1000 2000
              eq_refl Hfree Hhash Hid eq_refl)
    as (_ & Happ & Huser & Hcourse & Hlogin).
  split; [exact Happ |]. split; [exact Huser |].
  split; [eexists _, _; exact Hcourse |]. split; [exact Hlogin |]. split.
  - apply (Hauth ann ann_id db 1000 2000).
    + reflexivity.
    + reflexivity.
    + reflexivity.
    + reflexivity.
  - apply (Hgate ann ["teacher"; "admin"] "teacher" (VBool false)).
    + reflexivity.
    + left.
Defined.


(** ** The further handlers on the sample data *)

#[local] Existing Instance ReferenceCursor.cursor.
#[local] Existing Instance ReferenceCursorFacts.cursor_spec.

Lemma oid_roundtrip_witness :
  oid (VStr "654f1a2b3c4d5e6f708192a3") = Ok ann_id ∧ ann_id = ann_id.
Proof.
  split.
  - exact (proj1 (oid_roundtrip ann_id)).
  - exact (proj2 (proj2 (oid_roundtrip ann_id)) ann_id eq_refl).
Defined.

Lemma oid_invalid_witness :
  oid (VStr "654f1a2b") = Raise (HTTPException 400 "Invalid id format")
  ∧ oid (VInt 7) = Raise (HTTPException 400 "Invalid id format").
Proof.
  split.
  - apply (oid_invalid (VStr "654f1a2b")).
    + discriminate.
    + intros s [= <-]. discriminate.
    + discriminate.
  - apply (oid_invalid (VInt 7)); discriminate.
Defined.

Lemma serialize_doc_shape_witness :
  serialize_doc ann !! "id" = Some (VStr "654f1a2b3c4d5e6f708192a3")
  ∧ serialize_doc ann !! "created_at" = Some (VStr (datetime_isoformat 1000))
  ∧ serialize_doc ann !! "_id" = None.
Proof.
  destruct (serialize_doc_shape ann) as (Hid & _ & Hprinted & Hother).
  split; [|split].
  - exact (Hprinted (VOid ann_id) eq_refl).
  - refine (Hother "created_at" _ _); [discriminate | left; discriminate].
  - exact Hid.
Defined.

Lemma scheme_case_insensitive_witness :
  get_current_user (Some ("BEARER" +:+ String " " (issued_token ann (VOid ann_id) 1000)))
    2000 (Some db)
  = get_current_user
      (Some ("Bearer" +:+ String " " (issued_token ann (VOid ann_id) 1000)))
      2000 (Some db).
Proof.
  apply (scheme_case_insensitive "BEARER"). reflexivity.
Defined.

Lemma live_token_without_account_witness :
  get_current_user (Some ("Bearer " +:+ issued_token ann (VOid ann_id) 1000))
    2000 (Some db_malformed)
    = (Raise (HTTPException 401 "Invalid token"), Some db_malformed)
  ∧ get_current_user (Some ("Bearer " +:+ issued_token ann (VOid ann_id) 1000))
      2000 None = (Raise (HTTPException 401 "Invalid token"), None).
Proof.
  destruct (live_token_without_account ann ann_id 1000 2000) as [Hgone Hnodb];
    [reflexivity | reflexivity | reflexivity |].
  split; [|exact Hnodb].
  apply Hgone. apply id_free_check. reflexivity.
Defined.

Lemma me_hides_password_hash_witness :
  ∃ out, me ann (Some db) = (Ok out, Some db)
         ∧ out !! "password_hash" = None
         ∧ out !! "id" = Some (VStr "654f1a2b3c4d5e6f708192a3")
         ∧ out !! "email" = Some (VStr "ann@school.example").
Proof.
  destruct (me_hides_password_hash ann (Some db))
    as (out & Hout & Hhash & _ & Hid & Hother).
  exists out. split; [exact Hout |]. split; [exact Hhash |]. split.
  - exact (Hid (VOid ann_id) eq_refl).
  - transitivity (isoformat_value <$> ann !! "email"); [apply Hother | reflexivity].
    apply not_elem_of_check. reflexivity.
Defined.

Lemma update_me_nothing_to_set_witness :
  update_me (ProfileUpdate.mk None None None) ann 2000 (Some db)
    = (Ok (serialize_doc ann), Some db)
  ∧ serialize_doc ann !! "password_hash"
    = Some (VStr (Reference.hash "correct horse" "salt-a")).
Proof.
  destruct (update_me_nothing_to_set ann 2000 db) as [Hsame Hleak].
  split; [exact Hsame |]. apply Hleak. reflexivity.
Defined.

Lemma update_me_sets_profile_only_witness :
  let rename := ProfileUpdate.mk (Some "Ann B.") None None in
  let account := profile_fields rename 2000 ∪ ann in
  fst (update_me rename ann 2000 (Some db))
    = Ok (serialize_doc (without_password_hash account))
  ∧ account !! "role" = ann !! "role"
  ∧ account !! "approved" = ann !! "approved"
  ∧ account !! "password_hash" = ann !! "password_hash".
Proof.
  intros rename account.
  destruct (update_me_sets_profile_only rename ann (VOid ann_id) 2000 db)
    as (Hrun & _ & Hkeep & _).
  - discriminate.
  - reflexivity.
  - split; [by rewrite Hrun |].
    repeat split; apply Hkeep; apply not_elem_of_check; reflexivity.
Defined.

Lemma approve_user_refusals_witness :
  approve_user (ApproveUserRequest.mk (ObjectId_str ann_id) true) bob 2000 (Some db)
    = (Raise (HTTPException 403 "Forbidden"), Some db)
  ∧ approve_user (ApproveUserRequest.mk "ann" true) root 2000 (Some db)
    = (Raise (HTTPException 400 "Invalid id format"), Some db)
  ∧ approve_user (ApproveUserRequest.mk (ObjectId_str School.fresh_id) true)
      root 2000 (Some db)
    = (Raise (HTTPException 404 "User not found"), Some db).
Proof.
  split; [|split].
  - refine (proj1 (approve_user_refusals _ bob 2000 db) _). discriminate.
  - refine (proj1 (proj2 (approve_user_refusals _ root 2000 db)) _ _).
    + reflexivity.
    + discriminate.
  - refine (proj2 (proj2 (approve_user_refusals _ root 2000 db)) School.fresh_id _ _ _).
    + reflexivity.
    + reflexivity.
    + apply id_free_check. reflexivity.
Defined.

Lemma approve_user_effect_witness :
  let approved := approval_fields true 2000 ∪ ann in
  snd (approve_user (ApproveUserRequest.mk (ObjectId_str ann_id) true) root 2000
         (Some db))
    = Some (updated db "user" {[ "_id" := VOid ann_id ]} (approval_fields true 2000))
  ∧ approved !! "approved" = Some (VBool true)
  ∧ approved !! "role" = Some (VStr "teacher")
  ∧ approved !! "password_hash" = ann !! "password_hash".
Proof.
  intros approved.
  destruct (approve_user_effect (ApproveUserRequest.mk (ObjectId_str ann_id) true)
              root ann ann_id 2000 db eq_refl eq_refl eq_refl)
    as (Hrun & _ & Happ & Hkeep & _).
  split; [by rewrite Hrun |]. split; [exact Happ |]. split.
  - transitivity (ann !! "role"); [apply Hkeep | reflexivity].
    apply not_elem_of_check. reflexivity.
  - apply Hkeep.
    apply not_elem_of_check. reflexivity.
Defined.

Lemma approve_then_login_witness :
  let account := registered_doc (cat_request teacher) 1000 cat_hash cat_id in
  let s1 := Some (stored db "user" account) in
  let db2 := updated (stored db "user" account) "user" {[ "_id" := VOid cat_id ]}
               (approval_fields true 2000) in
  login (LoginRequest.mk "cat@school.example" "tr0ub4dor") 2000 s1
    = (Raise (HTTPException 403 "Account pending approval"), s1)
  ∧ login (LoginRequest.mk "cat@school.example" "tr0ub4dor") 3000 (Some db2)
    = (Ok (TokenResponse.mk
             (issued_token (approval_fields true 2000 ∪ account) (VOid cat_id) 3000)
             "bearer"), Some db2).
Proof.
  intros account s1 db2.
  destruct (approve_then_login (cat_request teacher) "salt-d" cat_hash cat_id db
              root true 1000 2000 3000) as (_ & Hbefore & _ & Hafter).
  - reflexivity.
  - apply email_free_check. reflexivity.
  - reflexivity.
  - apply id_free_check. reflexivity.
  - reflexivity.
  - split; [exact Hbefore | exact Hafter].
Defined.

Lemma list_users_hides_hashes_witness :
  list_users bob (Some db) = (Raise (HTTPException 403 "Forbidden"), Some db)
  ∧ ∃ out, list_users root (Some db) = (Ok out, Some db)
           ∧ length out = 3%nat
           ∧ ∀ d, d ∈ out → d !! "password_hash" = None ∧ d !! "_id" = None.
Proof.
  split.
  - refine (proj1 (list_users_hides_hashes bob db) _). discriminate.
  - exact (proj2 (list_users_hides_hashes root db) eq_refl).
Defined.

Lemma stats_counts_witness :
  stats ann (Some db) = (Raise (HTTPException 403 "Forbidden"), Some db)
  ∧ ∃ out users students teachers,
      stats root (Some db) = (Ok out, Some db)
      ∧ out !! "users" = Some (VInt users)
      ∧ out !! "students" = Some (VInt students)
      ∧ out !! "teachers" = Some (VInt teachers)
      ∧ out !! "courses" = Some (VInt 1)
      ∧ users = 3
      ∧ 0 ≤ students ∧ 0 ≤ teachers ∧ students + teachers ≤ users.
Proof.
  split.
  - refine (proj1 (stats_counts ann db) _). discriminate.
  - exact (proj2 (stats_counts root db) eq_refl).
Defined.

Lemma my_courses_own_only_witness :
  (∃ found, my_courses School.ann_approved (Some School.db)
            = (Ok (serialize_doc <$> found), Some School.db)
     ∧ School.algebra ∈ found ∧ School.botany ∉ found)
  ∧ (∃ found, my_courses root (Some School.db)
              = (Ok (serialize_doc <$> found), Some School.db)
       ∧ found ≡ₚ [School.algebra; School.botany]).
Proof.
  split.
  - destruct (proj1 (my_courses_own_only School.ann_approved (VOid ann_id) School.db
                       eq_refl) eq_refl) as (found & Hrun & Hfound).
    exists found. split; [exact Hrun |]. split.
    + apply Hfound. split; [left | reflexivity].
    + intros Hin. apply Hfound in Hin as [_ Hown]. discriminate Hown.
  - exact (proj2 (my_courses_own_only root (VOid root_id) School.db eq_refl) eq_refl).
Defined.

Lemma assign_teacher_needs_teacher_witness :
  assign_teacher
    (AssignTeacherRequest.mk (ObjectId_str School.botany_id) (ObjectId_str bob_id))
    root 2000 (Some School.db)
    = (Raise (HTTPException 400 "Invalid teacher"), Some School.db)
  ∧ assign_teacher
      (AssignTeacherRequest.mk (ObjectId_str School.botany_id)
         (ObjectId_str School.fresh_id))
      root 2000 (Some School.db)
    = (Raise (HTTPException 400 "Invalid teacher"), Some School.db).
Proof.
  split.
  - refine (proj2 (assign_teacher_needs_teacher
                     (AssignTeacherRequest.mk (ObjectId_str School.botany_id)
                        (ObjectId_str bob_id))
                     root bob_id 2000 School.db eq_refl eq_refl) bob _ _).
    + reflexivity.
    + discriminate.
  - refine (proj1 (assign_teacher_needs_teacher
                     (AssignTeacherRequest.mk (ObjectId_str School.botany_id)
                        (ObjectId_str School.fresh_id))
                     root School.fresh_id 2000 School.db eq_refl eq_refl) _).
    apply id_free_check. reflexivity.
Defined.

Lemma assign_teacher_then_create_assignment_witness :
  let botany_homework :=
    AssignmentCreate.mk (ObjectId_str School.botany_id) "Leaves" None None in
  let assigned (spelling : string) :=
    updated School.db "course" {[ "_id" := VOid School.botany_id ]}
      (assignment_fields spelling 2000) in
  create_assignment botany_homework School.ann_approved 3000 School.fresh_id
    (Some (assigned (ObjectId_str ann_id)))
    = (Ok (serialize_doc (registered_assignment botany_homework 3000 School.fresh_id)),
       Some (stored (assigned (ObjectId_str ann_id)) "assignment"
               (registered_assignment botany_homework 3000 School.fresh_id)))
  ∧ create_assignment botany_homework School.ann_approved 3000 School.fresh_id
      (Some (assigned School.ann_id_capitals))
    = (Raise (HTTPException 403 "Not your course"),
       Some (assigned School.ann_id_capitals)).
Proof.
  intros botany_homework assigned. split.
  - refine (proj2 (proj2 (assign_teacher_then_create_assignment
             (AssignTeacherRequest.mk (ObjectId_str School.botany_id)
                (ObjectId_str ann_id))
             botany_homework root School.ann_approved School.botany
             ann_id School.botany_id School.fresh_id 2000 3000 School.db
             _ _ _ _ _ _ _))); reflexivity.
  - refine (proj2 (proj2 (assign_teacher_then_create_assignment
             (AssignTeacherRequest.mk (ObjectId_str School.botany_id)
                School.ann_id_capitals)
             botany_homework root School.ann_approved School.botany
             ann_id School.botany_id School.fresh_id 2000 3000 School.db
             _ _ _ _ _ _ _))); reflexivity.
Defined.

Lemma create_course_then_create_assignment_witness :
  let geometry := CourseCreate.mk "Geometry" None None in
  let first_sheet :=
    AssignmentCreate.mk (ObjectId_str School.fresh_id) "Sheet 1" None None in
  let db' := stored School.db "course"
               (registered_course geometry (VOid ann_id) 2000 School.fresh_id) in
  snd (create_course geometry School.ann_approved 2000 School.fresh_id (Some School.db))
    = Some db'
  ∧ fst (create_assignment first_sheet School.ann_approved 3000 School.submission_id
           (Some db'))
    = Ok (serialize_doc (registered_assignment first_sheet 3000 School.submission_id))
  ∧ create_assignment first_sheet School.tom 3000 School.submission_id (Some db')
    = (Raise (HTTPException 403 "Not your course"), Some db').
Proof.
  intros geometry first_sheet db'.
  destruct (create_course_then_create_assignment geometry first_sheet
              School.ann_approved School.tom (VOid ann_id) (VOid School.other_id)
              School.fresh_id School.submission_id 2000 3000 School.db)
    as (Hcourse & Hown & Hother).
  - reflexivity.
  - reflexivity.
  - reflexivity.
  - reflexivity.
  - discriminate.
  - apply id_free_in_check. reflexivity.
  - reflexivity.
  - split; [exact (f_equal snd Hcourse) |].
    split; [exact (f_equal fst Hown) | exact Hother].
Defined.

Lemma upload_material_ownership_witness :
  upload_material School.slides School.tom 2000 School.fresh_id (Some School.db)
    = (Raise (HTTPException 403 "Not your course"), Some School.db)
  ∧ upload_material School.slides School.ann_approved 2000 School.fresh_id
      (Some School.db)
    = (Ok (serialize_doc (registered_material School.slides 2000 School.fresh_id)),
       Some (stored School.db "material"
               (registered_material School.slides 2000 School.fresh_id)))
  ∧ upload_material
      (MaterialCreate.mk (ObjectId_str School.fresh_id) "Slides" None None)
      School.ann_approved 2000 School.fresh_id (Some School.db)
    = (Raise (HTTPException 404 "Course not found"), Some School.db).
Proof.
  split; [|split].
  - destruct (upload_material_ownership School.slides School.tom "teacher" algebra_id
                School.fresh_id 2000 School.db) as [_ Hfound];
      [reflexivity | left | reflexivity |].
    destruct (Hfound School.algebra eq_refl) as (_ & _ & Hdenied).
    apply (Hdenied (VOid School.other_id)); [reflexivity | reflexivity | discriminate].
  - destruct (upload_material_ownership School.slides School.ann_approved "teacher"
                algebra_id School.fresh_id 2000 School.db) as [_ Hfound];
      [reflexivity | left | reflexivity |].
    destruct (Hfound School.algebra eq_refl) as (_ & Hown & _).
    apply (Hown (VOid ann_id)); reflexivity.
  - destruct (upload_material_ownership
                (MaterialCreate.mk (ObjectId_str School.fresh_id) "Slides" None None)
                School.ann_approved "teacher" School.fresh_id School.fresh_id 2000
                School.db) as [Hnone _];
      [reflexivity | left | reflexivity |].
    apply Hnone. apply id_free_in_check. reflexivity.
Defined.

Lemma create_announcement_audience_witness :
  fst (create_announcement
         (AnnouncementCreate.mk "Holiday" "No classes on Friday"
            (Some (ObjectId_str School.botany_id)) Audience.all)
         School.ann_approved 2000 School.fresh_id (Some School.db))
    = Ok (serialize_doc
            (registered_announcement
               (AnnouncementCreate.mk "Holiday" "No classes on Friday"
                  (Some (ObjectId_str School.botany_id)) Audience.all)
               (VOid ann_id) 2000 School.fresh_id))
  ∧ create_announcement
      (AnnouncementCreate.mk "Holiday" "No classes on Friday" None Audience.course)
      School.ann_approved 2000 School.fresh_id (Some School.db)
    = (Raise (HTTPException 400 "course_id required for course audience"),
       Some School.db).
Proof.
  split.
  - destruct (create_announcement_audience "Holiday" "No classes on Friday"
                (Some (ObjectId_str School.botany_id)) School.ann_approved "teacher"
                (VOid ann_id) School.fresh_id 2000 School.db) as [Hall _];
      [reflexivity | left | reflexivity |].
    exact (f_equal fst Hall).
  - destruct (create_announcement_audience "Holiday" "No classes on Friday"
                None School.ann_approved "teacher"
                (VOid ann_id) School.fresh_id 2000 School.db) as [_ Hcourse];
      [reflexivity | left | reflexivity |].
    apply Hcourse. by left.
Defined.

Lemma enroll_course_twice_witness :
  let d := registered_enrollment (ObjectId_str algebra_id) (VOid bob_id) 2000
             School.enrollment_id in
  enroll_course School.enroll_algebra bob 2000 School.enrollment_id (Some School.db)
    = (Ok (serialize_doc d), Some (stored School.db "enrollment" d))
  ∧ enroll_course School.enroll_algebra bob 3000 School.fresh_id
      (Some (stored School.db "enrollment" d))
    = (Ok (serialize_doc d), Some (stored School.db "enrollment" d)).
Proof.
  apply (enroll_course_twice School.enroll_algebra bob School.algebra (VOid bob_id)
           algebra_id School.enrollment_id School.fresh_id 2000 3000 School.db);
    reflexivity.
Defined.

Lemma enroll_course_refusals_witness :
  enroll_course School.enroll_algebra School.tom 2000 School.fresh_id (Some School.db)
    = (Raise (HTTPException 403 "Forbidden"), Some School.db)
  ∧ enroll_course (EnrollRequest.mk "algebra") bob 2000 School.fresh_id (Some School.db)
    = (Raise (HTTPException 400 "Invalid id format"), Some School.db)
  ∧ enroll_course (EnrollRequest.mk (ObjectId_str School.fresh_id)) bob 2000
      School.fresh_id (Some School.db)
    = (Raise (HTTPException 404 "Course not found"), Some School.db).
Proof.
  split; [|split].
  - refine (proj1 (enroll_course_refusals _ School.tom 2000 _ School.db) _).
    discriminate.
  - refine (proj1 (proj2 (enroll_course_refusals _ bob 2000 _ School.db)) _ _).
    + reflexivity.
    + discriminate.
  - refine (proj2 (proj2 (enroll_course_refusals _ bob 2000 _ School.db))
              School.fresh_id _ _ _).
    + reflexivity.
    + reflexivity.
    + apply id_free_in_check. reflexivity.
Defined.

Lemma submit_needs_enrollment_witness :
  let enrollment := registered_enrollment (ObjectId_str algebra_id) (VOid bob_id) 2000
                      School.enrollment_id in
  let db' := stored School.db "enrollment" enrollment in
  let submission := <["_id" := VOid School.submission_id]>
                      (submission_fields (School.submit_homework "draft")
                         (VOid bob_id) 3000) in
  submit_assignment (School.submit_homework "draft") bob 3000 School.submission_id
    (Some School.db)
    = (Raise (HTTPException 403 "Not enrolled in course"), Some School.db)
  ∧ submit_assignment (School.submit_homework "draft") bob 3000 School.submission_id
      (Some db')
    = (Ok (Some (serialize_doc submission)), Some (stored db' "submission" submission)).
Proof.
  intros enrollment db' submission.
  destruct (submit_needs_enrollment School.enroll_algebra
              (School.submit_homework "draft") bob School.algebra School.homework
              (VOid bob_id) algebra_id homework_id School.enrollment_id
              School.submission_id 2000 3000 School.db)
    as (Hbefore & _ & Hafter); try reflexivity.
  split; [exact Hbefore | exact Hafter].
Defined.

Lemma resubmission_in_place_witness :
  let fields := submission_fields (School.submit_homework "second draft")
                  (VOid bob_id) 3000 in
  let db' := updated School.db_graded "submission"
               {[ "_id" := VOid School.submission_id ]} fields in
  snd (submit_assignment (School.submit_homework "second draft") bob 3000
         School.fresh_id (Some School.db_graded)) = Some db'
  ∧ length (collection db' "submission") = 1%nat
  ∧ (fields ∪ School.bob_submission) !! "content" = Some (VStr "second draft")
  ∧ (fields ∪ School.bob_submission) !! "grade" = Some (VInt 9).
Proof.
  intros fields db'.
  destruct (resubmission_in_place (School.submit_homework "second draft") bob
              School.homework School.bob_enrolled School.bob_submission
              (VOid bob_id) (VStr (ObjectId_str algebra_id))
              (VOid School.submission_id) homework_id School.fresh_id 3000
              School.db_graded)
    as (Hrun & Hlen & _ & Hnew & Hkeep); try reflexivity.
  split; [exact (f_equal snd Hrun) |]. split; [exact Hlen |]. split.
  - apply Hnew. reflexivity.
  - transitivity (School.bob_submission !! "grade"); [apply Hkeep | reflexivity].
    apply not_elem_of_check. reflexivity.
Defined.

Lemma seed_admin_idempotent_witness :
  seed_admin "admin@portal.com" "admin123" 2000 "salt-s" School.fresh_id (Some db)
    = (Ok tt, Some db)
  ∧ snd (seed_admin "admin@portal.com" "admin123" 2000 "salt-s" School.fresh_id
           (Some db_malformed))
    = Some (stored db_malformed "user"
              (seeded_admin "admin@portal.com" (Reference.hash "admin123" "salt-s")
                 2000 School.fresh_id))
  ∧ seed_admin "admin@portal.com" nul_password 2000 "salt-s" School.fresh_id
      (Some db_malformed)
    = (Ok tt, Some db_malformed)
  ∧ seed_admin "admin@portal.com" "admin123" 2000 "salt-s" School.fresh_id None
    = (Ok tt, None).
Proof.
  split; [|split; [|split]].
  - destruct (seed_admin_idempotent "admin@portal.com" "admin123" 2000 2000
                "salt-s" "salt-s" School.fresh_id School.fresh_id (Some db))
      as (Hok & _ & Htaken & _).
    apply injective_projections; [exact Hok |].
    apply (Htaken db eq_refl).
    intros Hfree. apply (Hfree root); [right; right; left | reflexivity].
  - destruct (seed_admin_idempotent "admin@portal.com" "admin123" 2000 2000
                "salt-s" "salt-s" School.fresh_id School.fresh_id (Some db_malformed))
      as (_ & _ & _ & Hfree & _).
    apply (Hfree db_malformed _ eq_refl); [|reflexivity].
    apply email_free_check. reflexivity.
  - destruct (seed_admin_idempotent "admin@portal.com" nul_password 2000 2000
                "salt-s" "salt-s" School.fresh_id School.fresh_id (Some db_malformed))
      as (Hok & _ & _ & _ & Hrefused & _).
    apply injective_projections; [exact Hok |].
    apply (Hrefused db_malformed (PyException "PasswordValueError") eq_refl).
    reflexivity.
  - destruct (seed_admin_idempotent "admin@portal.com" "admin123" 2000 2000
                "salt-s" "salt-s" School.fresh_id School.fresh_id None)
      as (Hok & Hnone & _).
    apply injective_projections; [exact Hok | exact (Hnone eq_refl)].
Defined.

Lemma seed_admin_then_login_witness :
  let account := seeded_admin "admin@portal.com" (Reference.hash "admin123" "salt-s")
                   2000 School.fresh_id in
  login (LoginRequest.mk "admin@portal.com" "admin123") 3000
    (Some (stored db_malformed "user" account))
  = (Ok (TokenResponse.mk (issued_token account (VOid School.fresh_id) 3000) "bearer"),
     Some (stored db_malformed "user" account)).
Proof.
  intros account.
  refine (proj2 (seed_admin_then_login "admin@portal.com" "admin123" 2000 3000
                   "salt-s" (Reference.hash "admin123" "salt-s") School.fresh_id
                   db_malformed _ _)).
  - apply email_free_check. reflexivity.
  - reflexivity.
Defined.

Lemma list_submissions_ownership_witness :
  list_submissions (ObjectId_str homework_id) School.tom (Some School.db_graded)
    = (Raise (HTTPException 403 "Not your course"), Some School.db_graded)
  ∧ (∃ found, list_submissions (ObjectId_str homework_id) School.ann_approved
                (Some School.db_graded)
              = (Ok (serialize_doc <$> found), Some School.db_graded)
       ∧ School.bob_submission ∈ found)
  ∧ list_submissions (ObjectId_str homework_id) School.ann_approved
      (Some {[ "assignment" := [School.homework] ]})
    = (Raise (PyException "AttributeError"), Some {[ "assignment" := [School.homework] ]}).
Proof.
  split; [|split].
  - destruct (list_submissions_ownership (ObjectId_str homework_id)
                (ObjectId_str algebra_id) School.tom School.homework "teacher"
                homework_id algebra_id School.db_graded) as (_ & Hteacher & _);
      [reflexivity | left | reflexivity | reflexivity | reflexivity | reflexivity |].
    destruct (Hteacher School.algebra (VOid School.other_id) eq_refl eq_refl eq_refl)
      as [_ Hdenied].
    apply Hdenied. discriminate.
  - destruct (list_submissions_ownership (ObjectId_str homework_id)
                (ObjectId_str algebra_id) School.ann_approved School.homework "teacher"
                homework_id algebra_id School.db_graded) as (_ & Hteacher & _);
      [reflexivity | left | reflexivity | reflexivity | reflexivity | reflexivity |].
    destruct (Hteacher School.algebra (VOid ann_id) eq_refl eq_refl eq_refl)
      as [Hshown _].
    destruct (Hshown eq_refl) as (found & Hrun & Hfound).
    exists found. split; [exact Hrun |]. apply Hfound. split; [left | reflexivity].
  - destruct (list_submissions_ownership (ObjectId_str homework_id)
                (ObjectId_str algebra_id) School.ann_approved School.homework "teacher"
                homework_id algebra_id {[ "assignment" := [School.homework] ]})
      as (_ & _ & Horphan);
      [reflexivity | left | reflexivity | reflexivity | reflexivity | reflexivity |].
    apply Horphan; [reflexivity |]. apply id_free_in_check. reflexivity.
Defined.
